(** * Xapiand Python clients: URL builder, request dispatcher, stream decoder

    A shallow embedding of the two HTTP client adapters of the repository,

    - [contrib/python/xapiand/__init__.py]  (the newer client, module [Newer]),
    - [contrib/python/haystack/client.py]   (the legacy client, module [Legacy]),

    together with the properties of the adapter contract that the
    specification lists.  Python values are an inductive type, dictionaries
    are insertion-ordered association lists, exceptions are an error monad,
    and the generator that decodes a streamed response is an explicit state
    with a [next] function. *)

From Stdlib Require Import String Ascii List ZArith Lia Bool DecimalString.
Import ListNotations.
Local Open Scope string_scope.
Local Open Scope Z_scope.

(** ** Python values *)

(** The values that travel through the clients: query-parameter values,
    decoded JSON documents, header values.  A float is kept as the literal
    the decoder read; module [Float] below gives the double it denotes where
    the clients test or truncate it. *)
#[warnings="-register-all"]
Inductive pyval : Type :=
| VNone
| VBool (b : bool)
| VInt (z : Z)
| VFloat (literal : string)
| VStr (s : string)
| VList (l : list pyval)
| VDict (d : list (string * pyval)).

(** A [dict] with string keys, in insertion order (keys are unique). *)
Definition dict := list (string * pyval).

(** The exceptions the clients raise or let through.  [JSONDecodeError] is
    the [ValueError] of [json.loads]; [ValueError] also stands for its
    subclass [UnicodeEncodeError]; [TransportError] stands for what the
    [requests] library raises on its own (timeouts, connection errors). *)
Inductive exn : Type :=
| KeyError (key : string)
| DoesNotExist
| HTTPError (status : Z)
| JSONDecodeError
| StopIteration
| AttributeError
| IndexError
| TypeError
| ValueError
| OverflowError
| TransportError (what : string).

(** A computation that returns or raises. *)
Inductive result (A : Type) : Type :=
| Return (a : A)
| Raise (e : exn).
Arguments Return {A} a.
Arguments Raise {A} e.

Definition bind {A B} (m : result A) (k : A -> result B) : result B :=
  match m with
  | Return a => k a
  | Raise e => Raise e
  end.

Notation "x <- m ;; k" := (bind m (fun x => k))
  (at level 61, m at next level, right associativity).

(** ** Dictionaries *)

Module Dict.

(** [d.get(k)] *)
Fixpoint get (d : dict) (k : string) : option pyval :=
  match d with
  | [] => None
  | (k', v) :: d' => if String.eqb k' k then Some v else get d' k
  end.

(** [d[k] = v]: an existing key keeps its place, a new one goes last. *)
Fixpoint set (d : dict) (k : string) (v : pyval) : dict :=
  match d with
  | [] => [(k, v)]
  | (k', v') :: d' =>
      if String.eqb k' k then (k, v) :: d' else (k', v') :: set d' k v
  end.

(** [dict(items)]: a later pair overrides an earlier one with the same key. *)
Definition of_items (items : list (string * pyval)) : dict :=
  fold_left (fun d kv => set d (fst kv) (snd kv)) items [].

(** [k in d] *)
Definition mem (d : dict) (k : string) : bool :=
  match get d k with Some _ => true | None => false end.

(** [d.pop(k)] when only the remaining dictionary matters. *)
Fixpoint remove (d : dict) (k : string) : dict :=
  match d with
  | [] => []
  | (k', v) :: d' =>
      if String.eqb k' k then remove d' k else (k', v) :: remove d' k
  end.

Definition keys (d : dict) : list string := map fst d.

End Dict.

(** ** Strings *)

Module Str.

Definition colon : ascii := ":"%char.
Definition underscore : ascii := "_"%char.

(** [c in s] for a one-character [c]. *)
Fixpoint contains_char (c : ascii) (s : string) : bool :=
  match s with
  | EmptyString => false
  | String a s' => if Ascii.eqb a c then true else contains_char c s'
  end.

(** [s.partition(c)] without the separator: the text before the first
    [c] and the text after it; the whole string and [""] when [c] does not
    occur. *)
Fixpoint partition (c : ascii) (s : string) : string * string :=
  match s with
  | EmptyString => (EmptyString, EmptyString)
  | String a s' =>
      if Ascii.eqb a c then (EmptyString, s')
      else let '(h, t) := partition c s' in (String a h, t)
  end.

(** [sep.join(parts)] *)
Fixpoint join (sep : string) (parts : list string) : string :=
  match parts with
  | [] => ""
  | [p] => p
  | p :: ps => p ++ sep ++ join sep ps
  end.

(** [s.replace('__', '.')]: occurrences are found left to right and do not
    overlap. *)
Fixpoint replace_dunder (s : string) : string :=
  match s with
  | String a (String b rest as s') =>
      if (Ascii.eqb a underscore && Ascii.eqb b underscore)%bool
      then String "." (replace_dunder rest)
      else String a (replace_dunder s')
  | String a EmptyString => String a EmptyString
  | EmptyString => EmptyString
  end.

(** [s.replace('-', '_')] *)
Fixpoint replace_hyphen (s : string) : string :=
  match s with
  | String a rest =>
      String (if Ascii.eqb a "-" then "_"%char else a) (replace_hyphen rest)
  | EmptyString => EmptyString
  end.

(** [sub in s] *)
Fixpoint contains (sub s : string) : bool :=
  if String.prefix sub s then true
  else match s with
       | EmptyString => false
       | String _ s' => contains sub s'
       end.

(** The characters [str.strip()] removes: space, tab, line feed, carriage
    return, vertical tab, form feed. *)
Definition is_space (c : ascii) : bool :=
  let n := nat_of_ascii c in
  (Nat.eqb n 32 || (Nat.leb 9 n && Nat.leb n 13))%bool.

Fixpoint lstrip (s : string) : string :=
  match s with
  | String a s' => if is_space a then lstrip s' else s
  | EmptyString => EmptyString
  end.

(** [s.rstrip(chars)] for the characters accepted by [drop]. *)
Fixpoint rstrip_by (drop : ascii -> bool) (s : string) : string :=
  match s with
  | EmptyString => EmptyString
  | String a s' =>
      match rstrip_by drop s' with
      | EmptyString => if drop a then EmptyString else String a EmptyString
      | r => String a r
      end
  end.

Definition rstrip : string -> string := rstrip_by is_space.
Definition rstrip_comma : string -> string :=
  rstrip_by (fun c => Ascii.eqb c ","%char).

Definition startswith (s p : string) : bool := String.prefix p s.

Fixpoint last_char (s : string) : option ascii :=
  match s with
  | EmptyString => None
  | String a EmptyString => Some a
  | String _ s' => last_char s'
  end.

(** [s.endswith(c)] for a one-character [c]. *)
Definition endswith_char (s : string) (c : ascii) : bool :=
  match last_char s with
  | Some a => Ascii.eqb a c
  | None => false
  end.

(** ASCII lower case, as header names are compared. *)
Definition lower_char (c : ascii) : ascii :=
  let n := nat_of_ascii c in
  if (Nat.leb 65 n && Nat.leb n 90)%bool then ascii_of_nat (n + 32) else c.

Fixpoint lower (s : string) : string :=
  match s with
  | String a s' => String (lower_char a) (lower s')
  | EmptyString => EmptyString
  end.

(** ['{}'.format(n)] for an integer. *)
Definition of_Z (n : Z) : string := NilZero.string_of_int (Z.to_int n).

End Str.

(** ** Floats

    A float literal [[+-]digits[.digits][(e|E)[+-]digits]] and the double
    Python makes of it: the nearest one, ties to the even mantissa, with
    the subnormals below [2^-1022] and infinity from [2^1024] on. *)

Module Float.

Definition digit (c : ascii) : option Z :=
  let n := nat_of_ascii c in
  if (Nat.leb 48 n && Nat.leb n 57)%bool then Some (Z.of_nat n - 48) else None.

(** The number a run of decimal digits denotes, read after [acc]; [None]
    when a character is no digit. *)
Fixpoint decimal (acc : Z) (s : string) : option Z :=
  match s with
  | EmptyString => Some acc
  | String c s' =>
      match digit c with
      | Some d => decimal (10 * acc + d) s'
      | None => None
      end
  end.

(** The text before the first character [p] accepts, and the text after
    it when there is such a character. *)
Fixpoint cut (p : ascii -> bool) (s : string) : string * option string :=
  match s with
  | EmptyString => (EmptyString, None)
  | String a s' =>
      if p a then (EmptyString, Some s')
      else let '(h, t) := cut p s' in (String a h, t)
  end.

Definition negative (s : string) : bool :=
  match s with
  | String "-" _ => true
  | _ => false
  end.

Definition unsigned (s : string) : string :=
  match s with
  | String "-" r => r
  | String "+" r => r
  | _ => s
  end.

(** The exponent part, [0] when the literal has none. *)
Definition exponent (ex : option string) : option Z :=
  match ex with
  | None => Some 0
  | Some EmptyString => None
  | Some t =>
      match unsigned t with
      | EmptyString => None
      | digits => option_map (fun x => if negative t then - x else x)
                             (decimal 0 digits)
      end
  end.

(** A double: [k * 2^p] with its sign, an infinity, or not a number. *)
Inductive double : Type :=
| Finite (neg : bool) (k p : Z)
| Infinite (neg : bool)
| NotANumber.

(** The double nearest to the positive rational [n / d]. *)
Definition round (neg : bool) (n d : Z) : double :=
  let e := if d <=? n then Z.log2 (n / d)
           else - Z.log2_up ((d + n - 1) / n) in
  let p := Z.max (e - 52) (-1074) in
  let num := if 0 <=? p then n else n * 2 ^ (- p) in
  let den := if 0 <=? p then d * 2 ^ p else d in
  let k0 := num / den in
  let r := num mod den in
  let k := if (den <? 2 * r) || ((den =? 2 * r) && Z.odd k0) then k0 + 1
           else k0 in
  if (0 <=? p) && (2 ^ 1024 <=? k * 2 ^ p) then Infinite neg
  else Finite neg k p.

(** [float(literal)]; [None] for a text that is no float literal. *)
Definition of_literal (literal : string) : option double :=
  let neg := negative literal in
  let body := unsigned literal in
  let name := Str.lower body in
  if String.eqb name "nan" then Some NotANumber
  else if (String.eqb name "inf" || String.eqb name "infinity")%bool
  then Some (Infinite neg)
  else
    let '(mantissa, ex) :=
      cut (fun c => (Ascii.eqb c "e" || Ascii.eqb c "E")%bool) body in
    let '(whole, frac) := cut (fun c => Ascii.eqb c ".") mantissa in
    let frac := match frac with Some f => f | None => "" end in
    match (whole ++ frac)%string, decimal 0 (whole ++ frac), exponent ex with
    | String _ _, Some m, Some x =>
        let scale := x - Z.of_nat (String.length frac) in
        if m =? 0 then Some (Finite neg 0 0)
        else if 0 <=? scale then Some (round neg (m * 10 ^ scale) 1)
        else Some (round neg m (10 ^ (- scale)))
    | _, _, _ => None
    end.

(** [x == 0.0] *)
Definition is_zero (literal : string) : bool :=
  match of_literal literal with
  | Some (Finite _ k _) => k =? 0
  | _ => false
  end.

(** The integer part of a finite double, towards zero. *)
Definition trunc (neg : bool) (k p : Z) : Z :=
  let n := if 0 <=? p then k * 2 ^ p else k / 2 ^ (- p) in
  if neg then - n else n.

End Float.

(** ** Arguments shared by the two clients *)

(** A port is an integer ([8880]) or the text after the colon of a
    [host:port] string. *)
Inductive port_t : Type :=
| PortInt (n : Z)
| PortStr (s : string).

(** The index argument: one name, or a tuple or list of names. *)
Inductive index_arg : Type :=
| IndexOne (name : string)
| IndexMany (names : list string).

(** The body argument: a dictionary, or a string (serialized text or the
    path of a file). *)
Inductive body_arg : Type :=
| BodyDict (d : dict)
| BodyStr (s : string).

Module Py.

(** Truth value of an optional string: [None] and [''] are false. *)
Definition str_truthy (s : option string) : bool :=
  match s with
  | Some EmptyString | None => false
  | Some _ => true
  end.

(** Truth value of an optional port: [None], [0] and [''] are false. *)
Definition port_truthy (p : option port_t) : bool :=
  match p with
  | None => false
  | Some (PortInt n) => negb (n =? 0)
  | Some (PortStr s) => negb (String.eqb s "")
  end.

(** Truth value of a value. *)
Definition truthy (v : pyval) : bool :=
  match v with
  | VNone => false
  | VBool b => b
  | VInt z => negb (z =? 0)
  | VFloat literal => negb (Float.is_zero literal)
  | VStr s => negb (String.eqb s "")
  | VList l => match l with [] => false | _ => true end
  | VDict d => match d with [] => false | _ => true end
  end.

(** Whether every character of [s] is an ASCII character. *)
Fixpoint is_ascii (s : string) : bool :=
  match s with
  | EmptyString => true
  | String a s' => (Nat.ltb (nat_of_ascii a) 128 && is_ascii s')%bool
  end.

(** [setattr(obj, name, v)] on an instance of a class without slots, as
    [Result] and [Results] are: [attrs] is the dictionary of the instance
    and the result is that dictionary afterwards.  Three names are no
    entries of it but descriptors of the class: [__class__] takes a class
    and no value here is one, [__dict__] takes a dictionary, which then is
    the dictionary of the instance, and [__weakref__] cannot be written. *)
Definition setattr (attrs : dict) (name : string) (v : pyval) : result dict :=
  if String.eqb name "__class__" then Raise TypeError
  else if String.eqb name "__dict__" then
    match v with
    | VDict d => Return d
    | _ => Raise TypeError
    end
  else if String.eqb name "__weakref__" then Raise AttributeError
  else Return (Dict.set attrs name v).

(** [setattr] with a key of a decoded document as the name.  In Python 2,
    the language of the clients (they call [results.next()] and split the
    lines of a response on a [str]), such a key is a [unicode] string, which
    [setattr] encodes as ASCII first: a key with another character makes it
    raise [UnicodeEncodeError], a [ValueError]. *)
Definition setattr_key (attrs : dict) (name : string) (v : pyval)
  : result dict :=
  if is_ascii name then setattr attrs name v else Raise ValueError.

(** ['{}'.format(x)] *)
Definition fmt_str (s : option string) : string :=
  match s with Some s => s | None => "None" end.

Definition fmt_port (p : option port_t) : string :=
  match p with
  | Some (PortInt n) => Str.of_Z n
  | Some (PortStr s) => s
  | None => "None"
  end.

(** [if ip and ':' in ip: ip, _, port = ip.partition(':')] *)
Definition split_host (ip : option string) (port : option port_t)
  : option string * option port_t :=
  match ip with
  | Some s =>
      if (str_truthy ip && Str.contains_char Str.colon s)%bool
      then let '(h, p) := Str.partition Str.colon s in
           (Some h, Some (PortStr p))
      else (ip, port)
  | None => (ip, port)
  end.

End Py.

(** ** JSON text

    [json.loads] belongs to Python's standard library, not to the
    repository: the clients below take the decoder as a parameter
    ([env_loads]).  [Json.loads] is a decoder for closed examples: objects,
    arrays, strings with the one-character escapes, integers, floats (kept
    as literals), [true], [false], [null], [NaN] and the infinities, with
    Python's whitespace and Python's refusal of trailing commas and of text
    after the document.  A [\u] escape is not decoded (the text is
    rejected). *)

Module Json.

Definition is_ws (c : ascii) : bool :=
  (Ascii.eqb c " " || Ascii.eqb c "009" || Ascii.eqb c "010" || Ascii.eqb c "013")%bool.

Fixpoint skip_ws (s : string) : string :=
  match s with
  | String a s' => if is_ws a then skip_ws s' else s
  | EmptyString => EmptyString
  end.

Definition is_digit (c : ascii) : bool :=
  let n := nat_of_ascii c in (Nat.leb 48 n && Nat.leb n 57)%bool.

(** The longest run of digits at the head of [s], and what follows it. *)
Fixpoint digits (s : string) : string * string :=
  match s with
  | String a s' =>
      if is_digit a then let '(d, r) := digits s' in (String a d, r)
      else (EmptyString, s)
  | EmptyString => (EmptyString, EmptyString)
  end.

Definition digit_val (c : ascii) : Z := Z.of_nat (nat_of_ascii c) - 48.

Fixpoint digits_val (acc : Z) (d : string) : Z :=
  match d with
  | String a d' => digits_val (10 * acc + digit_val a) d'
  | EmptyString => acc
  end.

(** The integer part [0 | [1-9][0-9]*] : a leading zero stands alone. *)
Definition int_part (s : string) : option (string * string) :=
  match s with
  | String "0" r => Some ("0", r)
  | String a _ =>
      if is_digit a then Some (digits s) else None
  | EmptyString => None
  end.

(** The optional fraction [.[0-9]+]. *)
Definition frac_part (s : string) : string * string :=
  match s with
  | String "." r =>
      match digits r with
      | (EmptyString, _) => ("", s)
      | (d, r') => (String "." d, r')
      end
  | _ => ("", s)
  end.

(** The optional exponent [[eE][-+]?[0-9]+]. *)
Definition exp_part (s : string) : string * string :=
  match s with
  | String e r =>
      if (Ascii.eqb e "e" || Ascii.eqb e "E")%bool then
        let '(sign, r1) :=
          match r with
          | String c r' =>
              if (Ascii.eqb c "-" || Ascii.eqb c "+")%bool
              then (String c "", r') else ("", r)
          | EmptyString => ("", r)
          end in
        match digits r1 with
        | (EmptyString, _) => ("", s)
        | (d, r') => (String e (sign ++ d), r')
        end
      else ("", s)
  | EmptyString => ("", s)
  end.

(** A number whose sign was read already. *)
Definition number (neg : bool) (s : string) : option (pyval * string) :=
  match int_part s with
  | None => None
  | Some (i, r) =>
      let '(f, r1) := frac_part r in
      let '(e, r2) := exp_part r1 in
      match f, e with
      | EmptyString, EmptyString =>
          let n := digits_val 0 i in
          Some (VInt (if neg then - n else n), r2)
      | _, _ => Some (VFloat ((if neg then "-" else "") ++ i ++ f ++ e), r2)
      end
  end.

(** The characters of a string up to its closing quote; the opening quote
    was read already.  A control character is refused. *)
Fixpoint string_body (s : string) : option (string * string) :=
  match s with
  | EmptyString => None
  | String "034" r => Some (EmptyString, r)
  | String "\" (String c r) =>
      let esc :=
        if Ascii.eqb c "034" then Some "034"%char
        else if Ascii.eqb c "\" then Some "\"%char
        else if Ascii.eqb c "/" then Some "/"%char
        else if Ascii.eqb c "b" then Some "008"%char
        else if Ascii.eqb c "f" then Some "012"%char
        else if Ascii.eqb c "n" then Some "010"%char
        else if Ascii.eqb c "r" then Some "013"%char
        else if Ascii.eqb c "t" then Some "009"%char
        else None in
      match esc, string_body r with
      | Some a, Some (t, r') => Some (String a t, r')
      | _, _ => None
      end
  | String "\" EmptyString => None
  | String a r =>
      if Nat.ltb (nat_of_ascii a) 32 then None
      else match string_body r with
           | Some (t, r') => Some (String a t, r')
           | None => None
           end
  end.

(** One JSON value at the head of [s] (after whitespace), and the text
    after it.  [fuel] bounds the nesting and the number of members. *)
Fixpoint value (fuel : nat) (s : string) : option (pyval * string) :=
  match fuel with
  | O => None
  | S fuel' =>
      match s with
      | String "{" r =>
          match skip_ws r with
          | String "}" r' => Some (VDict [], r')
          | r1 =>
              match members fuel' r1 [] with
              | Some (d, r') => Some (VDict d, r')
              | None => None
              end
          end
      | String "[" r =>
          match skip_ws r with
          | String "]" r' => Some (VList [], r')
          | r1 =>
              match elements fuel' r1 with
              | Some (l, r') => Some (VList l, r')
              | None => None
              end
          end
      | String "034" r =>
          match string_body r with
          | Some (t, r') => Some (VStr t, r')
          | None => None
          end
      | String "-" r =>
          if String.prefix "Infinity" r
          then Some (VFloat "-Infinity", substring 8 (String.length r - 8) r)
          else number true r
      | String _ _ =>
          if String.prefix "null" s then Some (VNone, substring 4 (String.length s - 4) s)
          else if String.prefix "true" s then Some (VBool true, substring 4 (String.length s - 4) s)
          else if String.prefix "false" s then Some (VBool false, substring 5 (String.length s - 5) s)
          else if String.prefix "NaN" s then Some (VFloat "NaN", substring 3 (String.length s - 3) s)
          else if String.prefix "Infinity" s then Some (VFloat "Infinity", substring 8 (String.length s - 8) s)
          else number false s
      | EmptyString => None
      end
  end

(** The members of an object from its first key on: ["k" : v , ... }]. *)
with members (fuel : nat) (s : string) (acc : dict) : option (dict * string) :=
  match fuel with
  | O => None
  | S fuel' =>
      match s with
      | String "034" r =>
          match string_body r with
          | Some (k, r1) =>
              match skip_ws r1 with
              | String ":" r2 =>
                  match value fuel' (skip_ws r2) with
                  | Some (v, r3) =>
                      let acc' := Dict.set acc k v in
                      match skip_ws r3 with
                      | String "}" r4 => Some (acc', r4)
                      | String "," r4 => members fuel' (skip_ws r4) acc'
                      | _ => None
                      end
                  | None => None
                  end
              | _ => None
              end
          | None => None
          end
      | _ => None
      end
  end

(** The elements of an array from its first value on: [v , ... ]]. *)
with elements (fuel : nat) (s : string) : option (list pyval * string) :=
  match fuel with
  | O => None
  | S fuel' =>
      match value fuel' s with
      | Some (v, r) =>
          match skip_ws r with
          | String "]" r' => Some ([v], r')
          | String "," r' =>
              match elements fuel' (skip_ws r') with
              | Some (l, r'') => Some (v :: l, r'')
              | None => None
              end
          | _ => None
          end
      | None => None
      end
  end.

(** [json.loads(s)]: one document, whitespace around it, nothing else.
    [None] stands for the [ValueError] Python raises. *)
Definition loads (s : string) : option pyval :=
  match value (2 * String.length s + 2) (skip_ws s) with
  | Some (v, r) =>
      match skip_ws r with
      | EmptyString => Some v
      | _ => None
      end
  | None => None
  end.

End Json.

(** ** Requests, responses and the environment *)

Inductive verb : Type := GET | DELETE | HEAD | POST | PUT | PATCH.

(** What is handed to the transport as the body:
    [json.dumps(body)] of a dictionary, the opened file when the string is
    the path of an existing file, or the string as it is. *)
Inductive sent_body : Type :=
| SentJson (d : dict)
| SentFile (path : string)
| SentRaw (s : string).

(** The call [method(url, body, **kwargs)] (or [method(url, **kwargs)]). *)
Record request : Type := {
  req_verb : verb;
  req_url : string;
  req_body : option sent_body;
  req_params : option dict;
  req_stream : option pyval;
  req_options : dict
}.

(** What the clients read of a [requests] response. [iter_lines] is the
    sequence of chunks [res.iter_lines(...)] produces. *)
Record response : Type := {
  status_code : Z;
  headers : list (string * string);
  content : string;
  iter_lines : list string
}.

(** What lies outside the clients: the JSON decoder, the file system test
    [os.path.isfile] and the HTTP transport, which returns a response or
    raises. *)
Record env : Type := {
  env_loads : string -> option pyval;
  env_isfile : string -> bool;
  env_send : request -> result response
}.

(** What a [next] call on a generator gives. *)
Inductive step : Type :=
| Yield (v : pyval)
| Stop
| Throw (e : exn).

(** The keyword arguments [**kwargs] of the dispatcher.  A slot is [None]
    when the key is absent and [Some v] when it is present ([v] may itself
    be Python's [None]); [kw_default] is absent for the sentinel [NA].
    [kw_id] is the key [id] of the newer client and [document_id] of the
    legacy one.  [kw_other] holds the remaining keys, which go to the
    transport untouched ([headers], [timeout], ...); none of them bears a
    name of the dispatcher's own parameters. *)
Record keywords : Type := {
  kw_ip : option (option string);
  kw_port : option (option port_t);
  kw_nodename : option (option string);
  kw_id : option (option string);
  kw_body : option (option body_arg);
  kw_default : option pyval;
  kw_params : option (option dict);
  kw_stream : option pyval;
  kw_other : dict
}.

Module Kw.

Definition empty : keywords :=
  {| kw_ip := None; kw_port := None; kw_nodename := None; kw_id := None;
     kw_body := None; kw_default := None; kw_params := None;
     kw_stream := None; kw_other := [] |}.

(** [kwargs or {}] *)
Definition or_empty (k : option keywords) : keywords :=
  match k with Some k => k | None => empty end.

Definition over {A} (new old : option A) : option A :=
  match new with Some _ => new | None => old end.

(** [kwargs.update(kw)] *)
Definition update (k kw : keywords) : keywords :=
  {| kw_ip := over (kw_ip kw) (kw_ip k);
     kw_port := over (kw_port kw) (kw_port k);
     kw_nodename := over (kw_nodename kw) (kw_nodename k);
     kw_id := over (kw_id kw) (kw_id k);
     kw_body := over (kw_body kw) (kw_body k);
     kw_default := over (kw_default kw) (kw_default k);
     kw_params := over (kw_params kw) (kw_params k);
     kw_stream := over (kw_stream kw) (kw_stream k);
     kw_other := fold_left (fun d kv => Dict.set d (fst kv) (snd kv))
                           (kw_other kw) (kw_other k) |}.

(** [kwargs['params'] = p] *)
Definition set_params (k : keywords) (p : dict) : keywords :=
  {| kw_ip := kw_ip k; kw_port := kw_port k; kw_nodename := kw_nodename k;
     kw_id := kw_id k; kw_body := kw_body k; kw_default := kw_default k;
     kw_params := Some (Some p); kw_stream := kw_stream k;
     kw_other := kw_other k |}.

(** [kwargs['id'] = id] *)
Definition set_id (k : keywords) (id : option string) : keywords :=
  {| kw_ip := kw_ip k; kw_port := kw_port k; kw_nodename := kw_nodename k;
     kw_id := Some id; kw_body := kw_body k; kw_default := kw_default k;
     kw_params := kw_params k; kw_stream := kw_stream k;
     kw_other := kw_other k |}.

(** [kwargs['body'] = body] *)
Definition set_body (k : keywords) (body : option body_arg) : keywords :=
  {| kw_ip := kw_ip k; kw_port := kw_port k; kw_nodename := kw_nodename k;
     kw_id := kw_id k; kw_body := Some body; kw_default := kw_default k;
     kw_params := kw_params k; kw_stream := kw_stream k;
     kw_other := kw_other k |}.

(** [kwargs['default'] = default] *)
Definition set_default (k : keywords) (default : option pyval) : keywords :=
  {| kw_ip := kw_ip k; kw_port := kw_port k; kw_nodename := kw_nodename k;
     kw_id := kw_id k; kw_body := kw_body k; kw_default := default;
     kw_params := kw_params k; kw_stream := kw_stream k;
     kw_other := kw_other k |}.

(** The value a keyword parameter with default [None] is bound to. *)
Definition arg {A} (slot : option (option A)) : option A :=
  match slot with Some v => v | None => None end.

End Kw.

(** The steps of the dispatcher that the two clients share word for word. *)
Module Dispatch.

(** [(v and 1 or 0) if isinstance(v, bool) else v] *)
Definition coerce (v : pyval) : pyval :=
  match v with
  | VBool b => VInt (if b then 1 else 0)
  | _ => v
  end.

(** [dict((k.replace('__', '.'), coerce(v)) for k, v in params.items())] *)
Definition transform_params (params : dict) : dict :=
  Dict.of_items
    (map (fun kv => (Str.replace_dunder (fst kv), coerce (snd kv))) params).

(** [stream = kwargs.pop('stream', stream)] *)
Definition pick_stream (k : keywords) (table : bool) : pyval :=
  match kw_stream k with Some v => v | None => VBool table end.

(** [if stream is not None: keywords['stream'] = stream] *)
Definition stream_option (stream : pyval) : option pyval :=
  match stream with VNone => None | v => Some v end.

(** The body as it is passed to the transport. *)
Definition encode_body (e : env) (body : option body_arg) : option sent_body :=
  match body with
  | None => None
  | Some (BodyDict d) => Some (SentJson d)
  | Some (BodyStr s) =>
      Some (if env_isfile e s then SentFile s else SentRaw s)
  end.

(** [res.headers.get(name)]: header names compare without case. *)
Fixpoint header (hs : list (string * string)) (name : string) : option string :=
  match hs with
  | [] => None
  | (k, v) :: hs' =>
      if String.eqb (Str.lower k) (Str.lower name) then Some v
      else header hs' name
  end.

End Dispatch.

(** ** The newer client: [contrib/python/xapiand/__init__.py] *)

Module Newer.

(** The [Xapiand] object: [self.ip], [self.port], [self.commit],
    [self.prefix]. *)
Record Xapiand : Type := {
  x_ip : option string;
  x_port : option port_t;
  x_commit : pyval;
  x_prefix : option string
}.

(** [Xapiand.__init__(ip, port, commit, prefix)] *)
Definition init (ip : option string) (port : option port_t) (commit : pyval)
  (prefix : option string) : Xapiand :=
  let '(ip, port) := Py.split_host ip port in
  {| x_ip := ip; x_port := port; x_commit := commit; x_prefix := prefix |}.

(** The defaults of [__init__]'s signature. *)
Definition default_ip : option string := Some "127.0.0.1".
Definition default_port : option port_t := Some (PortInt 8880).
Definition default_commit : pyval := VBool false.

(** [Xapiand._methods]: verb, streamed, key. *)
Definition _methods (action_request : string) : option (verb * bool * string) :=
  if String.eqb action_request "search" then Some (GET, true, "results")
  else if String.eqb action_request "facets" then Some (GET, true, "facets")
  else if String.eqb action_request "stats" then Some (GET, false, "result")
  else if String.eqb action_request "get" then Some (GET, false, "result")
  else if String.eqb action_request "delete" then Some (DELETE, false, "result")
  else if String.eqb action_request "head" then Some (HEAD, false, "result")
  else if String.eqb action_request "post" then Some (POST, false, "result")
  else if String.eqb action_request "put" then Some (PUT, false, "result")
  else if String.eqb action_request "patch" then Some (PATCH, false, "result")
  else None.

(** [host = '{}:{}'.format(ip, port)] after the overrides and fallbacks. *)
Definition host (self : Xapiand) (ip : option string) (port : option port_t)
  : string :=
  let '(ip, port) := Py.split_host ip port in
  let ip := if Py.str_truthy ip then ip else x_ip self in
  let port := if Py.port_truthy port then port else x_port self in
  Py.fmt_str ip ++ ":" ++ Py.fmt_port port.

(** [prefix = '{}/'.format(self.prefix) if self.prefix else ''] *)
Definition prefix_segment (self : Xapiand) : string :=
  match x_prefix self with
  | Some p => if Py.str_truthy (Some p) then p ++ "/" else ""
  | None => ""
  end.

(** [','.join(prefix + i for i in index)] *)
Definition index_segment (self : Xapiand) (index : index_arg) : string :=
  let names := match index with
               | IndexOne i => [i]
               | IndexMany l => l
               end in
  Str.join "," (map (fun i => prefix_segment self ++ i) names).

(** [nodename = '@{}'.format(nodename) if nodename else ''] *)
Definition nodename_segment (nodename : option string) : string :=
  match nodename with
  | Some n => if Py.str_truthy (Some n) then "@" ++ n else ""
  | None => ""
  end.

(** The last segment: what [action_request] is rebound to. *)
Definition tail (action_request : string) (id : option string) : string :=
  match id with
  | None =>
      if negb (String.eqb action_request "post")
      then "_" ++ action_request ++ "/"
      else ""
  | Some i =>
      if String.eqb action_request "post" then "" else i
  end.

(** [Xapiand._build_url] *)
Definition _build_url (self : Xapiand) (action_request : string)
  (index : index_arg) (ip : option string) (port : option port_t)
  (nodename id : option string) (body : option body_arg) : string :=
  "http://" ++ host self ip port ++ "/" ++ index_segment self index
    ++ nodename_segment nodename ++ "/" ++ tail action_request id.

(** *** The streamed decoder: the generator [results(lines, size=100)] *)

(** The generator between two [next] calls: the rest of [feed.cache] the
    [for] loop still has to visit, and the rest of [lines]. [g_done] is set
    once the generator returned or raised. *)
Record generator : Type := {
  g_is_json : bool;
  g_size : nat;
  g_cache : list string;
  g_lines : list string;
  g_done : bool
}.

(** [results(res.iter_lines(delimiter='\n\n'))] before its first [next]. *)
Definition start (is_json : bool) (lines : list string) : generator :=
  {| g_is_json := is_json; g_size := 100; g_cache := []; g_lines := lines;
     g_done := false |}.

Definition nonempty (l : string) : bool := negb (String.eqb l "").

(** [feed()]: the next [size] lines, the empty ones dropped. *)
Definition feed (g : generator) : generator :=
  {| g_is_json := g_is_json g; g_size := g_size g;
     g_cache := filter nonempty (firstn (g_size g) (g_lines g));
     g_lines := skipn (g_size g) (g_lines g);
     g_done := false |}.

Definition with_cache (g : generator) (cache : list string) : generator :=
  {| g_is_json := g_is_json g; g_size := g_size g; g_cache := cache;
     g_lines := g_lines g; g_done := false |}.

Definition finished (g : generator) : generator :=
  {| g_is_json := g_is_json g; g_size := g_size g; g_cache := [];
     g_lines := g_lines g; g_done := true |}.

(** What the body of the [for] loop does with one line. *)
Inductive line_action : Type :=
| Skip
| Emit (v : pyval)
| Fail.

Definition decode_line (loads : string -> option pyval) (is_json : bool)
  (line : string) : line_action :=
  if is_json then
    if Str.startswith (Str.lstrip line) "]" then Skip
    else
      let text :=
        if Str.endswith_char (Str.rstrip line) "["
        then line ++ "]}}"
        else Str.rstrip_comma (Str.rstrip line) in
      match loads text with
      | Some v => Emit v
      | None => Fail
      end
  else Emit (VStr line).

(** One [next] on the generator, with [fuel] loop iterations at most;
    [None] when they do not suffice. *)
Fixpoint next_fuel (loads : string -> option pyval) (fuel : nat)
  (g : generator) : option (step * generator) :=
  match fuel with
  | O => None
  | S fuel' =>
      if g_done g then Some (Stop, g)
      else
        match g_cache g with
        | [] =>
            let g' := feed g in
            match g_cache g' with
            | [] => Some (Stop, finished g')
            | _ :: _ => next_fuel loads fuel' g'
            end
        | line :: rest =>
            match decode_line loads (g_is_json g) line with
            | Skip => next_fuel loads fuel' (with_cache g rest)
            | Emit v => Some (Yield v, with_cache g rest)
            | Fail => Some (Throw JSONDecodeError, finished g)
            end
        end
  end.

(** Iterations that always suffice (see [next_fuel_enough]). *)
Definition fuel_for (g : generator) : nat :=
  2 * (length (g_cache g) + length (g_lines g)) + 2.

(** [next(g)] *)
Definition next (loads : string -> option pyval) (g : generator)
  : step * generator :=
  match next_fuel loads (fuel_for g) g with
  | Some r => r
  | None => (Stop, finished g)
  end.

(** *** [Result] and [Results] *)

(** [dict(x)] for a decoded value [x].  A sequence of pairs is followed as
    far as its keys are strings; a pair with a key of another hashable type
    has no counterpart among string-keyed dictionaries and is reported as a
    [TypeError] here. *)
Definition py_dict (v : pyval) : result dict :=
  match v with
  | VDict d => Return d
  | VList l =>
      fold_left
        (fun acc x =>
           d <- acc ;;
           match x with
           | VList [VStr k; y] => Return (Dict.set d k y)
           | VStr (String a (String b EmptyString)) =>
               Return (Dict.set d (String a "") (VStr (String b "")))
           | VDict [(k, _); (k', _)] => Return (Dict.set d k (VStr k'))
           | VList [_; _] => Raise TypeError
           | VList _ | VStr _ | VDict _ => Raise ValueError
           | _ => Raise TypeError
           end)
        l (Return [])
  | VStr EmptyString => Return []
  | VStr _ => Raise ValueError
  | _ => Raise TypeError
  end.

(** [k[0] == '_'] *)
Definition leading_underscore (k : string) : result bool :=
  match k with
  | EmptyString => Raise IndexError
  | String a _ => Return (Ascii.eqb a "_")
  end.

(** A [Result]: the dictionary and the attributes set on it. *)
Record Result : Type := {
  r_items : dict;
  r_attrs : dict
}.

(** The loop of [Result.__init__] over [list(self)]: a key that starts with
    an underscore is popped and becomes an attribute.  [self.pop] is looked
    up on the instance first: once the dictionary of the instance holds an
    entry [pop] (which only a replaced [__dict__] can bring), the call
    reaches that value and not the method, and raises [TypeError]. *)
Fixpoint lift_keys (ks : list string) (r : Result) : result Result :=
  match ks with
  | [] => Return r
  | k :: ks' =>
      u <- leading_underscore k ;;
      if u then
        match Dict.get (r_attrs r) "pop" with
        | Some _ => Raise TypeError
        | None =>
            match Dict.get (r_items r) k with
            | Some v =>
                attrs <- Py.setattr_key (r_attrs r) k v ;;
                lift_keys ks' {| r_items := Dict.remove (r_items r) k;
                                 r_attrs := attrs |}
            | None => Raise (KeyError k)
            end
        end
      else lift_keys ks' r
  end.

(** [Result(x)] *)
Definition Result_init (x : pyval) : result Result :=
  d <- py_dict x ;;
  lift_keys (Dict.keys d) {| r_items := d; r_attrs := [] |}.

(** What [self.generator] holds: the generator of a streamed response, the
    one-element list of a plain response, or a header value when a response
    header named [generator] was copied over it. *)
Inductive source : Type :=
| FromStream (g : generator)
| FromList (items : list pyval)
| FromHeader (v : string).

(** A [Results]: its attributes (other than [generator]) and its source. *)
Record Results : Type := {
  rs_attrs : dict;
  rs_generator : source
}.

(** The first loop of [Results.__init__]: the underscore keys of
    [meta['_query']] become attributes under their own names. *)
Fixpoint query_attrs (items : dict) (attrs : dict) : result dict :=
  match items with
  | [] => Return attrs
  | (k, v) :: items' =>
      u <- leading_underscore k ;;
      attrs' <- (if u then Py.setattr_key attrs k v else Return attrs) ;;
      query_attrs items' attrs'
  end.

(** [meta.get(key, {})] on a value that must be a dictionary. *)
Definition meta_get (meta : pyval) (key : string) : result pyval :=
  match meta with
  | VDict d =>
      Return (match Dict.get d key with Some v => v | None => VDict [] end)
  | _ => Raise AttributeError
  end.

(** [Results(meta, generator)].  The last statement,
    [self.generator = generator], overwrites an entry [generator] that a
    replaced [__dict__] may have brought. *)
Definition Results_init (meta : pyval) (generator : source) : result Results :=
  q <- meta_get meta "_query" ;;
  attrs <- match q with
           | VDict items => query_attrs items []
           | _ => Raise AttributeError
           end ;;
  a <- meta_get meta "_aggregations" ;;
  aggregations <- py_dict a ;;
  attrs <- Py.setattr attrs "aggregations" (VDict aggregations) ;;
  Return {| rs_attrs := Dict.remove attrs "generator";
            rs_generator := generator |}.

(** [int(x)]: a string is read as a decimal integer, a float is cut
    towards zero. *)
Definition py_int (v : pyval) : result Z :=
  match v with
  | VInt z => Return z
  | VBool b => Return (if b then 1 else 0)
  | VStr s =>
      let t := Str.rstrip (Str.lstrip s) in
      let '(neg, body) :=
        match t with
        | String "-" r => (true, r)
        | String "+" r => (false, r)
        | _ => (false, t)
        end in
      match Json.digits body with
      | (String a d, EmptyString) =>
          let n := Json.digits_val 0 (String a d) in
          Return (if neg then - n else n)
      | _ => Raise ValueError
      end
  | VFloat literal =>
      match Float.of_literal literal with
      | Some (Float.Finite neg k p) => Return (Float.trunc neg k p)
      | Some (Float.Infinite _) => Raise OverflowError
      | Some Float.NotANumber | None => Raise ValueError
      end
  | _ => Raise TypeError
  end.

(** [Results.__len__]: [int(getattr(self, 'total_count', 0))] *)
Definition Results_len (rs : Results) : result Z :=
  match Dict.get (rs_attrs rs) "total_count" with
  | Some v => py_int v
  | None => Return 0
  end.

(** [Results.next]: [Result(next(iter(self.generator)))].  The wrapper after
    the call is returned too: a generator advances, a list or a string is
    iterated afresh by every call. *)
Definition Results_next (loads : string -> option pyval) (rs : Results)
  : result Result * Results :=
  match rs_generator rs with
  | FromStream g =>
      let '(st, g') := next loads g in
      let rs' := {| rs_attrs := rs_attrs rs; rs_generator := FromStream g' |} in
      match st with
      | Yield v => (Result_init v, rs')
      | Stop => (Raise StopIteration, rs')
      | Throw e => (Raise e, rs')
      end
  | FromList items =>
      match items with
      | v :: _ => (Result_init v, rs)
      | [] => (Raise StopIteration, rs)
      end
  | FromHeader s =>
      match s with
      | String a _ => (Result_init (VStr (String a "")), rs)
      | EmptyString => (Raise StopIteration, rs)
      end
  end.

(** [results.next()] as [_send_request] calls it on the wrapper it has just
    built.  The name is looked up on the instance first: an entry [next] in
    its dictionary (which only a replaced [__dict__] can have brought by
    then) is what gets called, and raises [TypeError]. *)
Definition Results_call_next (loads : string -> option pyval) (rs : Results)
  : result Result * Results :=
  match Dict.get (rs_attrs rs) "next" with
  | Some _ => (Raise TypeError, rs)
  | None => Results_next loads rs
  end.

(** [setattr(results, k.replace('-', '_'), v)] for one response header, on a
    [Results]: the name [generator] is the attribute the wrapper iterates. *)
Definition Results_set_header (rs : Results) (kv : string * string)
  : result Results :=
  let name := Str.replace_hyphen (fst kv) in
  if String.eqb name "generator"
  then Return {| rs_attrs := rs_attrs rs; rs_generator := FromHeader (snd kv) |}
  else
    attrs <- Py.setattr (rs_attrs rs) name (VStr (snd kv)) ;;
    Return {| rs_attrs := attrs; rs_generator := rs_generator rs |}.

(** The loop over [res.headers.items()]. *)
Fixpoint Results_set_headers (hs : list (string * string)) (rs : Results)
  : result Results :=
  match hs with
  | [] => Return rs
  | kv :: hs' =>
      rs' <- Results_set_header rs kv ;;
      Results_set_headers hs' rs'
  end.

(** The same on a [Result]. *)
Definition Result_set_header (r : Result) (kv : string * string)
  : result Result :=
  attrs <- Py.setattr (r_attrs r) (Str.replace_hyphen (fst kv))
                      (VStr (snd kv)) ;;
  Return {| r_items := r_items r; r_attrs := attrs |}.

Fixpoint Result_set_headers (hs : list (string * string)) (r : Result)
  : result Result :=
  match hs with
  | [] => Return r
  | kv :: hs' =>
      r' <- Result_set_header r kv ;;
      Result_set_headers hs' r'
  end.

(** *** The dispatcher [_send_request] *)

(** What [_send_request] returns: the caller's default, a [Result], or a
    [Results]. *)
Inductive returned : Type :=
| RetDefault (v : pyval)
| RetResult (r : Result)
| RetResults (rs : Results).

(** Everything up to the call of the transport: the request, the value of
    [stream], and the key of the action. *)
Definition prepare (self : Xapiand) (e : env) (action_request : string)
  (index : index_arg) (k : keywords) : result (request * pyval * string) :=
  match _methods action_request with
  | None => Raise (KeyError action_request)
  | Some (method, stream, key) =>
      let url := _build_url self action_request index
                   (Kw.arg (kw_ip k)) (Kw.arg (kw_port k))
                   (Kw.arg (kw_nodename k)) (Kw.arg (kw_id k))
                   (Kw.arg (kw_body k)) in
      let params := option_map Dispatch.transform_params
                      (Kw.arg (kw_params k)) in
      let stream := Dispatch.pick_stream k stream in
      Return ({| req_verb := method;
                 req_url := url;
                 req_body := Dispatch.encode_body e (Kw.arg (kw_body k));
                 req_params := params;
                 req_stream := Dispatch.stream_option stream;
                 req_options := kw_other k |}, stream, key)
  end.

(** [res.raise_for_status()] of the [requests] library: an [HTTPError] for
    a client error (4xx) or a server error (5xx). *)
Definition raise_for_status (res : response) : result unit :=
  if ((400 <=? status_code res) && (status_code res <? 600))%bool
  then Raise (HTTPError (status_code res))
  else Return tt.

(** [action_request in ('patch', 'delete', 'get')] *)
Definition recovers (action_request : string) : bool :=
  (String.eqb action_request "patch" || String.eqb action_request "delete"
   || String.eqb action_request "get")%bool.

(** ['application/json' in res.headers.get('content-type', '')] *)
Definition is_json (res : response) : bool :=
  Str.contains "application/json"
    (match Dispatch.header (headers res) "content-type" with
     | Some v => v
     | None => ""
     end).

(** The part of [_send_request] after the status check. *)
Definition decode (e : env) (stream : pyval) (key : string) (res : response)
  : result returned :=
  rs <- (if Py.truthy stream then
           let '(st, g) := next (env_loads e)
                                (start (is_json res) (iter_lines res)) in
           match st with
           | Yield meta => Results_init meta (FromStream g)
           | Stop => Raise StopIteration
           | Throw err => Raise err
           end
         else
           item <- (if is_json res then
                      match env_loads e (content res) with
                      | Some v => Return v
                      | None => Raise JSONDecodeError
                      end
                    else Return (VStr (content res))) ;;
           Results_init (VDict []) (FromList [item])) ;;
  if String.eqb key "result" then
    r <- fst (Results_call_next (env_loads e) rs) ;;
    r' <- Result_set_headers (headers res) r ;;
    Return (RetResult r')
  else
    rs' <- Results_set_headers (headers res) rs ;;
    Return (RetResults rs').

(** The status policy: what happens between the response and its decoding. *)
Definition after_response (e : env) (action_request : string) (k : keywords)
  (stream : pyval) (key : string) (res : response) : result returned :=
  if ((status_code res =? 404) && recovers action_request)%bool then
    match kw_default k with
    | None => Raise DoesNotExist
    | Some default => Return (RetDefault default)
    end
  else
    _ <- raise_for_status res ;;
    decode e stream key res.

(** [Xapiand._send_request(action_request, index, **kwargs)] *)
Definition _send_request (self : Xapiand) (e : env) (action_request : string)
  (index : index_arg) (k : keywords) : result returned :=
  p <- prepare self e action_request index k ;;
  let '(req, stream, key) := p in
  res <- env_send e req ;;
  after_response e action_request k stream key res.

(** *** The action methods *)

(** [if v is not None: params[name] = v] *)
Definition add_if_not_none (name : string) (v : pyval) (params : dict) : dict :=
  match v with
  | VNone => params
  | _ => Dict.set params name v
  end.

(** The eight optional parameters of [search] and [facets]; [VNone] is the
    default of each. *)
Record query_args : Type := {
  query : pyval;
  partial : pyval;
  terms : pyval;
  offset : pyval;
  limit : pyval;
  sort : pyval;
  facets_ : pyval;
  language : pyval
}.

Definition no_query_args : query_args :=
  {| query := VNone; partial := VNone; terms := VNone; offset := VNone;
     limit := VNone; sort := VNone; facets_ := VNone; language := VNone |}.

(** [kwargs['params']] as [search] and [facets] build it. *)
Definition search_params (q : query_args) (pretty volatile : pyval) : dict :=
  let params := Dict.of_items [("pretty", pretty); ("volatile", volatile)] in
  let params := add_if_not_none "query" (query q) params in
  let params := add_if_not_none "partial" (partial q) params in
  let params := add_if_not_none "terms" (terms q) params in
  let params := add_if_not_none "offset" (offset q) params in
  let params := add_if_not_none "limit" (limit q) params in
  let params := add_if_not_none "sort" (sort q) params in
  let params := add_if_not_none "facets" (facets_ q) params in
  add_if_not_none "language" (language q) params.

(** The keyword arguments [search] and [facets] hand to [_send_request]. *)
Definition search_kwargs (q : query_args) (pretty volatile : pyval)
  (kwargs : option keywords) (kw : keywords) : keywords :=
  Kw.set_params (Kw.update (Kw.or_empty kwargs) kw)
                (search_params q pretty volatile).

Definition search (self : Xapiand) (e : env) (index : index_arg)
  (q : query_args) (pretty volatile : pyval) (kwargs : option keywords)
  (kw : keywords) : result returned :=
  _send_request self e "search" index (search_kwargs q pretty volatile kwargs kw).

Definition facets (self : Xapiand) (e : env) (index : index_arg)
  (q : query_args) (pretty volatile : pyval) (kwargs : option keywords)
  (kw : keywords) : result returned :=
  _send_request self e "facets" index (search_kwargs q pretty volatile kwargs kw).

Definition stats_kwargs (pretty : pyval) (kwargs : option keywords) : keywords :=
  Kw.set_params (Kw.or_empty kwargs) (Dict.of_items [("pretty", pretty)]).

Definition stats (self : Xapiand) (e : env) (index : index_arg)
  (pretty : pyval) (kwargs : option keywords) : result returned :=
  _send_request self e "stats" index (stats_kwargs pretty kwargs).

Definition head_kwargs (id : option string) (pretty : pyval)
  (kwargs : option keywords) : keywords :=
  Kw.set_params (Kw.set_id (Kw.or_empty kwargs) id)
                (Dict.of_items [("pretty", pretty)]).

Definition head (self : Xapiand) (e : env) (index : index_arg)
  (id : option string) (pretty : pyval) (kwargs : option keywords)
  : result returned :=
  _send_request self e "head" index (head_kwargs id pretty kwargs).

Definition get_kwargs (id : option string) (default : option pyval)
  (pretty volatile : pyval) (kwargs : option keywords) : keywords :=
  Kw.set_default
    (Kw.set_params (Kw.set_id (Kw.or_empty kwargs) id)
                   (Dict.of_items [("pretty", pretty); ("volatile", volatile)]))
    default.

Definition get (self : Xapiand) (e : env) (index : index_arg)
  (id : option string) (default : option pyval) (pretty volatile : pyval)
  (kwargs : option keywords) : result returned :=
  _send_request self e "get" index (get_kwargs id default pretty volatile kwargs).

(** [self.commit if commit is None else commit] *)
Definition commit_value (self : Xapiand) (commit : pyval) : pyval :=
  match commit with
  | VNone => x_commit self
  | _ => commit
  end.

(** [dict(commit=..., pretty=pretty)] *)
Definition write_params (self : Xapiand) (commit pretty : pyval) : dict :=
  Dict.of_items [("commit", commit_value self commit); ("pretty", pretty)].

Definition delete_kwargs (self : Xapiand) (id : option string)
  (commit pretty : pyval) (kwargs : option keywords) : keywords :=
  Kw.set_params (Kw.set_id (Kw.or_empty kwargs) id)
                (write_params self commit pretty).

Definition delete (self : Xapiand) (e : env) (index : index_arg)
  (id : option string) (commit pretty : pyval) (kwargs : option keywords)
  : result returned :=
  _send_request self e "delete" index (delete_kwargs self id commit pretty kwargs).

Definition post_kwargs (self : Xapiand) (body : option body_arg)
  (commit pretty : pyval) (kwargs : option keywords) : keywords :=
  Kw.set_params (Kw.set_body (Kw.or_empty kwargs) body)
                (write_params self commit pretty).

Definition post (self : Xapiand) (e : env) (index : index_arg)
  (body : option body_arg) (commit pretty : pyval) (kwargs : option keywords)
  : result returned :=
  _send_request self e "post" index (post_kwargs self body commit pretty kwargs).

Definition put_kwargs (self : Xapiand) (body : option body_arg)
  (id : option string) (commit pretty : pyval) (kwargs : option keywords)
  : keywords :=
  Kw.set_params (Kw.set_body (Kw.set_id (Kw.or_empty kwargs) id) body)
                (write_params self commit pretty).

Definition put (self : Xapiand) (e : env) (index : index_arg)
  (body : option body_arg) (id : option string) (commit pretty : pyval)
  (kwargs : option keywords) : result returned :=
  _send_request self e "put" index (put_kwargs self body id commit pretty kwargs).

(** [index = put] *)
Definition index := put.

Definition patch_kwargs (self : Xapiand) (id : option string)
  (body : option body_arg) (commit pretty : pyval) (kwargs : option keywords)
  : keywords :=
  Kw.set_params (Kw.set_body (Kw.set_id (Kw.or_empty kwargs) id) body)
                (write_params self commit pretty).

Definition patch (self : Xapiand) (e : env) (index : index_arg)
  (id : option string) (body : option body_arg) (commit pretty : pyval)
  (kwargs : option keywords) : result returned :=
  _send_request self e "patch" index (patch_kwargs self id body commit pretty kwargs).

(** The two clients the module creates: [live] and [sandbox]. *)
Definition live : Xapiand :=
  init (Some "127.0.0.1") (Some (PortInt 8880)) (VBool false) (Some "live").
Definition sandbox : Xapiand :=
  init (Some "127.0.0.1") (Some (PortInt 8880)) (VBool false) (Some "sandbox").

End Newer.

(** ** The legacy client: [contrib/python/haystack/client.py] *)

Module Legacy.

(** The [Xapiand] object: [self.ip], [self.port], [self.commit]. *)
Record Xapiand : Type := {
  x_ip : option string;
  x_port : option port_t;
  x_commit : pyval
}.

(** [Xapiand.__init__(ip, port, commit)] *)
Definition init (ip : option string) (port : option port_t) (commit : pyval)
  : Xapiand :=
  let '(ip, port) := Py.split_host ip port in
  {| x_ip := ip; x_port := port; x_commit := commit |}.

(** [Xapiand._methods]: verb, streamed, key. *)
Definition _methods (action_request : string) : option (verb * bool * string) :=
  if String.eqb action_request "search" then Some (GET, true, "results")
  else if String.eqb action_request "facets" then Some (GET, true, "facets")
  else if String.eqb action_request "stats" then Some (GET, false, "result")
  else if String.eqb action_request "get" then Some (GET, false, "result")
  else if String.eqb action_request "delete" then Some (DELETE, false, "result")
  else if String.eqb action_request "head" then Some (HEAD, false, "result")
  else if String.eqb action_request "index" then Some (PUT, false, "result")
  else if String.eqb action_request "patch" then Some (PATCH, false, "result")
  else None.

(** [host = '%s:%s' % (ip, port)] after the overrides and fallbacks. *)
Definition host (self : Xapiand) (ip : option string) (port : option port_t)
  : string :=
  let '(ip, port) := Py.split_host ip port in
  let ip := if Py.str_truthy ip then ip else x_ip self in
  let port := if Py.port_truthy port then port else x_port self in
  Py.fmt_str ip ++ ":" ++ Py.fmt_port port.

(** [endpoint = ','.join(endpoint)] for a tuple or list. *)
Definition endpoint_segment (endpoint : index_arg) : string :=
  match endpoint with
  | IndexOne s => s
  | IndexMany l => Str.join "," l
  end.

(** [Xapiand.build_url] *)
Definition build_url (self : Xapiand) (action_request : string)
  (endpoint : index_arg) (ip : option string) (port : option port_t)
  (nodename document_id : option string) (body : option body_arg) : string :=
  let host := host self ip port in
  let endpoint := endpoint_segment endpoint in
  match document_id with
  | Some document_id =>
      if Py.str_truthy nodename
      then "http://" ++ host ++ "/" ++ endpoint ++ "@" ++ Py.fmt_str nodename
             ++ "/" ++ document_id
      else "http://" ++ host ++ "/" ++ endpoint ++ "/" ++ document_id
  | None =>
      if Py.str_truthy nodename
      then "http://" ++ host ++ "/" ++ endpoint ++ "@" ++ Py.fmt_str nodename
             ++ "/_" ++ action_request ++ "/"
      else "http://" ++ host ++ "/" ++ endpoint ++ "/_" ++ action_request ++ "/"
  end.

(** One [next] on the generator [results(lines)]: the remaining lines are
    its state; an exception ends it. *)
Fixpoint next (loads : string -> option pyval) (is_json : bool)
  (lines : list string) : step * list string :=
  match lines with
  | [] => (Stop, [])
  | line :: rest =>
      if negb (String.eqb line "") then
        if is_json then
          match loads line with
          | Some v => (Yield v, rest)
          | None => (Throw JSONDecodeError, [])
          end
        else (Yield (VStr line), rest)
      else next loads is_json rest
  end.

(** What [response[key]] holds: one item, the one-element list of a plain
    response, or the generator of a streamed one (its remaining lines). *)
Inductive payload : Type :=
| Item (v : pyval)
| Items (l : list pyval)
| Lazy (is_json : bool) (lines : list string).

(** The dictionary [send_request] returns: [{key: results}] and, when the
    header is there, ['size']. *)
Record returned : Type := {
  ret_key : string;
  ret_results : payload;
  ret_size : option pyval
}.

(** Everything up to the call of the transport. *)
Definition prepare (self : Xapiand) (e : env) (action_request : string)
  (endpoint : index_arg) (k : keywords) : result (request * pyval * string) :=
  match _methods action_request with
  | None => Raise (KeyError action_request)
  | Some (method, stream, key) =>
      let url := build_url self action_request endpoint
                   (Kw.arg (kw_ip k)) (Kw.arg (kw_port k))
                   (Kw.arg (kw_nodename k)) (Kw.arg (kw_id k))
                   (Kw.arg (kw_body k)) in
      let params := option_map Dispatch.transform_params
                      (Kw.arg (kw_params k)) in
      let stream := Dispatch.pick_stream k stream in
      Return ({| req_verb := method;
                 req_url := url;
                 req_body := Dispatch.encode_body e (Kw.arg (kw_body k));
                 req_params := params;
                 req_stream := Dispatch.stream_option stream;
                 req_options :=
                   match kw_default k with
                   | Some v => Dict.set (kw_other k) "default" v
                   | None => kw_other k
                   end |}, stream, key)
  end.

(** [res.ok] of the [requests] library. *)
Definition ok (res : response) : bool :=
  negb ((400 <=? status_code res) && (status_code res <? 600))%bool.

(** The part of [send_request] after the call of the transport. *)
Definition after_response (e : env) (action_request : string)
  (stream : pyval) (key : string) (res : response) : result returned :=
  if negb (status_code res =? 200) then Raise (HTTPError (status_code res))
  else
    match Dispatch.header (headers res) "content-type" with
    | None => Raise (KeyError "content-type")
    | Some ct =>
        let is_json := Str.contains "application/json" ct in
        results <-
          (if Py.truthy stream then Return (Lazy is_json (iter_lines res))
           else if is_json then
             match env_loads e (content res) with
             | Some v => Return (Items [v])
             | None => Raise JSONDecodeError
             end
           else Return (Items [VStr (content res)])) ;;
        results <-
          (if String.eqb key "result" then
             match results with
             | Items (v :: _) => Return (Item v)
             | Lazy j lines =>
                 match next (env_loads e) j lines with
                 | (Yield v, _) => Return (Item v)
                 | (Stop, rest) => Return (Lazy j rest)
                 | (Throw err, _) => Raise err
                 end
             | other => Return other
             end
           else Return results) ;;
        Return {| ret_key := key;
                  ret_results := results;
                  ret_size :=
                    match Dispatch.header (headers res) "x-matched-count" with
                    | Some v => Some (VStr v)
                    | None =>
                        if (String.eqb action_request "search" && negb (ok res))%bool
                        then Some (VInt 0) else None
                    end |}
    end.

(** [Xapiand.send_request(action_request, endpoint, **kwargs)] *)
Definition send_request (self : Xapiand) (e : env) (action_request : string)
  (endpoint : index_arg) (k : keywords) : result returned :=
  p <- prepare self e action_request endpoint k ;;
  let '(req, stream, key) := p in
  res <- env_send e req ;;
  after_response e action_request stream key res.

(** [if v is None: params[name] = v] *)
Definition add_if_none (name : string) (v : pyval) (params : dict) : dict :=
  match v with
  | VNone => Dict.set params name v
  | _ => params
  end.

(** [kwargs['params']] as [search] and [facets] build it. *)
Definition search_params (q : Newer.query_args) (pretty : pyval) : dict :=
  let params := Dict.of_items [("pretty", pretty)] in
  let params := add_if_none "query" (Newer.query q) params in
  let params := add_if_none "partial" (Newer.partial q) params in
  let params := add_if_none "terms" (Newer.terms q) params in
  let params := add_if_none "offset" (Newer.offset q) params in
  let params := add_if_none "limit" (Newer.limit q) params in
  let params := add_if_none "sort" (Newer.sort q) params in
  let params := add_if_none "facets" (Newer.facets_ q) params in
  add_if_none "language" (Newer.language q) params.

Definition search_kwargs (q : Newer.query_args) (pretty : pyval)
  (kwargs : option keywords) (kw : keywords) : keywords :=
  Kw.set_params (Kw.update (Kw.or_empty kwargs) kw) (search_params q pretty).

Definition search (self : Xapiand) (e : env) (endpoint : index_arg)
  (q : Newer.query_args) (pretty : pyval) (kwargs : option keywords)
  (kw : keywords) : result returned :=
  send_request self e "search" endpoint (search_kwargs q pretty kwargs kw).

Definition facets (self : Xapiand) (e : env) (endpoint : index_arg)
  (q : Newer.query_args) (pretty : pyval) (kwargs : option keywords)
  (kw : keywords) : result returned :=
  send_request self e "facets" endpoint (search_kwargs q pretty kwargs kw).

(** The keyword arguments of [stats] (no document) and of [head] and [get]
    (with [kwargs['document_id'] = document_id]). *)
Definition stats_kwargs (pretty : pyval) (kwargs : option keywords) : keywords :=
  Kw.set_params (Kw.or_empty kwargs) (Dict.of_items [("pretty", pretty)]).

Definition read_kwargs (document_id : option string) (pretty : pyval)
  (kwargs : option keywords) : keywords :=
  Kw.set_params (Kw.set_id (Kw.or_empty kwargs) document_id)
                (Dict.of_items [("pretty", pretty)]).

Definition stats (self : Xapiand) (e : env) (endpoint : index_arg)
  (pretty : pyval) (kwargs : option keywords) : result returned :=
  send_request self e "stats" endpoint (stats_kwargs pretty kwargs).

Definition head (self : Xapiand) (e : env) (endpoint : index_arg)
  (document_id : option string) (pretty : pyval) (kwargs : option keywords)
  : result returned :=
  send_request self e "head" endpoint (read_kwargs document_id pretty kwargs).

Definition get (self : Xapiand) (e : env) (endpoint : index_arg)
  (document_id : option string) (pretty : pyval) (kwargs : option keywords)
  : result returned :=
  send_request self e "get" endpoint (read_kwargs document_id pretty kwargs).

(** [self.commit if commit is None else commit] *)
Definition commit_value (self : Xapiand) (commit : pyval) : pyval :=
  match commit with
  | VNone => x_commit self
  | _ => commit
  end.

Definition write_params (self : Xapiand) (commit pretty : pyval) : dict :=
  Dict.of_items [("commit", commit_value self commit); ("pretty", pretty)].

Definition delete (self : Xapiand) (e : env) (endpoint : index_arg)
  (document_id : option string) (commit pretty : pyval)
  (kwargs : option keywords) : result returned :=
  send_request self e "delete" endpoint
    (Kw.set_params (Kw.set_id (Kw.or_empty kwargs) document_id)
                   (write_params self commit pretty)).

Definition write_kwargs (self : Xapiand) (document_id : option string)
  (body : option body_arg) (commit pretty : pyval) (kwargs : option keywords)
  : keywords :=
  Kw.set_params
    (Kw.set_body (Kw.set_id (Kw.or_empty kwargs) document_id) body)
    (write_params self commit pretty).

Definition index (self : Xapiand) (e : env) (endpoint : index_arg)
  (document_id : option string) (body : option body_arg)
  (commit pretty : pyval) (kwargs : option keywords) : result returned :=
  send_request self e "index" endpoint
    (write_kwargs self document_id body commit pretty kwargs).

Definition patch (self : Xapiand) (e : env) (endpoint : index_arg)
  (document_id : option string) (body : option body_arg)
  (commit pretty : pyval) (kwargs : option keywords) : result returned :=
  send_request self e "patch" endpoint
    (write_kwargs self document_id body commit pretty kwargs).

End Legacy.

(** ** Vocabulary of the statements *)

(** The part of a URL before its tail:
    [http://<host>/<index>[@nodename]/]. *)
Definition url_base (host index nodename : string) : string :=
  "http://" ++ host ++ "/" ++ index ++ nodename ++ "/".

(** The client of the round trip: the defaults of [__init__] and the
    prefix [live]. *)
Definition live_client : Newer.Xapiand :=
  Newer.init Newer.default_ip Newer.default_port Newer.default_commit
             (Some "live").

(** [query="title:dune"], every other optional parameter left out. *)
Definition dune_query : Newer.query_args :=
  {| Newer.query := VStr "title:dune"; Newer.partial := VNone;
     Newer.terms := VNone; Newer.offset := VNone; Newer.limit := VNone;
     Newer.sort := VNone; Newer.facets_ := VNone; Newer.language := VNone |}.

(** The call [search("books", query="title:dune")]: [pretty] and
    [volatile] at their default [False], no [kwargs], no extra keyword. *)
Definition dune_kwargs : keywords :=
  Newer.search_kwargs dune_query (VBool false) (VBool false) None Kw.empty.

(** The request that call hands to the transport. *)
Definition dune_request : request :=
  {| req_verb := GET;
     req_url := "http://127.0.0.1:8880/live/books/_search/";
     req_body := None;
     req_params := Some [("pretty", VInt 0); ("volatile", VInt 0);
                         ("query", VStr "title:dune")];
     req_stream := Some (VBool true);
     req_options := [] |}.

(** The request of [put(index, body, id, commit, pretty, kwargs)]. *)
Definition put_request (self : Newer.Xapiand) (e : env) (index : index_arg)
  (body : option body_arg) (id : option string) (commit pretty : pyval)
  (kwargs : option keywords) : request :=
  let k := Kw.or_empty kwargs in
  {| req_verb := PUT;
     req_url := Newer._build_url self "put" index (Kw.arg (kw_ip k))
                  (Kw.arg (kw_port k)) (Kw.arg (kw_nodename k)) id body;
     req_body := Dispatch.encode_body e body;
     req_params := Some (Dispatch.transform_params
                           (Newer.write_params self commit pretty));
     req_stream := Dispatch.stream_option (Dispatch.pick_stream k false);
     req_options := kw_other k |}.

(** The pairs the transform builds, before [dict(...)] collects them. *)
Definition transformed_items (params : dict) : list (string * pyval) :=
  map (fun kv => (Str.replace_dunder (fst kv), Dispatch.coerce (snd kv))) params.

(** The parameters [{'a__b': True, 'n': 5, 'deep___x': False}]. *)
Definition sample_params : dict :=
  [("a__b", VBool true); ("n", VInt 5); ("deep___x", VBool false)].

(** A transport that answers every request with [res]; the decoder is
    [Json.loads] and no path names a file. *)
Definition env_of (res : response) : env :=
  {| env_loads := Json.loads;
     env_isfile := fun _ => false;
     env_send := fun _ => Return res |}.

(** A response [404 Not Found]. *)
Definition not_found_response : response :=
  {| status_code := 404; headers := []; content := ""; iter_lines := [] |}.

(** What one [next] can still have to go through. *)
Definition work (g : Newer.generator) : nat :=
  2 * (length (Newer.g_cache g) + length (Newer.g_lines g))
  + match Newer.g_cache g with [] => 1 | _ => 0 end.

(** A computation that does not raise [HTTPError]. *)
Definition quiet {A} (r : result A) : Prop :=
  match r with
  | Raise (HTTPError _) => False
  | _ => True
  end.

(** The errors of ill-shaped data. *)
Definition data_error (e : exn) : bool :=
  match e with
  | KeyError _ | IndexError | TypeError | ValueError | AttributeError => true
  | _ => false
  end.

(** A computation that raises nothing but the errors of ill-shaped data. *)
Definition tame {A} (r : result A) : Prop :=
  match r with
  | Raise e => data_error e = true
  | Return _ => True
  end.

(** Closes a [tame] goal once it has computed. *)
Ltac tame_done := first [exact I | reflexivity].

(** A legacy client with the defaults of [__init__]. *)
Definition legacy_client : Legacy.Xapiand :=
  Legacy.init (Some "127.0.0.1") (Some (PortInt 8880)) (VBool false).

(** A response [201 Created] and a redirect [302 Found]. *)
Definition created_response : response :=
  {| status_code := 201; headers := [("content-type", "application/json")];
     content := "{}"; iter_lines := [] |}.

Definition found_response : response :=
  {| status_code := 302; headers := []; content := ""; iter_lines := [] |}.

(** The optional parameters, each with the argument that carries it. *)
Definition optional_parameters : list (string * (Newer.query_args -> pyval)) :=
  [("query", Newer.query); ("partial", Newer.partial); ("terms", Newer.terms);
   ("offset", Newer.offset); ("limit", Newer.limit); ("sort", Newer.sort);
   ("facets", Newer.facets_); ("language", Newer.language)].

(** The double quote, and a quoted name. *)
Definition dq : string := String "034" "".
Definition quoted (s : string) : string := dq ++ s ++ dq.

(** The chunks [{"a":1}], []], [{"b":2] and [{"b":{"c":[]. *)
Definition chunk_a : string := "{" ++ quoted "a" ++ ":1}".
Definition chunk_close : string := "]".
Definition chunk_b : string := "{" ++ quoted "b" ++ ":2".
Definition chunk_open : string := "{" ++ quoted "b" ++ ":{" ++ quoted "c" ++ ":[".

(** The leading metadata record [{"_query":{"_total_count":5}}]. *)
Definition chunk_meta : string :=
  "{" ++ quoted "_query" ++ ":{" ++ quoted "_total_count" ++ ":5}}".

(** A streamed JSON response with the given chunks. *)
Definition stream_response (chunks : list string) : response :=
  {| status_code := 200;
     headers := [("content-type", "application/json")];
     content := "";
     iter_lines := chunks |}.

(** The [for] loop of a caller over a [Results]: the results it gets before
    [StopIteration] ends it (no error) or another exception leaves it, and
    the wrapper afterwards.  [n] bounds the number of [next] calls; the
    outcome is [None] when the loop needs more. *)
Fixpoint drain (loads : string -> option pyval) (n : nat) (rs : Newer.Results)
  : option (list Newer.Result * option exn * Newer.Results) :=
  match n with
  | O => None
  | S n' =>
      match Newer.Results_next loads rs with
      | (Return r, rs') =>
          match drain loads n' rs' with
          | Some (l, err, rs'') => Some (r :: l, err, rs'')
          | None => None
          end
      | (Raise StopIteration, rs') => Some ([], None, rs')
      | (Raise err, rs') => Some ([], Some err, rs')
      end
  end.

(** The wrapper [search("books")] returns for the given chunks. *)
Definition searched (chunks : list string) : result Newer.returned :=
  Newer.search live_client (env_of (stream_response chunks)) (IndexOne "books")
    Newer.no_query_args (VBool false) (VBool false) None Kw.empty.

(** A [Result] that holds [d] and has no attribute. *)
Definition plain (d : dict) : Newer.Result :=
  {| Newer.r_items := d; Newer.r_attrs := [] |}.

(** The [_query] part of a metadata record; empty when the record has
    none. *)
Definition metadata_query (meta : pyval) : dict :=
  match meta with
  | VDict m =>
      match Dict.get m "_query" with
      | Some (VDict items) => items
      | _ => []
      end
  | _ => []
  end.

(** A streamed JSON response with the header [total-count: 7]. *)
Definition counted_response : response :=
  {| status_code := 200;
     headers := [("content-type", "application/json"); ("total-count", "7")];
     content := "";
     iter_lines := [chunk_meta; chunk_a] |}.

(** ** Vocabulary of the further properties *)

(** [s] has no colon. *)
Definition no_colon (s : string) : bool :=
  negb (Str.contains_char Str.colon s).

(** A host [h:p] written as one string. *)
Definition host_port (h p : string) : string := h ++ ":" ++ p.

(** [k] starts with an underscore. *)
Definition starts_underscore (k : string) : bool :=
  match k with
  | String a _ => Ascii.eqb a "_"
  | EmptyString => false
  end.

(** A name under which [setattr] stores any value: none of the three
    descriptors of the class. *)
Definition settable (name : string) : bool :=
  negb (String.eqb name "__class__" || String.eqb name "__dict__"
        || String.eqb name "__weakref__").

(** A key of a decoded document that can become an attribute: an ASCII
    name, and none of the three. *)
Definition liftable (k : string) : bool :=
  (Py.is_ascii k && settable k)%bool.

(** [k] is one of [ks]. *)
Definition inb (ks : list string) (k : string) : bool :=
  existsb (String.eqb k) ks.

(** What a consumer gets from the generator by calling [next] until it
    stops or raises: the values, and the exception if there was one.  [n]
    bounds the number of calls; the outcome is [None] when more are
    needed. *)
Fixpoint run (loads : string -> option pyval) (n : nat) (g : Newer.generator)
  : option (list pyval * option exn) :=
  match n with
  | O => None
  | S n' =>
      match Newer.next loads g with
      | (Yield v, g') =>
          match run loads n' g' with
          | Some (l, err) => Some (v :: l, err)
          | None => None
          end
      | (Stop, _) => Some ([], None)
      | (Throw err, _) => Some ([], Some err)
      end
  end.

(** The body of the [for] loop applied to a list of lines, one after the
    other, up to the first line the JSON decoder refuses. *)
Fixpoint decode_all (loads : string -> option pyval) (is_json : bool)
  (lines : list string) : list pyval * option exn :=
  match lines with
  | [] => ([], None)
  | line :: rest =>
      match Newer.decode_line loads is_json line with
      | Newer.Skip => decode_all loads is_json rest
      | Newer.Emit v =>
          let '(vs, err) := decode_all loads is_json rest in (v :: vs, err)
      | Newer.Fail => ([], Some JSONDecodeError)
      end
  end.

(** What a consumer gets from the legacy generator; the remaining lines are
    its state.  [n] bounds the number of [next] calls. *)
Fixpoint legacy_run (loads : string -> option pyval) (is_json : bool)
  (n : nat) (lines : list string) : option (list pyval * option exn) :=
  match n with
  | O => None
  | S n' =>
      match Legacy.next loads is_json lines with
      | (Yield v, rest) =>
          match legacy_run loads is_json n' rest with
          | Some (l, err) => Some (v :: l, err)
          | None => None
          end
      | (Stop, _) => Some ([], None)
      | (Throw err, _) => Some ([], Some err)
      end
  end.

(** [json.loads] applied to a list of lines, one after the other, up to the
    first line it refuses. *)
Fixpoint load_all (loads : string -> option pyval) (lines : list string)
  : list pyval * option exn :=
  match lines with
  | [] => ([], None)
  | line :: rest =>
      match loads line with
      | Some v => let '(vs, err) := load_all loads rest in (v :: vs, err)
      | None => ([], Some JSONDecodeError)
      end
  end.




(** The outgoing mapping of a write: [commit] (the client's flag when the
    caller passes [None]) and [pretty], booleans as integers. *)
Definition write_mapping (client_commit commit pretty : pyval) : dict :=
  [("commit", Dispatch.coerce (match commit with
                               | VNone => client_commit
                               | _ => commit
                               end));
   ("pretty", Dispatch.coerce pretty)].

(** Decides a test between two literal names and takes the branch. *)
Ltac literal_eqb :=
  repeat match goal with
         | |- context [String.eqb ?a ?b] =>
             let r := eval vm_compute in (String.eqb a b) in
             change (String.eqb a b) with r
         end;
  cbv iota.

(** * Properties *)

Example replace_dunder_ex :
  Str.replace_dunder "a__b___c_d" = "a.b._c_d".
Proof. reflexivity. Qed.

Example partition_ex :
  Str.partition Str.colon "localhost:9000" = ("localhost", "9000").
Proof. reflexivity. Qed.

Example rstrip_ex :
  Str.rstrip_comma (Str.rstrip "{} ,, ") = "{} ".
Proof. reflexivity. Qed.

Example of_Z_ex : Str.of_Z 8880 = "8880" /\ Str.of_Z 0 = "0" /\ Str.of_Z (-3) = "-3".
Proof. repeat split; reflexivity. Qed.

(** A float is false exactly when it is zero as a double: [1e-400] is,
    the smallest subnormal [5e-324] is not. *)
Example truthy_floats :
  Py.truthy (VFloat "0.0") = false /\ Py.truthy (VFloat "-0.0") = false
  /\ Py.truthy (VFloat "0e10") = false /\ Py.truthy (VFloat "1e-400") = false
  /\ Py.truthy (VFloat "5e-324") = true /\ Py.truthy (VFloat "0.5") = true
  /\ Py.truthy (VFloat "NaN") = true /\ Py.truthy (VFloat "-Infinity") = true.
Proof. repeat split; vm_compute; reflexivity. Qed.

Example int_of_floats :
  Newer.py_int (VFloat "2.675e2") = Return 267
  /\ Newer.py_int (VFloat "-7.9") = Return (-7)
  /\ Newer.py_int (VFloat "0.99999999999999999999") = Return 1
  /\ Newer.py_int (VFloat "9007199254740993.0") = Return 9007199254740992
  /\ Newer.py_int (VFloat "1e309") = Raise OverflowError
  /\ Newer.py_int (VFloat "NaN") = Raise ValueError.
Proof. repeat split; vm_compute; reflexivity. Qed.

(** ** Strings and dictionaries *)

Lemma append_assoc (a b c : string) : (a ++ b) ++ c = a ++ (b ++ c).
Proof.
  induction a as [|x a IH]; simpl; [reflexivity | now rewrite IH].
Qed.

Lemma append_empty_r (a : string) : a ++ "" = a.
Proof.
  induction a as [|x a IH]; simpl; [reflexivity | now rewrite IH].
Qed.

Section DictFacts.

Variables (d : dict) (k : string) (v : pyval).

Lemma get_set_same : Dict.get (Dict.set d k v) k = Some v.
Proof.
  induction d as [|[k' v'] d' IH]; simpl.
  - now rewrite String.eqb_refl.
  - destruct (String.eqb k' k) eqn:E; simpl.
    + now rewrite String.eqb_refl.
    + now rewrite E.
Qed.

Lemma get_set_other (k0 : string) :
  k0 <> k -> Dict.get (Dict.set d k v) k0 = Dict.get d k0.
Proof.
  intros Hne. induction d as [|[k' v'] d' IH]; simpl.
  - destruct (String.eqb k k0) eqn:E; [|reflexivity].
    apply String.eqb_eq in E. congruence.
  - destruct (String.eqb k' k) eqn:E; simpl.
    + apply String.eqb_eq in E. subst k'.
      destruct (String.eqb k k0) eqn:E0; [|reflexivity].
      apply String.eqb_eq in E0. congruence.
    + now rewrite IH.
Qed.

(** A key of [d[k] = v] is [k] or a key of [d]. *)
Lemma keys_set (k0 : string) :
  In k0 (Dict.keys (Dict.set d k v)) -> k0 = k \/ In k0 (Dict.keys d).
Proof.
  unfold Dict.keys. induction d as [|[k' v'] d' IH]; simpl.
  - intros [H|[]]; auto.
  - destruct (String.eqb k' k) eqn:E; simpl.
    + intros [H|H]; auto.
    + intros [H|H]; auto. destruct (IH H); auto.
Qed.

(** A pair of [d[k] = v] is [(k, v)] or a pair of [d]. *)
Lemma in_set (k0 : string) (v0 : pyval) :
  In (k0, v0) (Dict.set d k v) -> (k0, v0) = (k, v) \/ In (k0, v0) d.
Proof.
  induction d as [|[k' v'] d' IH]; simpl.
  - intros [H|[]]; auto.
  - destruct (String.eqb k' k) eqn:E; simpl.
    + intros [H|H]; auto.
    + intros [H|H]; auto. destruct (IH H); auto.
Qed.

(** [k] is a key of [d[k] = v]. *)
Lemma key_in_set : In k (Dict.keys (Dict.set d k v)).
Proof.
  unfold Dict.keys. induction d as [|[k' v'] d' IH]; simpl; auto.
  destruct (String.eqb k' k) eqn:E; simpl; auto.
Qed.

(** The keys of [d] stay keys of [d[k] = v]. *)
Lemma keys_kept (k0 : string) :
  In k0 (Dict.keys d) -> In k0 (Dict.keys (Dict.set d k v)).
Proof.
  unfold Dict.keys. induction d as [|[k' v'] d' IH]; simpl; [tauto|].
  destruct (String.eqb k' k) eqn:E; simpl.
  - apply String.eqb_eq in E. subst k'. tauto.
  - intros [H|H]; auto.
Qed.

End DictFacts.

Lemma get_remove (d : dict) (k k' : string) :
  Dict.get (Dict.remove d k) k'
  = if String.eqb k k' then None else Dict.get d k'.
Proof.
  induction d as [|[k0 v0] d IH]; simpl.
  - destruct (String.eqb k k'); reflexivity.
  - destruct (String.eqb_spec k0 k) as [->|Hne].
    + rewrite IH. destruct (String.eqb k k'); reflexivity.
    + simpl. rewrite IH.
      destruct (String.eqb_spec k0 k') as [->|Hne'].
      * destruct (String.eqb_spec k k') as [->|]; [congruence | reflexivity].
      * reflexivity.
Qed.

(** ** The URL builders *)

Lemma newer_url_shape self action index ip port nodename id body :
  Newer._build_url self action index ip port nodename id body =
  url_base (Newer.host self ip port) (Newer.index_segment self index)
           (Newer.nodename_segment nodename)
    ++ Newer.tail action id.
Proof.
  unfold Newer._build_url, url_base.
  repeat rewrite append_assoc. reflexivity.
Qed.

Lemma legacy_url_shape self action endpoint ip port nodename id body :
  Legacy.build_url self action endpoint ip port nodename id body =
  url_base (Legacy.host self ip port) (Legacy.endpoint_segment endpoint)
           (Newer.nodename_segment nodename)
    ++ match id with
       | Some i => i
       | None => "_" ++ action ++ "/"
       end.
Proof.
  unfold Legacy.build_url, url_base, Newer.nodename_segment.
  destruct id as [i|], nodename as [[|c n]|]; simpl;
    repeat (progress (rewrite ?append_assoc; simpl)); reflexivity.
Qed.

(** C4, as amended.  The path tail of the URL builder.  In the newer
    client, for every action, index argument and optional id: the tail is
    the literal id when an id is given and the action is not the creation
    action [post]; it is [_<action>/] when no id is given and the action is
    not [post]; and [post] without an id has an empty tail.  The legacy
    client has no creation action: its builder gives the literal id when
    an id is given and [_<action>/] when none is, for every action name,
    [post] included, and its dispatcher knows no action [post] (it raises
    [KeyError] before any URL is built).  Both builders are functions of
    their inputs. *)
Theorem C4_path_tail :
  (forall self action index ip port nodename id body,
      let base := url_base (Newer.host self ip port)
                           (Newer.index_segment self index)
                           (Newer.nodename_segment nodename) in
      (forall i, id = Some i -> action <> "post" ->
         Newer._build_url self action index ip port nodename id body
         = base ++ i)
      /\ (id = None -> action <> "post" ->
         Newer._build_url self action index ip port nodename id body
         = base ++ "_" ++ action ++ "/")
      /\ (id = None -> action = "post" ->
         Newer._build_url self action index ip port nodename id body
         = base ++ ""))
  /\
  (forall self action endpoint ip port nodename id body,
      let base := url_base (Legacy.host self ip port)
                           (Legacy.endpoint_segment endpoint)
                           (Newer.nodename_segment nodename) in
      (forall i, id = Some i ->
         Legacy.build_url self action endpoint ip port nodename id body
         = base ++ i)
      /\ (id = None ->
         Legacy.build_url self action endpoint ip port nodename id body
         = base ++ "_" ++ action ++ "/"))
  /\
  (forall self e endpoint k,
      Legacy._methods "post" = None
      /\ Legacy.send_request self e "post" endpoint k = Raise (KeyError "post")).
Proof.
  split; [|split].
  - intros self action index ip port nodename id body base.
    subst base. rewrite newer_url_shape. unfold Newer.tail.
    repeat split.
    + intros i -> Hne. apply String.eqb_neq in Hne. now rewrite Hne.
    + intros -> Hne. apply String.eqb_neq in Hne. now rewrite Hne.
    + intros -> ->. reflexivity.
  - intros self action endpoint ip port nodename id body base.
    subst base. rewrite legacy_url_shape.
    split.
    + now intros i ->.
    + now intros ->.
  - intros self e endpoint k. split; reflexivity.
Qed.

Lemma C4_path_tail_witness :
  "get" <> "post"
  /\ Newer._build_url Newer.live "get" (IndexMany ["books"; "films"]) None None
       (Some "node1") (Some "42") None
     = "http://127.0.0.1:8880/live/books,live/films@node1/42"
  /\ Legacy.build_url legacy_client "get" (IndexMany ["books"; "films"]) None None
       (Some "node1") None None
     = "http://127.0.0.1:8880/books,films@node1/_get/".
Proof.
  assert (H : "get" <> "post") by discriminate.
  split; [exact H|]. split.
  - exact (proj1 (proj1 C4_path_tail Newer.live "get"
                    (IndexMany ["books"; "films"]) None None (Some "node1")
                    (Some "42") None) "42" eq_refl H).
  - exact (proj2 (proj1 (proj2 C4_path_tail) legacy_client "get"
                    (IndexMany ["books"; "films"]) None None (Some "node1")
                    None None) eq_refl).
Defined.

(** C4 as stated fails in the legacy client: for the creation action [post]
    without an id its builder gives the tail [_post/], not the empty tail. *)
Lemma C4_counterexample :
  Legacy.build_url legacy_client "post" (IndexOne "books") None None None
                   None None
  = "http://127.0.0.1:8880/books/_post/"
  /\ Legacy.build_url legacy_client "post" (IndexOne "books") None None None
                      None None
     <> url_base (Legacy.host legacy_client None None)
                 (Legacy.endpoint_segment (IndexOne "books"))
                 (Newer.nodename_segment None) ++ "".
Proof. split; [reflexivity | vm_compute; discriminate]. Qed.

Example newer_url_examples :
  Newer._build_url Newer.live "get" (IndexOne "books") None None None (Some "42") None
    = "http://127.0.0.1:8880/live/books/42"
  /\ Newer._build_url Newer.sandbox "search" (IndexMany ["a"; "b"]) (Some "h:9") None
       (Some "n") None None
    = "http://h:9/sandbox/a,sandbox/b@n/_search/"
  /\ Newer._build_url Newer.live "post" (IndexOne "books") None None None None None
    = "http://127.0.0.1:8880/live/books/".
Proof. repeat split; reflexivity. Qed.

(** C10.  In the newer client the creation action [post] ignores a supplied
    document id: the tail is empty, and the URL is the one built without an
    id from the same host, port, prefix, index names and nodename. *)
Theorem C10_post_ignores_id :
  forall self index ip port nodename id body,
    Newer.tail "post" (Some id) = ""
    /\ Newer._build_url self "post" index ip port nodename (Some id) body
       = Newer._build_url self "post" index ip port nodename None body
    /\ Newer._build_url self "post" index ip port nodename (Some id) body
       = url_base (Newer.host self ip port) (Newer.index_segment self index)
                  (Newer.nodename_segment nodename).
Proof.
  intros self index ip port nodename id body.
  split; [reflexivity|]. split; reflexivity.
Qed.

(** ** The requests of the action methods *)

(** C7.  A client constructed with prefix [live] (host 127.0.0.1 and port
    8880 by default) turns [search("books", query="title:dune")] into a GET
    of [http://127.0.0.1:8880/live/books/_search/] whose query-parameter
    mapping contains [query=title:dune] and [pretty=0]; that request is the
    one handed to the transport. *)
Theorem C7_search_round_trip :
  forall e : env,
    Newer.prepare live_client e "search" (IndexOne "books") dune_kwargs
    = Return (dune_request, VBool true, "results")
    /\ Newer.search live_client e (IndexOne "books") dune_query
         (VBool false) (VBool false) None Kw.empty
       = (res <- env_send e dune_request ;;
          Newer.after_response e "search" dune_kwargs (VBool true) "results" res)
    /\ req_url dune_request = "http://127.0.0.1:8880/live/books/_search/"
    /\ (exists params,
           req_params dune_request = Some params
           /\ Dict.get params "query" = Some (VStr "title:dune")
           /\ Dict.get params "pretty" = Some (VInt 0)).
Proof.
  intros e. split; [reflexivity|]. split; [reflexivity|]. split; [reflexivity|].
  eexists. split; [reflexivity|]. split; reflexivity.
Qed.

(** C8.  [index] is [put]: with the same arguments (index, body, id,
    commit, pretty, kwargs) on the same client, the two calls hand the same
    request to the transport (the verb [PUT], the same URL, the same body,
    the same query parameters) and treat its response alike, so they have
    the same outcome whatever the transport answers. *)
Theorem C8_index_is_put :
  forall self e index body id commit pretty kwargs,
    Newer.index self e index body id commit pretty kwargs
    = Newer.put self e index body id commit pretty kwargs
    /\ Newer.prepare self e "put" index
         (Newer.put_kwargs self body id commit pretty kwargs)
       = Return (put_request self e index body id commit pretty kwargs,
                 Dispatch.pick_stream (Kw.or_empty kwargs) false, "result")
    /\ Newer.index self e index body id commit pretty kwargs
       = (res <- env_send e (put_request self e index body id commit pretty kwargs) ;;
          Newer.after_response e "put"
            (Newer.put_kwargs self body id commit pretty kwargs)
            (Dispatch.pick_stream (Kw.or_empty kwargs) false) "result" res).
Proof.
  intros self e index body id commit pretty kwargs.
  split; [reflexivity|]. split; reflexivity.
Qed.

(** ** The query-parameter transform *)

(** [dict(items)] keeps, for every key, the value of the last pair that
    carries it. *)
Lemma get_app (l1 l2 : dict) (k : string) :
  Dict.get (l1 ++ l2)%list k
  = match Dict.get l1 k with
    | Some v => Some v
    | None => Dict.get l2 k
    end.
Proof.
  induction l1 as [|[k' v'] l1 IH]; simpl; [reflexivity|].
  destruct (String.eqb k' k); [reflexivity | exact IH].
Qed.

Lemma get_set (d : dict) (k k0 : string) (v : pyval) :
  Dict.get (Dict.set d k v) k0
  = if String.eqb k k0 then Some v else Dict.get d k0.
Proof.
  destruct (String.eqb k k0) eqn:E.
  - apply String.eqb_eq in E. subst k0. apply get_set_same.
  - apply String.eqb_neq in E. apply get_set_other. congruence.
Qed.

Lemma get_fold_set (items : list (string * pyval)) :
  forall (acc : dict) (k : string),
    Dict.get (fold_left (fun d kv => Dict.set d (fst kv) (snd kv)) items acc) k
    = match Dict.get (rev items) k with
      | Some v => Some v
      | None => Dict.get acc k
      end.
Proof.
  induction items as [|[k' v'] items IH]; intros acc k; simpl; [reflexivity|].
  rewrite IH, get_app, get_set. simpl.
  destruct (Dict.get (rev items) k); [reflexivity|].
  destruct (String.eqb k' k); reflexivity.
Qed.

Lemma of_items_get (items : list (string * pyval)) (k : string) :
  Dict.get (Dict.of_items items) k = Dict.get (rev items) k.
Proof.
  unfold Dict.of_items. rewrite get_fold_set.
  destruct (Dict.get (rev items) k); reflexivity.
Qed.

Lemma in_fold_set (items : list (string * pyval)) :
  forall (acc : dict) (kv : string * pyval),
    In kv (fold_left (fun d kv => Dict.set d (fst kv) (snd kv)) items acc) ->
    In kv acc \/ In kv items.
Proof.
  induction items as [|[k' v'] items IH]; intros acc [k v] H; simpl in *; [auto|].
  destruct (IH _ _ H) as [H1|H1]; [|auto].
  destruct (in_set _ _ _ _ _ H1) as [H2|H2]; auto.
Qed.

Lemma of_items_in (items : list (string * pyval)) (kv : string * pyval) :
  In kv (Dict.of_items items) -> In kv items.
Proof.
  intros H. destruct (in_fold_set _ _ _ H) as [[]|H']; exact H'.
Qed.

Lemma get_some_of_in (d : dict) (k : string) (v : pyval) :
  In (k, v) d -> exists v', Dict.get d k = Some v'.
Proof.
  induction d as [|[k' v'] d IH]; simpl; [tauto|].
  intros [H|H].
  - inversion H; subst. rewrite String.eqb_refl. eauto.
  - destruct (String.eqb k' k); eauto.
Qed.

Lemma get_in (d : dict) (k : string) (v : pyval) :
  Dict.get d k = Some v -> In (k, v) d.
Proof.
  induction d as [|[k' v'] d IH]; simpl; [discriminate|].
  destruct (String.eqb k' k) eqn:E.
  - apply String.eqb_eq in E. intros [= ->]. subst. auto.
  - auto.
Qed.

Lemma cons_inj (a b : ascii) (s t : string) :
  String a s = String b t -> a = b /\ s = t.
Proof. intros H. split; congruence. Qed.

(** [replace_dunder] leaves no double underscore behind, and changes
    nothing else. *)
Lemma replace_dunder_first (s : string) (c : ascii) (t : string) :
  Str.replace_dunder s = String c t ->
  c = "."%char \/ exists s', s = String c s'.
Proof.
  destruct s as [|x [|y r]]; simpl; try discriminate.
  - intros H. apply cons_inj in H. destruct H as [-> _]. eauto.
  - destruct (Ascii.eqb x Str.underscore && Ascii.eqb y Str.underscore)%bool;
      intros H; apply cons_inj in H; destruct H as [<- _]; eauto.
Qed.

Lemma replace_dunder_head (s : string) (b : string) :
  Str.replace_dunder s <> "__" ++ b.
Proof.
  change ("__" ++ b) with (String Str.underscore (String Str.underscore b)).
  destruct s as [|x [|y r]]; try discriminate.
  change (Str.replace_dunder (String x (String y r)))
    with (if (Ascii.eqb x Str.underscore && Ascii.eqb y Str.underscore)%bool
          then String "." (Str.replace_dunder r)
          else String x (Str.replace_dunder (String y r))).
  destruct (Ascii.eqb_spec x Str.underscore) as [->|Hx]; simpl andb.
  - destruct (Ascii.eqb_spec y Str.underscore) as [->|Hy]; simpl andb.
    + intros H. apply cons_inj in H. destruct H as [H _]. discriminate.
    + intros H. apply cons_inj in H. destruct H as [_ H].
      apply replace_dunder_first in H. destruct H as [H|[s' H]].
      * discriminate.
      * apply cons_inj in H. destruct H as [H _]. now apply Hy.
  - intros H. apply cons_inj in H. destruct H as [H _]. now apply Hx.
Qed.

Lemma replace_dunder_clean (a : string) :
  forall s b, Str.replace_dunder s <> a ++ "__" ++ b.
Proof.
  induction a as [|c a IH]; intros s b.
  - apply replace_dunder_head.
  - change (String c a ++ "__" ++ b) with (String c (a ++ "__" ++ b)).
    destruct s as [|x [|y r]]; simpl; try discriminate.
    + intros H. apply cons_inj in H. destruct H as [_ H].
      destruct a; discriminate.
    + destruct (Ascii.eqb x Str.underscore && Ascii.eqb y Str.underscore)%bool;
        intros H; apply cons_inj in H; destruct H as [_ H].
      * exact (IH _ _ H).
      * exact (IH (String y r) _ H).
Qed.

Lemma replace_dunder_fixed_bounded (n : nat) :
  forall s, (String.length s <= n)%nat ->
    (forall a b, s <> a ++ "__" ++ b) -> Str.replace_dunder s = s.
Proof.
  induction n as [|n IH]; intros s Hlen Hfree.
  - destruct s; [reflexivity | simpl in Hlen; lia].
  - destruct s as [|x [|y r]]; try reflexivity.
    assert (Hrest : Str.replace_dunder (String y r) = String y r).
    { apply IH; [simpl in *; lia|].
      intros a b H. apply (Hfree (String x a) b).
      change (String x a ++ "__" ++ b) with (String x (a ++ "__" ++ b)).
      now rewrite <- H. }
    change (Str.replace_dunder (String x (String y r)))
      with (if (Ascii.eqb x Str.underscore && Ascii.eqb y Str.underscore)%bool
            then String "." (Str.replace_dunder r)
            else String x (Str.replace_dunder (String y r))).
    destruct (Ascii.eqb_spec x Str.underscore) as [->|Hx]; cbn [andb].
    + destruct (Ascii.eqb_spec y Str.underscore) as [->|Hy]; cbn [andb].
      * exfalso. apply (Hfree "" r). reflexivity.
      * now rewrite Hrest.
    + now rewrite Hrest.
Qed.

Lemma replace_dunder_fixed (s : string) :
  (forall a b, s <> a ++ "__" ++ b) -> Str.replace_dunder s = s.
Proof. apply (replace_dunder_fixed_bounded (String.length s)). lia. Qed.

(** At its first double underscore a key gets a dot, and the rest of the
    key is treated the same way. *)
Lemma replace_dunder_step (a : string) :
  forall b, (forall x y, a ++ "_" <> x ++ "__" ++ y) ->
    Str.replace_dunder (a ++ "__" ++ b) = a ++ "." ++ Str.replace_dunder b.
Proof.
  induction a as [|c a IH]; intros b Hfree; [reflexivity|].
  assert (Hrest : forall x y, a ++ "_" <> x ++ "__" ++ y).
  { intros x y H. apply (Hfree (String c x) y).
    change (String c a ++ "_" = String c (x ++ "__" ++ y)).
    simpl. now rewrite H. }
  change (String c a ++ "__" ++ b) with (String c (a ++ "__" ++ b)).
  destruct a as [|c' a].
  - change (Str.replace_dunder (String c ("" ++ "__" ++ b)))
      with (if (Ascii.eqb c Str.underscore && Ascii.eqb Str.underscore Str.underscore)%bool
            then String "." (Str.replace_dunder (String Str.underscore b))
            else String c (Str.replace_dunder ("__" ++ b))).
    destruct (Ascii.eqb_spec c Str.underscore) as [->|Hc]; cbn [andb].
    + exfalso. apply (Hfree "" ""). reflexivity.
    + reflexivity.
  - change (Str.replace_dunder (String c (String c' a ++ "__" ++ b)))
      with (if (Ascii.eqb c Str.underscore && Ascii.eqb c' Str.underscore)%bool
            then String "." (Str.replace_dunder (a ++ "__" ++ b))
            else String c (Str.replace_dunder (String c' a ++ "__" ++ b))).
    destruct (Ascii.eqb_spec c Str.underscore) as [->|Hc]; cbn [andb].
    + destruct (Ascii.eqb_spec c' Str.underscore) as [->|Hc']; cbn [andb].
      * exfalso. apply (Hfree "" (a ++ "_")). reflexivity.
      * now rewrite (IH b Hrest).
    + now rewrite (IH b Hrest).
Qed.

Lemma get_of_in_nodup (d : dict) (k : string) (v : pyval) :
  NoDup (Dict.keys d) -> In (k, v) d -> Dict.get d k = Some v.
Proof.
  unfold Dict.keys. induction d as [|[k' v'] d IH]; simpl; [tauto|].
  intros Hnd [H|H].
  - inversion H; subst. now rewrite String.eqb_refl.
  - inversion Hnd as [|? ? Hnotin Hnd']; subst.
    destruct (String.eqb_spec k' k) as [->|Hne].
    + exfalso. apply Hnotin. apply (in_map fst) in H. exact H.
    + auto.
Qed.

Lemma transformed_items_in (params : dict) (k : string) (v : pyval) :
  In (k, v) (transformed_items params) ->
  exists k0 v0, In (k0, v0) params
                /\ k = Str.replace_dunder k0 /\ v = Dispatch.coerce v0.
Proof.
  unfold transformed_items. intros H. apply in_map_iff in H.
  destruct H as [[k0 v0] [Heq Hin]]. simpl in Heq.
  exists k0, v0. inversion Heq. auto.
Qed.

Lemma coerce_not_bool (v : pyval) (b : bool) : Dispatch.coerce v <> VBool b.
Proof. destruct v; simpl; discriminate. Qed.

(** C6.  The query-parameter transform of the request dispatcher, for every
    mapping [params] handed to it (by either client).  Every entry of the
    outgoing mapping is an entry of [params] with the double underscores of
    its key replaced by dots and its value coerced; every key of [params]
    is present under its replaced name; no outgoing key contains a double
    underscore and no outgoing value is a boolean; [True] becomes the
    integer 1, [False] the integer 0, and any other value is unchanged.
    Where the replaced keys are pairwise distinct, each entry is found
    under its replaced key with its own coerced value. *)
Theorem C6_query_parameter_transform :
  forall params : dict,
    let out := Dispatch.transform_params params in
    (forall k v, In (k, v) out ->
       exists k0 v0, In (k0, v0) params
                     /\ k = Str.replace_dunder k0 /\ v = Dispatch.coerce v0)
    /\ (forall k0 v0, In (k0, v0) params ->
          exists k1 v1, In (k1, v1) params
                        /\ Str.replace_dunder k1 = Str.replace_dunder k0
                        /\ Dict.get out (Str.replace_dunder k0)
                           = Some (Dispatch.coerce v1))
    /\ (NoDup (map (fun kv => Str.replace_dunder (fst kv)) params) ->
        forall k0 v0, In (k0, v0) params ->
          Dict.get out (Str.replace_dunder k0) = Some (Dispatch.coerce v0))
    /\ (forall k v, In (k, v) out ->
          (forall a b, k <> a ++ "__" ++ b) /\ (forall b, v <> VBool b))
    /\ (Dispatch.coerce (VBool true) = VInt 1
        /\ Dispatch.coerce (VBool false) = VInt 0
        /\ forall v, (forall b, v <> VBool b) -> Dispatch.coerce v = v)
    /\ (forall self e action index k,
          match Newer.prepare self e action index k with
          | Return (req, _, _) =>
              req_params req
              = option_map Dispatch.transform_params (Kw.arg (kw_params k))
          | Raise _ => True
          end)
    /\ (forall self e action endpoint k,
          match Legacy.prepare self e action endpoint k with
          | Return (req, _, _) =>
              req_params req
              = option_map Dispatch.transform_params (Kw.arg (kw_params k))
          | Raise _ => True
          end).
Proof.
  intros params out.
  assert (Hout : forall k v, In (k, v) out -> In (k, v) (transformed_items params)).
  { intros k v H. exact (of_items_in _ _ H). }
  assert (Hget : forall k, Dict.get out k = Dict.get (rev (transformed_items params)) k).
  { intros k. apply of_items_get. }
  split; [|split; [|split; [|split; [|split; [|split]]]]].
  - intros k v H. apply transformed_items_in. auto.
  - intros k0 v0 Hin.
    assert (Hin' : In (Str.replace_dunder k0, Dispatch.coerce v0)
                      (rev (transformed_items params))).
    { apply (proj1 (in_rev _ _)). unfold transformed_items.
      apply (in_map (fun kv => (Str.replace_dunder (fst kv), Dispatch.coerce (snd kv)))
                    params (k0, v0) Hin). }
    destruct (get_some_of_in _ _ _ Hin') as [v' Hv'].
    pose proof (get_in _ _ _ Hv') as Hin''.
    apply (proj2 (in_rev _ _)) in Hin''.
    destruct (transformed_items_in _ _ _ Hin'') as [k1 [v1 [H1 [H2 H3]]]].
    exists k1, v1. rewrite Hget, Hv'. subst v'. auto.
  - intros Hnd k0 v0 Hin. rewrite Hget.
    apply get_of_in_nodup.
    + unfold Dict.keys. rewrite map_rev. apply NoDup_rev.
      unfold transformed_items. rewrite map_map. exact Hnd.
    + apply (proj1 (in_rev _ _)). unfold transformed_items.
      apply (in_map (fun kv => (Str.replace_dunder (fst kv), Dispatch.coerce (snd kv)))
                    params (k0, v0) Hin).
  - intros k v H. apply Hout in H.
    destruct (transformed_items_in _ _ _ H) as [k0 [v0 [_ [-> ->]]]].
    split.
    + intros a b. apply replace_dunder_clean.
    + intros b. apply coerce_not_bool.
  - repeat split. intros v Hv. destruct v; try reflexivity.
    exfalso. exact (Hv b eq_refl).
  - intros self e action index k. unfold Newer.prepare.
    destruct (Newer._methods action) as [[[m s] key]|]; simpl; auto.
  - intros self e action endpoint k. unfold Legacy.prepare.
    destruct (Legacy._methods action) as [[[m s] key]|]; simpl; auto.
Qed.

Lemma C6_query_parameter_transform_witness :
  NoDup (map (fun kv => Str.replace_dunder (fst kv)) sample_params)
  /\ Dict.get (Dispatch.transform_params sample_params) "a.b" = Some (VInt 1).
Proof.
  assert (Hnd : NoDup (map (fun kv => Str.replace_dunder (fst kv)) sample_params)).
  { simpl. repeat constructor; simpl; intuition discriminate. }
  split; [exact Hnd|].
  exact (proj1 (proj2 (proj2 (C6_query_parameter_transform sample_params)))
           Hnd "a__b" (VBool true) (or_introl eq_refl)).
Defined.

Example transform_params_ex :
  Dispatch.transform_params sample_params
  = [("a.b", VInt 1); ("n", VInt 5); ("deep._x", VInt 0)].
Proof. reflexivity. Qed.

(** ** The status policy *)

Lemma recovers_iff (action : string) :
  Newer.recovers action = true
  <-> action = "get" \/ action = "patch" \/ action = "delete".
Proof.
  unfold Newer.recovers. rewrite !orb_true_iff, !String.eqb_eq. tauto.
Qed.

Lemma recovers_false (action : string) :
  action <> "get" -> action <> "patch" -> action <> "delete" ->
  Newer.recovers action = false.
Proof.
  intros Hg Hp Hd. destruct (Newer.recovers action) eqn:E; [|reflexivity].
  apply recovers_iff in E. tauto.
Qed.

(** [_send_request] once the transport has answered. *)
Lemma newer_send_request_eq self e action index k req stream key res :
  Newer.prepare self e action index k = Return (req, stream, key) ->
  env_send e req = Return res ->
  Newer._send_request self e action index k
  = Newer.after_response e action k stream key res.
Proof.
  intros Hp Hs. unfold Newer._send_request. rewrite Hp. simpl.
  rewrite Hs. reflexivity.
Qed.

Lemma legacy_send_request_eq self e action endpoint k req stream key res :
  Legacy.prepare self e action endpoint k = Return (req, stream, key) ->
  env_send e req = Return res ->
  Legacy.send_request self e action endpoint k
  = Legacy.after_response e action stream key res.
Proof.
  intros Hp Hs. unfold Legacy.send_request. rewrite Hp. simpl.
  rewrite Hs. reflexivity.
Qed.

(** C1.  In [_send_request], when the response status is 404: for the
    actions [get], [patch] and [delete] the call raises [DoesNotExist] if
    the caller supplied no default, and returns exactly the supplied
    default, raising nothing, if there is one; for every other action the
    default plays no part and the call raises the HTTP error 404. *)
Theorem C1_not_found_recovery :
  forall self e action index k req stream key res,
    Newer.prepare self e action index k = Return (req, stream, key) ->
    env_send e req = Return res ->
    status_code res = 404 ->
    (action = "get" \/ action = "patch" \/ action = "delete" ->
       (kw_default k = None ->
          Newer._send_request self e action index k = Raise DoesNotExist)
       /\ (forall default, kw_default k = Some default ->
          Newer._send_request self e action index k
          = Return (Newer.RetDefault default)))
    /\ (action <> "get" -> action <> "patch" -> action <> "delete" ->
        Newer._send_request self e action index k = Raise (HTTPError 404)).
Proof.
  intros self e action index k req stream key res Hp Hs H404.
  rewrite (newer_send_request_eq _ _ _ _ _ _ _ _ _ Hp Hs).
  unfold Newer.after_response. rewrite H404. simpl.
  split.
  - intros Hact. apply recovers_iff in Hact. rewrite Hact.
    split.
    + now intros ->.
    + now intros default ->.
  - intros Hg Hpa Hd. rewrite (recovers_false _ Hg Hpa Hd).
    unfold Newer.raise_for_status. rewrite H404. reflexivity.
Qed.

Lemma C1_not_found_recovery_witness :
  status_code not_found_response = 404
  /\ Newer.get live_client (env_of not_found_response) (IndexOne "books")
       (Some "42") (Some (VStr "fallback")) (VBool false) (VBool false) None
     = Return (Newer.RetDefault (VStr "fallback")).
Proof.
  split; [reflexivity|].
  exact (proj2 (proj1 (C1_not_found_recovery live_client
                  (env_of not_found_response) "get" (IndexOne "books")
                  (Newer.get_kwargs (Some "42") (Some (VStr "fallback"))
                                    (VBool false) (VBool false) None)
                  _ _ _ not_found_response
                  eq_refl eq_refl eq_refl)
                (or_introl eq_refl))
           (VStr "fallback") eq_refl).
Defined.

(** ** The generator of the streamed decoder *)

Section Generator.

Variable loads : string -> option pyval.

Lemma filter_length_le {A} (f : A -> bool) (l : list A) :
  (length (filter f l) <= length l)%nat.
Proof.
  induction l as [|x l IH]; simpl; [lia|].
  destruct (f x); simpl; lia.
Qed.

Lemma feed_length (g : Newer.generator) :
  (length (Newer.g_cache (Newer.feed g)) + length (Newer.g_lines (Newer.feed g))
   <= length (Newer.g_lines g))%nat.
Proof.
  unfold Newer.feed; simpl.
  pose proof (filter_length_le Newer.nonempty
                (firstn (Newer.g_size g) (Newer.g_lines g))) as Hf.
  pose proof (firstn_skipn (Newer.g_size g) (Newer.g_lines g)) as Hs.
  apply (f_equal (@length string)) in Hs. rewrite length_app in Hs. lia.
Qed.

(** The fuel of [next] is never used up: [next] is total. *)
Lemma next_fuel_enough (fuel : nat) :
  forall g, (work g < fuel)%nat -> Newer.next_fuel loads fuel g <> None.
Proof.
  induction fuel as [|fuel IH]; intros g Hw; [lia|].
  cbn [Newer.next_fuel]. destruct (Newer.g_done g); [discriminate|].
  destruct (Newer.g_cache g) as [|line rest] eqn:Hc.
  - destruct (Newer.g_cache (Newer.feed g)) as [|l c] eqn:Hf; [discriminate|].
    apply IH. unfold work in *. rewrite Hc in Hw. rewrite Hf.
    pose proof (feed_length g) as Hl. rewrite Hf in Hl. simpl in *. lia.
  - destruct (Newer.decode_line loads (Newer.g_is_json g) line);
      try discriminate.
    apply IH. unfold work in *. rewrite Hc in Hw.
    cbn [Newer.with_cache Newer.g_cache Newer.g_lines length] in *.
    destruct rest; cbn [length] in *; lia.
Qed.

Lemma next_total (g : Newer.generator) :
  Newer.next_fuel loads (Newer.fuel_for g) g = Some (Newer.next loads g).
Proof.
  unfold Newer.next.
  destruct (Newer.next_fuel loads (Newer.fuel_for g) g) eqn:E; [reflexivity|].
  exfalso. apply (next_fuel_enough (Newer.fuel_for g) g); [|exact E].
  unfold work, Newer.fuel_for. destruct (Newer.g_cache g); simpl; lia.
Qed.

(** A generator that has returned or raised only stops. *)
Lemma next_done (g : Newer.generator) :
  Newer.g_done g = true -> Newer.next loads g = (Stop, g).
Proof.
  intros Hd. unfold Newer.next, Newer.fuel_for.
  rewrite Nat.add_comm. simpl. rewrite Hd. reflexivity.
Qed.

(** What [next] gives, whatever the fuel: a value, or the end of the
    generator, or the decoder's error, and in the last two cases the
    generator is done. *)
Lemma next_fuel_outcome (fuel : nat) :
  forall g st g',
    Newer.next_fuel loads fuel g = Some (st, g') ->
    match st with
    | Yield _ => True
    | Stop => Newer.g_done g' = true
    | Throw e => e = JSONDecodeError /\ Newer.g_done g' = true
    end.
Proof.
  induction fuel as [|fuel IH]; intros g st g'; cbn [Newer.next_fuel];
    [discriminate|].
  destruct (Newer.g_done g) eqn:Hd.
  - intros [= <- <-]. exact Hd.
  - destruct (Newer.g_cache g) as [|line rest].
    + destruct (Newer.g_cache (Newer.feed g)) as [|l c].
      * intros [= <- <-]. reflexivity.
      * apply IH.
    + destruct (Newer.decode_line loads (Newer.g_is_json g) line).
      * apply IH.
      * intros [= <- <-]. exact I.
      * intros [= <- <-]. split; reflexivity.
Qed.

Lemma next_outcome (g : Newer.generator) :
  match fst (Newer.next loads g) with
  | Yield _ => True
  | Stop => Newer.g_done (snd (Newer.next loads g)) = true
  | Throw e => e = JSONDecodeError /\ Newer.g_done (snd (Newer.next loads g)) = true
  end.
Proof.
  pose proof (next_total g) as H.
  destruct (Newer.next loads g) as [st g']. simpl.
  exact (next_fuel_outcome _ _ _ _ H).
Qed.

(** Single pass: once [next] has stopped or raised, every later [next]
    stops, and the generator no longer changes. *)
Lemma generator_single_pass (g : Newer.generator) :
  (forall v, fst (Newer.next loads g) <> Yield v) ->
  Newer.next loads (snd (Newer.next loads g))
  = (Stop, snd (Newer.next loads g)).
Proof.
  intros Hny. apply next_done.
  pose proof (next_outcome g) as H.
  destruct (fst (Newer.next loads g)) as [v| |e].
  - exfalso. exact (Hny v eq_refl).
  - exact H.
  - apply H.
Qed.

End Generator.

(** ** Which calls can raise [HTTPError] *)

Lemma quiet_bind {A B} (m : result A) (k : A -> result B) :
  quiet m -> (forall a, quiet (k a)) -> quiet (bind m k).
Proof.
  destruct m as [a|e]; simpl; intros Hm Hk; [apply Hk | exact Hm].
Qed.

Lemma quiet_not_http {A} (r : result A) :
  quiet r -> forall s, r <> Raise (HTTPError s).
Proof. intros Hq s ->. exact Hq. Qed.

Lemma tame_bind {A B} (m : result A) (k : A -> result B) :
  tame m -> (forall a, tame (k a)) -> tame (bind m k).
Proof.
  destruct m as [a|e]; simpl; intros Hm Hk; [apply Hk | exact Hm].
Qed.

Lemma tame_quiet {A} (r : result A) : tame r -> quiet r.
Proof. destruct r as [a|[]]; simpl; intros H; try exact I; discriminate. Qed.

Lemma py_dict_tame (v : pyval) : tame (Newer.py_dict v).
Proof.
  destruct v as [| | | |s|l|d]; simpl; try tame_done.
  - destruct s; tame_done.
  - assert (H : forall acc : result dict, tame acc ->
              tame (fold_left
                (fun acc x =>
                   d <- acc ;;
                   match x with
                   | VList [VStr k; y] => Return (Dict.set d k y)
                   | VStr (String a (String b EmptyString)) =>
                       Return (Dict.set d (String a "") (VStr (String b "")))
                   | VDict [(k, _); (k', _)] => Return (Dict.set d k (VStr k'))
                   | VList [_; _] => Raise TypeError
                   | VList _ | VStr _ | VDict _ => Raise ValueError
                   | _ => Raise TypeError
                   end) l acc)).
    { induction l as [|x l IH]; intros acc Hacc; simpl; [exact Hacc|].
      apply IH. apply tame_bind; [exact Hacc|]. intros d.
      repeat match goal with
             | |- tame (match ?y with _ => _ end) => destruct y
             end; tame_done. }
    apply H. tame_done.
Qed.

Lemma leading_underscore_tame (k : string) : tame (Newer.leading_underscore k).
Proof. destruct k; tame_done. Qed.

Lemma setattr_tame (attrs : dict) (name : string) (v : pyval) :
  tame (Py.setattr attrs name v).
Proof.
  unfold Py.setattr.
  destruct (String.eqb name "__class__"); [tame_done|].
  destruct (String.eqb name "__dict__"); [destruct v; tame_done|].
  destruct (String.eqb name "__weakref__"); tame_done.
Qed.

Lemma setattr_key_tame (attrs : dict) (name : string) (v : pyval) :
  tame (Py.setattr_key attrs name v).
Proof.
  unfold Py.setattr_key.
  destruct (Py.is_ascii name); [apply setattr_tame | tame_done].
Qed.

Lemma lift_keys_tame (ks : list string) :
  forall r, tame (Newer.lift_keys ks r).
Proof.
  induction ks as [|k ks IH]; intros r; simpl; [tame_done|].
  apply tame_bind; [apply leading_underscore_tame|].
  intros [|]; [|apply IH].
  destruct (Dict.get (Newer.r_attrs r) "pop"); [tame_done|].
  destruct (Dict.get (Newer.r_items r) k); [|tame_done].
  apply tame_bind; [apply setattr_key_tame|]. intros attrs. apply IH.
Qed.

Lemma Result_init_tame (x : pyval) : tame (Newer.Result_init x).
Proof.
  unfold Newer.Result_init. apply tame_bind; [apply py_dict_tame|].
  intros d. apply lift_keys_tame.
Qed.

Lemma query_attrs_tame (items : dict) :
  forall attrs, tame (Newer.query_attrs items attrs).
Proof.
  induction items as [|[k v] items IH]; intros attrs; simpl; [tame_done|].
  apply tame_bind; [apply leading_underscore_tame|]. intros u.
  apply tame_bind; [|intros attrs'; apply IH].
  destruct u; [apply setattr_key_tame | tame_done].
Qed.

Lemma meta_get_tame (meta : pyval) (key : string) :
  tame (Newer.meta_get meta key).
Proof. destruct meta; tame_done. Qed.

Lemma Results_init_tame (meta : pyval) (src : Newer.source) :
  tame (Newer.Results_init meta src).
Proof.
  unfold Newer.Results_init.
  apply tame_bind; [apply meta_get_tame|]. intros q.
  apply tame_bind.
  - destruct q; try tame_done. apply query_attrs_tame.
  - intros attrs. apply tame_bind; [apply meta_get_tame|]. intros a.
    apply tame_bind; [apply py_dict_tame|]. intros d.
    apply tame_bind; [apply setattr_tame|]. intros attrs'. tame_done.
Qed.

Lemma Result_init_quiet (x : pyval) : quiet (Newer.Result_init x).
Proof. apply tame_quiet, Result_init_tame. Qed.

Lemma Results_init_quiet (meta : pyval) (src : Newer.source) :
  quiet (Newer.Results_init meta src).
Proof. apply tame_quiet, Results_init_tame. Qed.

Lemma Results_next_quiet (loads : string -> option pyval) (rs : Newer.Results) :
  quiet (fst (Newer.Results_next loads rs)).
Proof.
  unfold Newer.Results_next. destruct (Newer.rs_generator rs) as [g|items|s].
  - pose proof (next_outcome loads g) as H.
    destruct (Newer.next loads g) as [[v| |e] g']; simpl in *.
    + apply Result_init_quiet.
    + exact I.
    + destruct H as [-> _]. exact I.
  - destruct items; simpl; [exact I | apply Result_init_quiet].
  - destruct s; simpl; exact I.
Qed.

Lemma Results_call_next_quiet (loads : string -> option pyval)
  (rs : Newer.Results) :
  quiet (fst (Newer.Results_call_next loads rs)).
Proof.
  unfold Newer.Results_call_next.
  destruct (Dict.get (Newer.rs_attrs rs) "next"); [exact I|].
  apply Results_next_quiet.
Qed.

Lemma Result_set_headers_tame (hs : list (string * string)) :
  forall r, tame (Newer.Result_set_headers hs r).
Proof.
  induction hs as [|kv hs IH]; intros r; simpl; [tame_done|].
  apply tame_bind; [|intros r'; apply IH].
  unfold Newer.Result_set_header.
  apply tame_bind; [apply setattr_tame|]. intros attrs. tame_done.
Qed.

Lemma Results_set_headers_tame (hs : list (string * string)) :
  forall rs, tame (Newer.Results_set_headers hs rs).
Proof.
  induction hs as [|kv hs IH]; intros rs; simpl; [tame_done|].
  apply tame_bind; [|intros rs'; apply IH].
  unfold Newer.Results_set_header.
  destruct (String.eqb (Str.replace_hyphen (fst kv)) "generator"); [tame_done|].
  apply tame_bind; [apply setattr_tame|]. intros attrs. tame_done.
Qed.

(** Decoding a response never raises [HTTPError]. *)
Lemma decode_quiet (e : env) (stream : pyval) (key : string) (res : response) :
  quiet (Newer.decode e stream key res).
Proof.
  unfold Newer.decode. apply quiet_bind.
  - destruct (Py.truthy stream).
    + pose proof (next_outcome (env_loads e)
                    (Newer.start (Newer.is_json res) (iter_lines res))) as H.
      destruct (Newer.next (env_loads e)
                  (Newer.start (Newer.is_json res) (iter_lines res)))
        as [[v| |err] g']; simpl in *.
      * apply Results_init_quiet.
      * exact I.
      * destruct H as [-> _]. exact I.
    + apply quiet_bind.
      * destruct (Newer.is_json res); [|exact I].
        destruct (env_loads e (content res)); exact I.
      * intros item. apply Results_init_quiet.
  - intros rs. destruct (String.eqb key "result").
    + apply quiet_bind; [apply Results_call_next_quiet|]. intros r.
      apply quiet_bind; [|intros r'; exact I].
      apply tame_quiet, Result_set_headers_tame.
    + apply quiet_bind; [|intros rs'; exact I].
      apply tame_quiet, Results_set_headers_tame.
Qed.

Lemma legacy_next_outcome (loads : string -> option pyval) (is_json : bool)
  (lines : list string) :
  match fst (Legacy.next loads is_json lines) with
  | Throw e => e = JSONDecodeError
  | _ => True
  end.
Proof.
  induction lines as [|line rest IH]; simpl; [exact I|].
  destruct (String.eqb line ""); simpl; [exact IH|].
  destruct is_json; simpl; [|exact I].
  destruct (loads line); simpl; [exact I | reflexivity].
Qed.

(** With status 200 the legacy client raises no [HTTPError]. *)
Lemma legacy_after_200_quiet (e : env) (action : string) (stream : pyval)
  (key : string) (res : response) :
  status_code res = 200 ->
  quiet (Legacy.after_response e action stream key res).
Proof.
  intros H200. unfold Legacy.after_response. rewrite H200. simpl.
  destruct (Dispatch.header (headers res) "content-type") as [ct|]; [|exact I].
  apply quiet_bind.
  - destruct (Py.truthy stream); [exact I|].
    destruct (Str.contains "application/json" ct); [|exact I].
    destruct (env_loads e (content res)); exact I.
  - intros results. apply quiet_bind; [|intros; exact I].
    destruct (String.eqb key "result"); [|exact I].
    destruct results as [v|[|v l]|j lines]; try exact I.
    pose proof (legacy_next_outcome (env_loads e) j lines) as H.
    destruct (Legacy.next (env_loads e) j lines) as [[v| |err] rest];
      simpl in *; try exact I.
    subst err. exact I.
Qed.

(** C5, as amended.  In the newer client, for every action of the dispatch
    table: a response whose status is a client or server error (400 to
    599), the 404 recovered for [get], [patch] and [delete] apart, makes
    [_send_request] raise [HTTPError] with that status, and a response with
    any other status (every 2xx among them) raises no [HTTPError].  In the
    legacy client, for every action of its table: a response whose status
    is not 200 makes [send_request] raise [HTTPError] with that status, and
    a response with status 200 raises no [HTTPError]. *)
Theorem C5_status_policy :
  (forall self e action index k req stream key res,
      Newer.prepare self e action index k = Return (req, stream, key) ->
      env_send e req = Return res ->
      (400 <= status_code res < 600 ->
       ~ (status_code res = 404
          /\ (action = "get" \/ action = "patch" \/ action = "delete")) ->
       Newer._send_request self e action index k
       = Raise (HTTPError (status_code res)))
      /\ (~ (400 <= status_code res < 600) ->
          forall s, Newer._send_request self e action index k
                    <> Raise (HTTPError s)))
  /\
  (forall self e action endpoint k req stream key res,
      Legacy.prepare self e action endpoint k = Return (req, stream, key) ->
      env_send e req = Return res ->
      (status_code res <> 200 ->
       Legacy.send_request self e action endpoint k
       = Raise (HTTPError (status_code res)))
      /\ (status_code res = 200 ->
          forall s, Legacy.send_request self e action endpoint k
                    <> Raise (HTTPError s))).
Proof.
  split.
  - intros self e action index k req stream key res Hp Hs.
    rewrite (newer_send_request_eq _ _ _ _ _ _ _ _ _ Hp Hs).
    unfold Newer.after_response, Newer.raise_for_status.
    split.
    + intros Hrange Hnot.
      destruct ((status_code res =? 404) && Newer.recovers action)%bool eqn:E.
      * exfalso. apply andb_true_iff in E. destruct E as [E1 E2].
        apply Z.eqb_eq in E1. apply recovers_iff in E2. tauto.
      * replace ((400 <=? status_code res) && (status_code res <? 600))%bool
          with true; [reflexivity|].
        symmetry. apply andb_true_iff. split; [apply Z.leb_le | apply Z.ltb_lt]; lia.
    + intros Hrange. apply quiet_not_http.
      destruct ((status_code res =? 404) && Newer.recovers action)%bool eqn:E.
      * exfalso. apply andb_true_iff in E. destruct E as [E1 _].
        apply Z.eqb_eq in E1. lia.
      * destruct ((400 <=? status_code res) && (status_code res <? 600))%bool eqn:E'.
        -- exfalso. apply andb_true_iff in E'. destruct E' as [E1 E2].
           apply Z.leb_le in E1. apply Z.ltb_lt in E2. lia.
        -- simpl. apply decode_quiet.
  - intros self e action endpoint k req stream key res Hp Hs.
    rewrite (legacy_send_request_eq _ _ _ _ _ _ _ _ _ Hp Hs).
    split.
    + intros Hne. unfold Legacy.after_response.
      apply Z.eqb_neq in Hne. rewrite Hne. reflexivity.
    + intros H200. apply quiet_not_http. now apply legacy_after_200_quiet.
Qed.

(** C5 as stated fails twice.  The legacy client raises [HTTPError] for the
    success status 201; the newer client raises nothing for the status 302,
    which is neither a 2xx nor the recovered 404. *)
Lemma C5_counterexample :
  Legacy.index legacy_client (env_of created_response) (IndexOne "books")
    (Some "42") (Some (BodyStr "{}")) VNone (VBool false) None
  = Raise (HTTPError 201)
  /\ Newer.head live_client (env_of found_response) (IndexOne "books")
       (Some "42") (VBool false) None
     = Return (Newer.RetResult {| Newer.r_items := []; Newer.r_attrs := [] |}).
Proof. split; reflexivity. Qed.

Lemma C5_status_policy_witness :
  status_code created_response <> 200
  /\ Legacy.index legacy_client (env_of created_response) (IndexOne "books")
       (Some "42") (Some (BodyStr "{}")) VNone (VBool false) None
     = Raise (HTTPError 201).
Proof.
  assert (H : status_code created_response <> 200) by discriminate.
  split; [exact H|].
  exact (proj1 (proj2 C5_status_policy legacy_client (env_of created_response)
                  "index" (IndexOne "books")
                  (Legacy.write_kwargs legacy_client (Some "42")
                     (Some (BodyStr "{}")) VNone (VBool false) None)
                  _ _ _ created_response eq_refl eq_refl) H).
Defined.

(** ** Optional parameters of [search] and [facets] *)

Lemma get_none_of_not_key (d : dict) (k : string) :
  ~ In k (Dict.keys d) -> Dict.get d k = None.
Proof.
  unfold Dict.keys. induction d as [|[k' v'] d IH]; simpl; [reflexivity|].
  intros Hn. destruct (String.eqb_spec k' k) as [->|Hne]; [tauto|].
  apply IH. tauto.
Qed.

Lemma keys_add_if_not_none (name : string) (v : pyval) (d : dict) (k : string) :
  In k (Dict.keys (Newer.add_if_not_none name v d)) ->
  (k = name /\ v <> VNone) \/ In k (Dict.keys d).
Proof.
  destruct v; simpl; intros H; auto;
    (apply keys_set in H; destruct H as [->|H];
     [left; split; [reflexivity | discriminate] | auto]).
Qed.

Lemma key_of_transform (params : dict) (k : string) :
  In k (Dict.keys (Dispatch.transform_params params)) ->
  exists k0, In k0 (Dict.keys params) /\ k = Str.replace_dunder k0.
Proof.
  unfold Dict.keys. intros H. apply in_map_iff in H.
  destruct H as [[k' v] [<- Hin]]. apply of_items_in in Hin.
  destruct (transformed_items_in _ _ _ Hin) as [k0 [v0 [H0 [-> _]]]].
  exists k0. split; [|reflexivity]. apply (in_map fst _ _ H0).
Qed.

(** In the newer client an optional parameter of [search] or [facets] that
    the caller leaves at [None] is not a key of the outgoing mapping. *)
Lemma newer_unset_parameter_absent (q : Newer.query_args) (pretty volatile : pyval) :
  forall name field,
    In (name, field) optional_parameters ->
    field q = VNone ->
    Dict.get (Dispatch.transform_params (Newer.search_params q pretty volatile))
             name = None.
Proof.
  intros name field Hin Hnone. apply get_none_of_not_key. intros Hkey.
  apply key_of_transform in Hkey. destruct Hkey as [k0 [Hk0 ->]].
  unfold Newer.search_params in Hk0.
  repeat (apply keys_add_if_not_none in Hk0; destruct Hk0 as [[-> Hv]|Hk0]).
  all: try (simpl in Hin;
            repeat (destruct Hin as [Hin|Hin];
                    [inversion Hin; subst; try discriminate; congruence|]);
            exact Hin).
  simpl in Hk0. destruct Hk0 as [<-|[<-|[]]];
    simpl in Hin;
    repeat (destruct Hin as [Hin|Hin]; [inversion Hin|]); exact Hin.
Qed.

(** The other action methods of the newer client build their mapping from
    [pretty], [volatile] and [commit] alone. *)
Lemma newer_other_methods_params (self : Newer.Xapiand) (pretty volatile commit : pyval) :
  forall name field,
    In (name, field) optional_parameters ->
    Dict.get (Dispatch.transform_params (Dict.of_items [("pretty", pretty)]))
             name = None
    /\ Dict.get (Dispatch.transform_params
                   (Dict.of_items [("pretty", pretty); ("volatile", volatile)]))
                name = None
    /\ Dict.get (Dispatch.transform_params
                   (Newer.write_params self commit pretty)) name = None.
Proof.
  intros name field Hin. simpl in Hin.
  repeat (destruct Hin as [Hin|Hin]; [inversion Hin; subst; repeat split; reflexivity|]).
  destruct Hin.
Qed.

(** C2 at its failing input: the legacy [search("books")], with every
    optional parameter left out, hands the transport a mapping that holds
    all eight of them, each with the value [None]. *)
Theorem C2_legacy_sends_unset_parameters :
  forall e : env,
    exists req,
      Legacy.prepare legacy_client e "search" (IndexOne "books")
        (Legacy.search_kwargs Newer.no_query_args (VBool false) None Kw.empty)
      = Return (req, VBool true, "results")
      /\ req_params req
         = Some [("pretty", VInt 0); ("query", VNone); ("partial", VNone);
                 ("terms", VNone); ("offset", VNone); ("limit", VNone);
                 ("sort", VNone); ("facets", VNone); ("language", VNone)]
      /\ Legacy.search legacy_client e (IndexOne "books") Newer.no_query_args
           (VBool false) None Kw.empty
         = (res <- env_send e req ;;
            Legacy.after_response e "search" (VBool true) "results" res).
Proof.
  intros e. eexists. split; [reflexivity|]. split; reflexivity.
Qed.

(** The same client drops a parameter that is supplied. *)
Example legacy_drops_supplied_query :
  Dispatch.transform_params (Legacy.search_params dune_query (VBool false))
  = [("pretty", VInt 0); ("partial", VNone); ("terms", VNone);
     ("offset", VNone); ("limit", VNone); ("sort", VNone);
     ("facets", VNone); ("language", VNone)].
Proof. reflexivity. Qed.

(** ** The streamed decoder on concrete chunks *)

(** C3 as stated fails: after the metadata record, the chunks [{"a":1}],
    []], [{"b":2] give one decoded object; the bracket-only chunk is
    skipped, and the chunk [{"b":2], which does not end in an opening
    bracket, is handed to the JSON decoder as it is and makes the iteration
    raise.  No second object is yielded. *)
Lemma C3_counterexample :
  exists rs rs',
    searched [chunk_meta; chunk_a; chunk_close; chunk_b]
    = Return (Newer.RetResults rs)
    /\ drain Json.loads 10 rs
       = Some ([plain [("a", VInt 1)]], Some JSONDecodeError, rs')
    /\ Newer.decode_line Json.loads true chunk_b = Newer.Fail
    /\ Json.loads chunk_b = None.
Proof.
  eexists. eexists. split; [reflexivity|]. split; [reflexivity|].
  split; reflexivity.
Qed.

(** A [Results] over a generator is single pass: once a [next] has raised
    [StopIteration] or the decoder's error, every later [next] raises
    [StopIteration] and nothing is left to yield. *)
Lemma Results_single_pass (loads : string -> option pyval) (rs : Newer.Results)
  (g : Newer.generator) (e : exn) :
  Newer.rs_generator rs = Newer.FromStream g ->
  fst (Newer.Results_next loads rs) = Raise e ->
  data_error e = false ->
  Newer.Results_next loads (snd (Newer.Results_next loads rs))
  = (Raise StopIteration, snd (Newer.Results_next loads rs)).
Proof.
  intros Hg He Hd. unfold Newer.Results_next in He |- * at 2 3.
  rewrite Hg in He |- *.
  pose proof (next_outcome loads g) as Hout.
  destruct (Newer.next loads g) as [[v| |err] g']; simpl in *.
  - pose proof (Result_init_tame v) as Ht. rewrite He in Ht. simpl in Ht.
    congruence.
  - unfold Newer.Results_next. simpl. rewrite (next_done loads g' Hout).
    reflexivity.
  - destruct Hout as [_ Hdone].
    unfold Newer.Results_next. simpl. rewrite (next_done loads g' Hdone).
    reflexivity.
Qed.

(** C3, as amended.  For a JSON stream the decoder skips a chunk that
    starts (after leading whitespace) with a closing bracket; it appends
    the closing fragment []}}] before parsing only to a chunk that ends
    (before trailing whitespace) in an opening bracket; any other chunk is
    parsed after its trailing whitespace and commas are stripped.  So
    after the metadata record the chunks [{"a":1}], []], [{"b":2] yield the
    object [{"a":1}] and then raise the JSON decoder's error on the third
    chunk, while the chunks [{"a":1}], []], [{"b":{"c":[] yield exactly the
    two objects [{"a":1}] and [{"b":{"c":[]}}].  Either way the sequence is
    single pass: a second iteration yields nothing. *)
Theorem C3_streamed_decoding :
  (forall loads line,
      (Str.startswith (Str.lstrip line) "]" = true ->
       Newer.decode_line loads true line = Newer.Skip)
      /\ (Str.startswith (Str.lstrip line) "]" = false ->
          Str.endswith_char (Str.rstrip line) "[" = true ->
          Newer.decode_line loads true line
          = match loads (line ++ "]}}") with
            | Some v => Newer.Emit v
            | None => Newer.Fail
            end)
      /\ (Str.startswith (Str.lstrip line) "]" = false ->
          Str.endswith_char (Str.rstrip line) "[" = false ->
          Newer.decode_line loads true line
          = match loads (Str.rstrip_comma (Str.rstrip line)) with
            | Some v => Newer.Emit v
            | None => Newer.Fail
            end))
  /\ (exists rs rs',
         searched [chunk_meta; chunk_a; chunk_close; chunk_b]
         = Return (Newer.RetResults rs)
         /\ drain Json.loads 10 rs
            = Some ([plain [("a", VInt 1)]], Some JSONDecodeError, rs')
         /\ drain Json.loads 10 rs' = Some ([], None, rs'))
  /\ (exists rs rs',
         searched [chunk_meta; chunk_a; chunk_close; chunk_open]
         = Return (Newer.RetResults rs)
         /\ drain Json.loads 10 rs
            = Some ([plain [("a", VInt 1)];
                     plain [("b", VDict [("c", VList [])])]], None, rs')
         /\ drain Json.loads 10 rs' = Some ([], None, rs'))
  /\ (forall loads rs g e,
         Newer.rs_generator rs = Newer.FromStream g ->
         fst (Newer.Results_next loads rs) = Raise e ->
         data_error e = false ->
         Newer.Results_next loads (snd (Newer.Results_next loads rs))
         = (Raise StopIteration, snd (Newer.Results_next loads rs))).
Proof.
  split; [|split; [|split]].
  - intros loads line. unfold Newer.decode_line. repeat split.
    + now intros ->.
    + now intros -> ->.
    + now intros -> ->.
  - eexists. eexists. split; [reflexivity|]. split; reflexivity.
  - eexists. eexists. split; [reflexivity|]. split; reflexivity.
  - exact Results_single_pass.
Qed.

Lemma C3_streamed_decoding_witness :
  Str.startswith (Str.lstrip chunk_close) "]" = true
  /\ Newer.decode_line Json.loads true chunk_close = Newer.Skip.
Proof.
  split; [reflexivity|].
  exact (proj1 (proj1 C3_streamed_decoding Json.loads chunk_close) eq_refl).
Defined.

(** ** The length of a [Results] *)

Lemma setattr_inv (attrs : dict) (name : string) (v : pyval) (attrs' : dict) :
  Py.setattr attrs name v = Return attrs' ->
  name <> "__dict__" ->
  attrs' = Dict.set attrs name v.
Proof.
  unfold Py.setattr. intros H Hne.
  destruct (String.eqb name "__class__"); [discriminate|].
  destruct (String.eqb_spec name "__dict__") as [E|_]; [contradiction|].
  destruct (String.eqb name "__weakref__"); [discriminate|].
  now injection H as <-.
Qed.

Lemma setattr_key_inv (attrs : dict) (name : string) (v : pyval)
  (attrs' : dict) :
  Py.setattr_key attrs name v = Return attrs' ->
  name <> "__dict__" ->
  attrs' = Dict.set attrs name v.
Proof.
  unfold Py.setattr_key.
  destruct (Py.is_ascii name); [apply setattr_inv | discriminate].
Qed.

(** A string is no dictionary: with a string as the value, [setattr]
    either raises or adds the entry. *)
Lemma setattr_str_inv (attrs : dict) (name s : string) (attrs' : dict) :
  Py.setattr attrs name (VStr s) = Return attrs' ->
  attrs' = Dict.set attrs name (VStr s).
Proof.
  unfold Py.setattr.
  destruct (String.eqb name "__class__"); [discriminate|].
  destruct (String.eqb name "__dict__"); [discriminate|].
  destruct (String.eqb name "__weakref__"); [discriminate|].
  now intros [= <-].
Qed.

(** Without a key [__dict__], the first loop of [Results.__init__] touches
    no attribute whose name does not start with an underscore. *)
Lemma query_attrs_other (items : dict) :
  forall attrs attrs',
    Newer.query_attrs items attrs = Return attrs' ->
    ~ In "__dict__" (Dict.keys items) ->
    forall n, starts_underscore n = false ->
      Dict.get attrs' n = Dict.get attrs n.
Proof.
  induction items as [|[k0 v0] items IH]; intros attrs attrs'.
  - intros [= <-]. reflexivity.
  - cbn [Newer.query_attrs Dict.keys map fst]. intros H Hnd n Hn.
    destruct k0 as [|a r]; [discriminate|].
    cbn [Newer.leading_underscore bind] in H.
    destruct (Ascii.eqb a "_") eqn:Ha.
    + destruct (Py.setattr_key attrs (String a r) v0) as [a1|] eqn:Hs;
        [|discriminate].
      cbn [bind] in H.
      apply setattr_key_inv in Hs; [|intros E; apply Hnd; left; exact E].
      subst a1.
      rewrite (IH _ _ H); [|intros Hin; apply Hnd; right; exact Hin | exact Hn].
      apply get_set_other. intros ->. cbn in Hn. rewrite Ha in Hn.
      discriminate.
    + cbn [bind] in H.
      apply (IH _ _ H); [intros Hin; apply Hnd; right; exact Hin | exact Hn].
Qed.

(** The statements of [Results.__init__] after its first loop add no
    attribute [total_count]. *)
Lemma Results_init_rest (meta : pyval) (src : Newer.source) (attrs : dict)
  (rs : Newer.Results) :
  (a <- Newer.meta_get meta "_aggregations" ;;
   aggregations <- Newer.py_dict a ;;
   attrs <- Py.setattr attrs "aggregations" (VDict aggregations) ;;
   Return {| Newer.rs_attrs := Dict.remove attrs "generator";
             Newer.rs_generator := src |}) = Return rs ->
  Dict.get (Newer.rs_attrs rs) "total_count" = Dict.get attrs "total_count".
Proof.
  intros H.
  destruct (Newer.meta_get meta "_aggregations") as [a|]; [|discriminate].
  cbn [bind] in H.
  destruct (Newer.py_dict a) as [aggs|]; [|discriminate].
  cbn [bind] in H.
  destruct (Py.setattr attrs "aggregations" (VDict aggs)) as [attrs1|] eqn:Hs;
    [|discriminate].
  apply setattr_inv in Hs; [|discriminate]. subst attrs1.
  cbn [bind] in H. injection H as <-. cbn [Newer.rs_attrs].
  rewrite get_remove, get_set. literal_eqb. reflexivity.
Qed.

(** Unless its [_query] has a key [__dict__], a metadata record gives a
    freshly built [Results] no attribute [total_count]: its length is 0. *)
Lemma Results_init_len (meta : pyval) (src : Newer.source) (rs : Newer.Results) :
  Newer.Results_init meta src = Return rs ->
  ~ In "__dict__" (Dict.keys (metadata_query meta)) ->
  Dict.get (Newer.rs_attrs rs) "total_count" = None
  /\ Newer.Results_len rs = Return 0.
Proof.
  unfold Newer.Results_init. intros H Hnd.
  assert (Hnone : Dict.get (Newer.rs_attrs rs) "total_count" = None).
  { destruct meta as [| | | | | |m]; try discriminate.
    change (Newer.meta_get (VDict m) "_query")
      with (@Return pyval (match Dict.get m "_query" with
                           | Some v => v
                           | None => VDict []
                           end)) in H.
    cbn [bind metadata_query] in H, Hnd.
    destruct (Dict.get m "_query") as [[| | | | | |items]|]; try discriminate.
    - destruct (Newer.query_attrs items []) as [attrs|] eqn:Hitems;
        [|discriminate].
      cbn [bind] in H. rewrite (Results_init_rest _ _ _ _ H).
      exact (query_attrs_other items [] attrs Hitems Hnd "total_count" eq_refl).
    - cbn [Newer.query_attrs bind] in H.
      rewrite (Results_init_rest _ _ _ _ H). reflexivity. }
  split; [exact Hnone|].
  unfold Newer.Results_len. rewrite Hnone. reflexivity.
Qed.

(** *** Response headers on a [Results] *)

Lemma Results_set_headers_app (hs1 : list (string * string)) :
  forall hs2 rs,
    Newer.Results_set_headers (hs1 ++ hs2)%list rs
    = (rs1 <- Newer.Results_set_headers hs1 rs ;;
       Newer.Results_set_headers hs2 rs1).
Proof.
  induction hs1 as [|kv hs1 IH]; intros hs2 rs; [reflexivity|].
  cbn [app Newer.Results_set_headers].
  destruct (Newer.Results_set_header rs kv) as [rs'|]; cbn [bind];
    [apply IH | reflexivity].
Qed.

(** What one header does to a [Results], when the assignment succeeds. *)
Lemma Results_set_header_inv (rs : Newer.Results) (k v : string)
  (rs' : Newer.Results) :
  Newer.Results_set_header rs (k, v) = Return rs' ->
  (Str.replace_hyphen k = "generator"
   /\ rs' = {| Newer.rs_attrs := Newer.rs_attrs rs;
               Newer.rs_generator := Newer.FromHeader v |})
  \/ (Str.replace_hyphen k <> "generator"
      /\ rs' = {| Newer.rs_attrs :=
                    Dict.set (Newer.rs_attrs rs) (Str.replace_hyphen k) (VStr v);
                  Newer.rs_generator := Newer.rs_generator rs |}).
Proof.
  unfold Newer.Results_set_header. cbn [fst snd].
  destruct (String.eqb_spec (Str.replace_hyphen k) "generator") as [E|E].
  - intros [= <-]. left. split; [exact E | reflexivity].
  - destruct (Py.setattr (Newer.rs_attrs rs) (Str.replace_hyphen k) (VStr v))
      as [attrs|] eqn:Hs; [|discriminate].
    cbn [bind]. intros [= <-]. right. split; [exact E|].
    now rewrite (setattr_str_inv _ _ _ _ Hs).
Qed.

(** The headers leave alone every attribute none of them names. *)
Lemma Results_set_headers_other (hs : list (string * string)) :
  forall rs rs' n,
    Newer.Results_set_headers hs rs = Return rs' ->
    (forall k v, In (k, v) hs -> Str.replace_hyphen k <> n) ->
    Dict.get (Newer.rs_attrs rs') n = Dict.get (Newer.rs_attrs rs) n.
Proof.
  induction hs as [|[k v] hs IH]; intros rs rs' n.
  - intros [= <-] _. reflexivity.
  - cbn [Newer.Results_set_headers]. intros H Hn.
    destruct (Newer.Results_set_header rs (k, v)) as [rs1|] eqn:H1;
      [|discriminate].
    cbn [bind] in H.
    rewrite (IH rs1 rs' n H); [|intros k' v' Hin; apply (Hn k' v'); now right].
    destruct (Results_set_header_inv _ _ _ _ H1) as [[_ ->]|[_ ->]];
      cbn [Newer.rs_attrs]; [reflexivity|].
    apply get_set_other. intros E. exact (Hn k v (or_introl eq_refl) (eq_sym E)).
Qed.

(** Among the headers that share a name, the last one gives the value. *)
Lemma Results_set_headers_last (hs1 hs2 : list (string * string))
  (k v : string) (rs rs' : Newer.Results) :
  Newer.Results_set_headers (hs1 ++ (k, v) :: hs2)%list rs = Return rs' ->
  Str.replace_hyphen k <> "generator" ->
  (forall k' v', In (k', v') hs2 ->
     Str.replace_hyphen k' <> Str.replace_hyphen k) ->
  Dict.get (Newer.rs_attrs rs') (Str.replace_hyphen k) = Some (VStr v).
Proof.
  rewrite Results_set_headers_app. intros H Hgen Hlast.
  destruct (Newer.Results_set_headers hs1 rs) as [rs1|]; [|discriminate].
  cbn [bind Newer.Results_set_headers] in H.
  destruct (Newer.Results_set_header rs1 (k, v)) as [rs2|] eqn:H2;
    [|discriminate].
  cbn [bind] in H.
  rewrite (Results_set_headers_other hs2 rs2 rs' _ H Hlast).
  destruct (Results_set_header_inv _ _ _ _ H2) as [[E _]|[_ ->]];
    [contradiction|].
  cbn [Newer.rs_attrs]. apply get_set_same.
Qed.

(** The headers leave the stream alone unless one of them is named
    [generator]. *)
Lemma Results_set_headers_generator (hs : list (string * string)) :
  forall rs rs',
    Newer.Results_set_headers hs rs = Return rs' ->
    (forall k v, In (k, v) hs -> Str.replace_hyphen k <> "generator") ->
    Newer.rs_generator rs' = Newer.rs_generator rs.
Proof.
  induction hs as [|[k v] hs IH]; intros rs rs'.
  - intros [= <-] _. reflexivity.
  - cbn [Newer.Results_set_headers]. intros H Hn.
    destruct (Newer.Results_set_header rs (k, v)) as [rs1|] eqn:H1;
      [|discriminate].
    cbn [bind] in H.
    rewrite (IH rs1 rs' H); [|intros k' v' Hin; apply (Hn k' v'); now right].
    destruct (Results_set_header_inv _ _ _ _ H1) as [[E _]|[_ ->]];
      [|reflexivity].
    exfalso. exact (Hn k v (or_introl eq_refl) E).
Qed.

(** What [_send_request] does with a streamed response whose action has
    another key than [result]. *)
Lemma decode_streamed (e : env) (stream : pyval) (key : string)
  (res : response) (meta : pyval) (g : Newer.generator) (rs : Newer.Results) :
  Py.truthy stream = true ->
  key <> "result" ->
  Newer.next (env_loads e) (Newer.start (Newer.is_json res) (iter_lines res))
  = (Yield meta, g) ->
  Newer.decode e stream key res = Return (Newer.RetResults rs) ->
  exists rs0,
    Newer.Results_init meta (Newer.FromStream g) = Return rs0
    /\ Newer.Results_set_headers (headers res) rs0 = Return rs.
Proof.
  intros Ht Hk Hn. unfold Newer.decode. rewrite Ht, Hn.
  apply String.eqb_neq in Hk. rewrite Hk.
  destruct (Newer.Results_init meta (Newer.FromStream g)) as [rs0|];
    [|discriminate].
  cbn [bind].
  destruct (Newer.Results_set_headers (headers res) rs0) as [rs1|] eqn:Hset;
    [|discriminate].
  cbn [bind]. intros [= <-]. exists rs0. split; [reflexivity | exact Hset].
Qed.

Lemma Results_init_generator (meta : pyval) (src : Newer.source)
  (rs : Newer.Results) :
  Newer.Results_init meta src = Return rs -> Newer.rs_generator rs = src.
Proof.
  unfold Newer.Results_init. intros H.
  repeat match type of H with
         | bind ?m _ = Return _ =>
             destruct m; cbn [bind] in H; [|discriminate]
         end.
  now injection H as <-.
Qed.

(** C9 as stated fails: a search whose stream opens with the metadata
    record [{"_query":{"_total_count":5}}] gives a wrapper that keeps the
    count as the attribute [_total_count], while its length, read from the
    attribute [total_count], is 0 and not 5. *)
Lemma C9_counterexample :
  exists rs,
    searched [chunk_meta; chunk_a]
    = Return (Newer.RetResults rs)
    /\ Dict.get (metadata_query
                   (VDict [("_query", VDict [("_total_count", VInt 5)])]))
                "_total_count" = Some (VInt 5)
    /\ Json.loads chunk_meta
       = Some (VDict [("_query", VDict [("_total_count", VInt 5)])])
    /\ Dict.get (Newer.rs_attrs rs) "_total_count" = Some (VInt 5)
    /\ Dict.get (Newer.rs_attrs rs) "total_count" = None
    /\ Newer.Results_len rs = Return 0
    /\ Newer.Results_len rs <> Return 5.
Proof.
  eexists. split; [reflexivity|]. repeat split; try reflexivity.
  vm_compute. discriminate.
Qed.

(** C9, as amended.  For every [Results] built from a streamed response
    whose leading metadata record has no key [__dict__] in its [_query]
    part: the length is 0 when no response header is named [total_count]
    (hyphens in a header name count as underscores), and otherwise it is
    the integer the last such header holds; no field of the metadata record
    sets it.  When no response header is named [generator], the wrapper
    iterates the decoded stream, in a single pass: once a step has ended
    the iteration or raised the decoder's error, every later step ends it
    at once. *)
Theorem C9_length_is_the_header :
  forall e stream key res meta g rs,
    Py.truthy stream = true ->
    key <> "result" ->
    Newer.next (env_loads e) (Newer.start (Newer.is_json res) (iter_lines res))
    = (Yield meta, g) ->
    ~ In "__dict__" (Dict.keys (metadata_query meta)) ->
    Newer.decode e stream key res = Return (Newer.RetResults rs) ->
    ((forall k v, In (k, v) (headers res) ->
        Str.replace_hyphen k <> "total_count") ->
     Newer.Results_len rs = Return 0)
    /\ (forall hs1 k v hs2,
          headers res = (hs1 ++ (k, v) :: hs2)%list ->
          Str.replace_hyphen k = "total_count" ->
          (forall k' v', In (k', v') hs2 ->
             Str.replace_hyphen k' <> "total_count") ->
          Newer.Results_len rs = Newer.py_int (VStr v))
    /\ ((forall k v, In (k, v) (headers res) ->
           Str.replace_hyphen k <> "generator") ->
        Newer.rs_generator rs = Newer.FromStream g
        /\ forall loads err,
             fst (Newer.Results_next loads rs) = Raise err ->
             data_error err = false ->
             Newer.Results_next loads (snd (Newer.Results_next loads rs))
             = (Raise StopIteration, snd (Newer.Results_next loads rs))).
Proof.
  intros e stream key res meta g rs Ht Hk Hn Hnd Hdec.
  destruct (decode_streamed e stream key res meta g rs Ht Hk Hn Hdec)
    as [rs0 [Hinit Hset]].
  destruct (Results_init_len meta _ rs0 Hinit Hnd) as [Hnone _].
  split; [|split].
  - intros Hno. unfold Newer.Results_len.
    rewrite (Results_set_headers_other _ _ _ _ Hset Hno), Hnone. reflexivity.
  - intros hs1 k v hs2 Hhs Hname Hlast. unfold Newer.Results_len.
    rewrite Hhs in Hset. rewrite <- Hname.
    rewrite (Results_set_headers_last hs1 hs2 k v rs0 rs Hset).
    + reflexivity.
    + rewrite Hname. discriminate.
    + rewrite Hname. exact Hlast.
  - intros Hno.
    assert (Hg : Newer.rs_generator rs = Newer.FromStream g).
    { rewrite (Results_set_headers_generator _ _ _ Hset Hno).
      exact (Results_init_generator _ _ _ Hinit). }
    split; [exact Hg|].
    intros loads err. exact (Results_single_pass loads rs g err Hg).
Qed.

Lemma C9_length_is_the_header_witness :
  exists rs,
    Newer.decode (env_of counted_response) (VBool true) "results"
                 counted_response
    = Return (Newer.RetResults rs)
    /\ Newer.Results_len rs = Return 7.
Proof.
  assert (Hk : "results" <> "result") by discriminate.
  assert (Hnd : ~ In "__dict__"
                  (Dict.keys (metadata_query
                     (VDict [("_query", VDict [("_total_count", VInt 5)])])))).
  { simpl. intuition discriminate. }
  eexists. split; [reflexivity|].
  exact (proj1 (proj2 (C9_length_is_the_header
           (env_of counted_response) (VBool true) "results" counted_response
           _ _ _ eq_refl Hk eq_refl Hnd eq_refl))
           [("content-type", "application/json")] "total-count" "7" []
           eq_refl eq_refl
           (fun k' v' (H : In (k', v') []) => match H with end)).
Defined.

(** The same through [search]. *)
Example length_from_header :
  exists rs,
    Newer.search live_client (env_of counted_response)
      (IndexOne "books") Newer.no_query_args (VBool false) (VBool false)
      None Kw.empty
    = Return (Newer.RetResults rs)
    /\ Newer.Results_len rs = Return 7.
Proof. eexists. split; reflexivity. Qed.

(** * Further properties of the code *)

(** ** Hosts and ports *)

Lemma contains_colon_host_port (h p : string) :
  Str.contains_char Str.colon (host_port h p) = true.
Proof.
  unfold host_port. induction h as [|a h IH]; simpl; [reflexivity|].
  destruct (Ascii.eqb a Str.colon); [reflexivity | exact IH].
Qed.

Lemma partition_host_port (h p : string) :
  no_colon h = true ->
  Str.partition Str.colon (host_port h p) = (h, p).
Proof.
  unfold no_colon, host_port. simpl (":" ++ p).
  induction h as [|a h IH]; simpl; [reflexivity|].
  destruct (Ascii.eqb a Str.colon); simpl; [discriminate|].
  intros H. now rewrite (IH H).
Qed.

Lemma host_port_truthy (h p : string) :
  Py.str_truthy (Some (host_port h p)) = true.
Proof. unfold host_port. destruct h; reflexivity. Qed.

Lemma split_host_port (h p : string) (port : option port_t) :
  no_colon h = true ->
  Py.split_host (Some (host_port h p)) port = (Some h, Some (PortStr p)).
Proof.
  intros H. unfold Py.split_host.
  rewrite host_port_truthy, contains_colon_host_port. simpl.
  now rewrite (partition_host_port h p H).
Qed.

Lemma str_truthy_eqb (h : string) :
  Py.str_truthy (Some h) = negb (String.eqb h "").
Proof. destruct h; reflexivity. Qed.

(** A host given as [h:p] decides the port: the [port] argument of the call
    is never used.  An empty [h] falls back to the client's address and an
    empty [p] to the client's port (not to the [port] argument).  The two
    clients agree. *)
Theorem host_string_overrides_port :
  forall h p port,
    no_colon h = true ->
    (forall self,
        Newer.host self (Some (host_port h p)) port
        = (if String.eqb h "" then Py.fmt_str (Newer.x_ip self) else h)
          ++ ":"
          ++ (if String.eqb p "" then Py.fmt_port (Newer.x_port self) else p))
    /\ (forall self,
        Legacy.host self (Some (host_port h p)) port
        = (if String.eqb h "" then Py.fmt_str (Legacy.x_ip self) else h)
          ++ ":"
          ++ (if String.eqb p "" then Py.fmt_port (Legacy.x_port self) else p)).
Proof.
  intros h p port Hh. split; intros self.
  - unfold Newer.host. rewrite (split_host_port h p port Hh).
    rewrite str_truthy_eqb. simpl.
    destruct (String.eqb h ""), (String.eqb p ""); reflexivity.
  - unfold Legacy.host. rewrite (split_host_port h p port Hh).
    rewrite str_truthy_eqb. simpl.
    destruct (String.eqb h ""), (String.eqb p ""); reflexivity.
Qed.

Lemma host_string_overrides_port_witness :
  no_colon "search.local" = true
  /\ Newer._build_url Newer.live "get" (IndexOne "books")
       (Some "search.local:9000") (Some (PortInt 1234)) None (Some "42") None
     = "http://search.local:9000/live/books/42"
  /\ Newer.host Newer.live (Some (host_port "search.local" "")) (Some (PortInt 1234))
     = "search.local:8880".
Proof.
  split; [reflexivity|]. split; [reflexivity|].
  exact (proj1 (host_string_overrides_port "search.local" "" (Some (PortInt 1234))
                  eq_refl) Newer.live).
Defined.



(** Absent and empty are the same to the URL builders: an empty host, a
    port [0] or [''], an empty nodename and an empty prefix give the URL
    built without them. *)
Theorem empty_arguments_count_as_absent :
  forall action index id body,
    (forall self,
        Newer._build_url self action index (Some "") (Some (PortInt 0))
                         (Some "") id body
        = Newer._build_url self action index None None None id body
        /\ Newer._build_url self action index None (Some (PortStr ""))
                            None id body
           = Newer._build_url self action index None None None id body)
    /\ (forall ip port commit,
        Newer._build_url
          {| Newer.x_ip := ip; Newer.x_port := port; Newer.x_commit := commit;
             Newer.x_prefix := Some "" |} action index None None None id body
        = Newer._build_url
            {| Newer.x_ip := ip; Newer.x_port := port; Newer.x_commit := commit;
               Newer.x_prefix := None |} action index None None None id body)
    /\ (forall self,
        Legacy.build_url self action index (Some "") (Some (PortInt 0))
                         (Some "") id body
        = Legacy.build_url self action index None None None id body).
Proof.
  intros action index id body. split; [|split].
  - intros self. split; reflexivity.
  - intros ip port commit. reflexivity.
  - intros self. reflexivity.
Qed.

Lemma map_empty_prefix (l : list string) :
  map (fun i => "" ++ i) l = l.
Proof. exact (map_id l). Qed.

(** Without a prefix the newer builder gives the URL of the legacy builder,
    for every action other than [post]. *)
Theorem builders_agree_without_prefix :
  forall ns ls action index ip port nodename id body,
    Newer.x_ip ns = Legacy.x_ip ls ->
    Newer.x_port ns = Legacy.x_port ls ->
    Py.str_truthy (Newer.x_prefix ns) = false ->
    action <> "post" ->
    Newer._build_url ns action index ip port nodename id body
    = Legacy.build_url ls action index ip port nodename id body.
Proof.
  intros ns ls action index ip port nodename id body Hip Hport Hpre Hact.
  rewrite newer_url_shape, legacy_url_shape.
  assert (Hhost : Newer.host ns ip port = Legacy.host ls ip port).
  { unfold Newer.host, Legacy.host. now rewrite Hip, Hport. }
  assert (Hidx : Newer.index_segment ns index = Legacy.endpoint_segment index).
  { unfold Newer.index_segment, Newer.prefix_segment, Legacy.endpoint_segment.
    destruct (Newer.x_prefix ns) as [[|c pre]|]; try discriminate;
      destruct index as [i|l]; simpl; rewrite ?map_id, ?map_empty_prefix;
      reflexivity. }
  rewrite Hhost, Hidx. f_equal.
  unfold Newer.tail. apply String.eqb_neq in Hact. rewrite Hact.
  destruct id; reflexivity.
Qed.

Lemma builders_agree_without_prefix_witness :
  "search" <> "post"
  /\ Newer._build_url (Newer.init (Some "127.0.0.1") (Some (PortInt 8880))
                                  (VBool false) None)
       "search" (IndexMany ["a"; "b"]) None None (Some "n1") None None
     = Legacy.build_url legacy_client "search" (IndexMany ["a"; "b"]) None None
         (Some "n1") None None.
Proof.
  assert (H : "search" <> "post") by discriminate.
  split; [exact H|].
  exact (builders_agree_without_prefix
           (Newer.init (Some "127.0.0.1") (Some (PortInt 8880)) (VBool false) None)
           legacy_client "search" (IndexMany ["a"; "b"]) None None (Some "n1")
           None None eq_refl eq_refl eq_refl H).
Defined.

(** ** [Result]: underscore keys become attributes *)

Lemma inb_true (ks : list string) (k : string) :
  inb ks k = true <-> In k ks.
Proof.
  unfold inb. rewrite existsb_exists. split.
  - intros [x [Hin Heq]]. apply String.eqb_eq in Heq. now subst.
  - intros Hin. exists k. split; [exact Hin | apply String.eqb_refl].
Qed.

Lemma inb_false (ks : list string) (k : string) :
  ~ In k ks -> inb ks k = false.
Proof.
  intros Hn. destruct (inb ks k) eqn:E; [|reflexivity].
  apply inb_true in E. contradiction.
Qed.

Lemma get_of_key (d : dict) (k : string) :
  In k (Dict.keys d) -> Dict.get d k <> None.
Proof.
  unfold Dict.keys. intros H. apply in_map_iff in H.
  destruct H as [[k' v] [Hk Hin]]. simpl in Hk. subst k'.
  destruct (get_some_of_in d k v Hin) as [v' Hv']. congruence.
Qed.


Lemma leading_underscore_nonempty (k : string) :
  k <> "" -> Newer.leading_underscore k = Return (starts_underscore k).
Proof. destruct k; [congruence | reflexivity]. Qed.

(** [setattr] with a name that is none of the three descriptors adds the
    entry. *)
Lemma setattr_settable (attrs : dict) (name : string) (v : pyval) :
  settable name = true ->
  Py.setattr attrs name v = Return (Dict.set attrs name v).
Proof.
  unfold settable, Py.setattr. intros H. apply negb_true_iff in H.
  apply orb_false_iff in H. destruct H as [H H3].
  apply orb_false_iff in H. destruct H as [H1 H2].
  now rewrite H1, H2, H3.
Qed.

Lemma setattr_unsettable (attrs : dict) (name s : string) :
  settable name = false ->
  exists err, Py.setattr attrs name (VStr s) = Raise err.
Proof.
  unfold settable, Py.setattr. intros H. apply negb_false_iff in H.
  destruct (String.eqb name "__class__"); [eauto|].
  destruct (String.eqb name "__dict__"); [eauto|].
  destruct (String.eqb name "__weakref__"); [eauto | discriminate].
Qed.

Lemma setattr_key_liftable (attrs : dict) (name : string) (v : pyval) :
  liftable name = true ->
  Py.setattr_key attrs name v = Return (Dict.set attrs name v).
Proof.
  unfold liftable, Py.setattr_key. intros H. apply andb_true_iff in H.
  destruct H as [Ha Hs]. rewrite Ha. now apply setattr_settable.
Qed.

(** The loop of [Result.__init__] over distinct, non-empty keys that are
    all present, those with an underscore fit to be attributes. *)
Lemma lift_keys_lookup (ks : list string) :
  forall r,
    NoDup ks -> ~ In "" ks ->
    (forall k, In k ks -> Dict.get (Newer.r_items r) k <> None) ->
    (forall k, In k ks -> starts_underscore k = true -> liftable k = true) ->
    Dict.get (Newer.r_attrs r) "pop" = None ->
    exists r',
      Newer.lift_keys ks r = Return r'
      /\ (forall k, Dict.get (Newer.r_items r') k
                    = if (starts_underscore k && inb ks k)%bool then None
                      else Dict.get (Newer.r_items r) k)
      /\ (forall k, Dict.get (Newer.r_attrs r') k
                    = if (starts_underscore k && inb ks k)%bool
                      then Dict.get (Newer.r_items r) k
                      else Dict.get (Newer.r_attrs r) k).
Proof.
  induction ks as [|k0 ks IH]; intros r Hnd Hne Hin Hfit Hpop.
  - exists r. simpl. repeat split; intros k; now rewrite andb_false_r.
  - inversion Hnd as [|? ? Hnotin Hnd']; subst.
    assert (Hk0 : k0 <> "") by (intros ->; apply Hne; now left).
    assert (Hne' : ~ In "" ks) by (intros H; apply Hne; now right).
    assert (Hfit' : forall k, In k ks -> starts_underscore k = true ->
                              liftable k = true).
    { intros k Hk. apply Hfit. now right. }
    cbn [Newer.lift_keys]. rewrite (leading_underscore_nonempty k0 Hk0).
    cbn [bind].
    destruct (starts_underscore k0) eqn:Hus.
    + rewrite Hpop.
      destruct (Dict.get (Newer.r_items r) k0) as [v|] eqn:Hv;
        [|exfalso; apply (Hin k0); [now left | exact Hv]].
      rewrite (setattr_key_liftable _ _ _ (Hfit k0 (or_introl eq_refl) Hus)).
      cbn [bind].
      destruct (IH {| Newer.r_items := Dict.remove (Newer.r_items r) k0;
                      Newer.r_attrs := Dict.set (Newer.r_attrs r) k0 v |}
                   Hnd' Hne') as [r' [Hr' [Hi Ha]]].
      { intros k Hk. cbn [Newer.r_items]. rewrite get_remove.
        destruct (String.eqb_spec k0 k) as [->|_]; [contradiction|].
        apply Hin. now right. }
      { exact Hfit'. }
      { cbn [Newer.r_attrs]. rewrite get_set_other; [exact Hpop|].
        intros <-. discriminate. }
      exists r'. split; [exact Hr'|]. cbn [Newer.r_items Newer.r_attrs] in Hi, Ha.
      split; intros k.
      * rewrite Hi, get_remove. unfold inb. cbn [existsb].
        rewrite (String.eqb_sym k k0).
        destruct (String.eqb_spec k0 k) as [<-|Hneq]; cbn [orb].
        -- rewrite Hus. cbn [andb].
           destruct (existsb (String.eqb k0) ks); reflexivity.
        -- reflexivity.
      * rewrite Ha, get_remove, get_set. unfold inb. cbn [existsb].
        rewrite (String.eqb_sym k k0).
        destruct (String.eqb_spec k0 k) as [<-|Hneq]; cbn [orb].
        -- rewrite Hus. cbn [andb].
           fold (inb ks k0). rewrite (inb_false ks k0 Hnotin). symmetry. exact Hv.
        -- reflexivity.
    + destruct (IH r Hnd' Hne') as [r' [Hr' [Hi Ha]]].
      { intros k Hk. apply Hin. now right. }
      { exact Hfit'. }
      { exact Hpop. }
      exists r'. split; [exact Hr'|].
      split; intros k.
      * rewrite Hi. unfold inb. cbn [existsb]. rewrite (String.eqb_sym k k0).
        destruct (String.eqb_spec k0 k) as [<-|Hneq]; cbn [orb]; [|reflexivity].
        rewrite Hus. reflexivity.
      * rewrite Ha. unfold inb. cbn [existsb]. rewrite (String.eqb_sym k k0).
        destruct (String.eqb_spec k0 k) as [<-|Hneq]; cbn [orb]; [|reflexivity].
        rewrite Hus. reflexivity.
Qed.

Lemma starts_underscore_get (d : dict) (k : string) (b : bool) :
  (if (b && inb (Dict.keys d) k)%bool then Dict.get d k else None)
  = if b then Dict.get d k else None.
Proof.
  destruct b; simpl; [|reflexivity].
  destruct (inb (Dict.keys d) k) eqn:E; [reflexivity|].
  symmetry. apply get_none_of_not_key. intros H.
  apply inb_true in H. congruence.
Qed.

(** [Result(d)] for a dictionary [d] without an empty key, whose underscore
    keys are ASCII names other than [__class__], [__dict__] and
    [__weakref__], splits it in two: the entries whose key starts with an
    underscore become attributes, under the same name and with the same
    value, and leave the dictionary; every other entry stays.  Nothing is
    lost and nothing is added. *)
Theorem Result_init_splits :
  forall d,
    NoDup (Dict.keys d) -> ~ In "" (Dict.keys d) ->
    (forall k, In k (Dict.keys d) -> starts_underscore k = true ->
               liftable k = true) ->
    exists r,
      Newer.Result_init (VDict d) = Return r
      /\ (forall k, Dict.get (Newer.r_items r) k
                    = if starts_underscore k then None else Dict.get d k)
      /\ (forall k, Dict.get (Newer.r_attrs r) k
                    = if starts_underscore k then Dict.get d k else None).
Proof.
  intros d Hnd Hne Hfit. unfold Newer.Result_init. cbn [Newer.py_dict bind].
  destruct (lift_keys_lookup (Dict.keys d)
              {| Newer.r_items := d; Newer.r_attrs := [] |} Hnd Hne)
    as [r [Hr [Hi Ha]]].
  { intros k Hk. apply get_of_key. exact Hk. }
  { exact Hfit. }
  { reflexivity. }
  exists r. split; [exact Hr|]. cbn [Newer.r_items Newer.r_attrs] in Hi, Ha.
  split; intros k.
  - rewrite Hi. destruct (starts_underscore k); [|reflexivity].
    cbn [andb]. destruct (inb (Dict.keys d) k) eqn:E; [reflexivity|].
    apply get_none_of_not_key. intros H. apply inb_true in H. congruence.
  - rewrite Ha. cbn [Dict.get]. apply starts_underscore_get.
Qed.

Lemma Result_init_splits_witness :
  NoDup (Dict.keys [("_id", VInt 7); ("title", VStr "Dune")])
  /\ ~ In "" (Dict.keys [("_id", VInt 7); ("title", VStr "Dune")])
  /\ exists r,
       Newer.Result_init (VDict [("_id", VInt 7); ("title", VStr "Dune")])
       = Return r
       /\ (forall k, Dict.get (Newer.r_items r) k
                     = if starts_underscore k then None
                       else Dict.get [("_id", VInt 7); ("title", VStr "Dune")] k)
       /\ (forall k, Dict.get (Newer.r_attrs r) k
                     = if starts_underscore k
                       then Dict.get [("_id", VInt 7); ("title", VStr "Dune")] k
                       else None).
Proof.
  assert (H1 : NoDup (Dict.keys [("_id", VInt 7); ("title", VStr "Dune")])).
  { repeat constructor; simpl; intuition discriminate. }
  assert (H2 : ~ In "" (Dict.keys [("_id", VInt 7); ("title", VStr "Dune")])).
  { simpl. intuition discriminate. }
  assert (H3 : forall k, In k (Dict.keys [("_id", VInt 7); ("title", VStr "Dune")]) ->
                         starts_underscore k = true -> liftable k = true).
  { simpl. intros k [<-|[<-|[]]] H; [reflexivity | discriminate]. }
  split; [exact H1|]. split; [exact H2|].
  exact (Result_init_splits [("_id", VInt 7); ("title", VStr "Dune")] H1 H2 H3).
Defined.

Lemma lift_keys_empty_key (ks : list string) :
  forall r,
    NoDup ks -> In "" ks ->
    (forall k, In k ks -> Dict.get (Newer.r_items r) k <> None) ->
    (forall k, In k ks -> starts_underscore k = true -> liftable k = true) ->
    Dict.get (Newer.r_attrs r) "pop" = None ->
    Newer.lift_keys ks r = Raise IndexError.
Proof.
  induction ks as [|k0 ks IH]; intros r Hnd Hin Hget Hfit Hpop; [destruct Hin|].
  inversion Hnd as [|? ? Hnotin Hnd']; subst.
  assert (Hfit' : forall k, In k ks -> starts_underscore k = true ->
                            liftable k = true).
  { intros k Hk. apply Hfit. now right. }
  cbn [Newer.lift_keys].
  destruct k0 as [|a k0]; [reflexivity|].
  destruct Hin as [Hin|Hin]; [discriminate|].
  cbn [Newer.leading_underscore bind].
  destruct (Ascii.eqb a "_") eqn:Ha.
  - rewrite Hpop.
    destruct (Dict.get (Newer.r_items r) (String a k0)) as [v|] eqn:Hv;
      [|exfalso; apply (Hget (String a k0)); [now left | exact Hv]].
    rewrite (setattr_key_liftable _ _ _
               (Hfit (String a k0) (or_introl eq_refl) Ha)).
    cbn [bind].
    apply IH; [exact Hnd' | exact Hin | | exact Hfit' |].
    + intros k Hk. cbn [Newer.r_items]. rewrite get_remove.
      destruct (String.eqb_spec (String a k0) k) as [<-|_]; [contradiction|].
      apply Hget. now right.
    + cbn [Newer.r_attrs]. rewrite get_set_other; [exact Hpop|].
      intros E. injection E as <- _. discriminate Ha.
  - apply IH; [exact Hnd' | exact Hin | | exact Hfit' | exact Hpop].
    intros k Hk. apply Hget. now right.
Qed.

(** [Result(d)] raises [IndexError] when [d] has the empty string among its
    keys and its underscore keys are fit to be attributes: the test
    [k[0] == '_'] has no first character to look at. *)
Theorem Result_init_empty_key :
  forall d,
    NoDup (Dict.keys d) -> In "" (Dict.keys d) ->
    (forall k, In k (Dict.keys d) -> starts_underscore k = true ->
               liftable k = true) ->
    Newer.Result_init (VDict d) = Raise IndexError.
Proof.
  intros d Hnd Hin Hfit. unfold Newer.Result_init. cbn [Newer.py_dict bind].
  apply lift_keys_empty_key;
    [exact Hnd | exact Hin | | exact Hfit | reflexivity].
  intros k Hk. apply get_of_key. exact Hk.
Qed.

Lemma Result_init_empty_key_witness :
  NoDup (Dict.keys [("title", VStr "Dune"); ("", VInt 1)])
  /\ In "" (Dict.keys [("title", VStr "Dune"); ("", VInt 1)])
  /\ Newer.Result_init (VDict [("title", VStr "Dune"); ("", VInt 1)])
     = Raise IndexError.
Proof.
  assert (H1 : NoDup (Dict.keys [("title", VStr "Dune"); ("", VInt 1)])).
  { repeat constructor; simpl; intuition discriminate. }
  assert (H2 : In "" (Dict.keys [("title", VStr "Dune"); ("", VInt 1)])).
  { simpl. auto. }
  assert (H3 : forall k, In k (Dict.keys [("title", VStr "Dune"); ("", VInt 1)]) ->
                         starts_underscore k = true -> liftable k = true).
  { simpl. intros k [<-|[<-|[]]] H; discriminate. }
  split; [exact H1|]. split; [exact H2|].
  exact (Result_init_empty_key [("title", VStr "Dune"); ("", VInt 1)] H1 H2 H3).
Defined.

(** The three names that are no plain attributes, and an instance
    dictionary that hides the method [pop]. *)
Example Result_init_special_keys :
  Newer.Result_init (VDict [("__class__", VInt 1)]) = Raise TypeError
  /\ Newer.Result_init (VDict [("__dict__", VInt 1)]) = Raise TypeError
  /\ Newer.Result_init (VDict [("__weakref__", VInt 1)]) = Raise AttributeError
  /\ Newer.Result_init
       (VDict [("_a", VInt 1); ("__dict__", VDict [("b", VInt 2)]); ("c", VInt 3)])
     = Return {| Newer.r_items := [("c", VInt 3)];
                 Newer.r_attrs := [("b", VInt 2)] |}
  /\ Newer.Result_init
       (VDict [("__dict__", VDict [("pop", VInt 2)]); ("_a", VInt 1)])
     = Raise TypeError.
Proof. repeat split; reflexivity. Qed.

(** ** [Results]: attributes from the metadata record *)

Lemma query_attrs_lookup (items : dict) :
  forall attrs,
    NoDup (Dict.keys items) -> ~ In "" (Dict.keys items) ->
    (forall k, In k (Dict.keys items) -> starts_underscore k = true ->
               liftable k = true) ->
    exists attrs',
      Newer.query_attrs items attrs = Return attrs'
      /\ forall k, Dict.get attrs' k
                   = if (starts_underscore k && inb (Dict.keys items) k)%bool
                     then Dict.get items k
                     else Dict.get attrs k.
Proof.
  induction items as [|[k0 v0] items IH]; intros attrs Hnd Hne Hfit.
  - exists attrs. split; [reflexivity|]. intros k. now rewrite andb_false_r.
  - cbn [Dict.keys map fst] in Hnd, Hne, Hfit.
    inversion Hnd as [|? ? Hnotin Hnd']; subst.
    assert (Hk0 : k0 <> "") by (intros ->; apply Hne; now left).
    assert (Hne' : ~ In "" (Dict.keys items)) by (intros H; apply Hne; now right).
    assert (Hfit' : forall k, In k (Dict.keys items) ->
                              starts_underscore k = true -> liftable k = true).
    { intros k Hk. apply Hfit. now right. }
    cbn [Newer.query_attrs]. rewrite (leading_underscore_nonempty k0 Hk0).
    cbn [bind].
    assert (Hstep : (if starts_underscore k0
                     then Py.setattr_key attrs k0 v0 else Return attrs)
                    = Return (if starts_underscore k0
                              then Dict.set attrs k0 v0 else attrs)).
    { destruct (starts_underscore k0) eqn:Hus; [|reflexivity].
      apply setattr_key_liftable. apply Hfit; [now left | exact Hus]. }
    rewrite Hstep. cbn [bind].
    destruct (IH (if starts_underscore k0 then Dict.set attrs k0 v0 else attrs)
                 Hnd' Hne' Hfit') as [attrs' [Hq Hget]].
    exists attrs'. split; [exact Hq|]. intros k. rewrite Hget.
    unfold inb, Dict.keys. cbn [map fst existsb Dict.get].
    rewrite (String.eqb_sym k k0).
    destruct (String.eqb_spec k0 k) as [<-|Hneq]; cbn [orb].
    + fold (inb (map fst items) k0).
      rewrite (inb_false (map fst items) k0 Hnotin), andb_false_r, andb_true_r.
      destruct (starts_underscore k0); [apply get_set_same | reflexivity].
    + match goal with
      | |- (if ?c then _ else _) = _ => destruct c; [reflexivity|]
      end.
      destruct (starts_underscore k0); [|reflexivity].
      apply get_set_other. congruence.
Qed.

(** [Results(meta, generator)] for a metadata record whose [_query] has
    distinct, non-empty keys, those with an underscore ASCII names other
    than [__class__], [__dict__] and [__weakref__]: the attributes of the
    wrapper are the entries of [meta['_query']] whose key starts with an
    underscore, under their own names, and [aggregations], which holds
    [meta['_aggregations']]; the other entries of [_query] are dropped, and
    the generator is kept as it is.  A missing [_query] or [_aggregations]
    counts as an empty dictionary. *)
Theorem Results_init_attributes :
  forall m src items aggs,
    Newer.meta_get (VDict m) "_query" = Return (VDict items) ->
    Newer.meta_get (VDict m) "_aggregations" = Return (VDict aggs) ->
    NoDup (Dict.keys items) -> ~ In "" (Dict.keys items) ->
    (forall k, In k (Dict.keys items) -> starts_underscore k = true ->
               liftable k = true) ->
    exists rs,
      Newer.Results_init (VDict m) src = Return rs
      /\ Newer.rs_generator rs = src
      /\ forall k, Dict.get (Newer.rs_attrs rs) k
                   = if String.eqb "aggregations" k then Some (VDict aggs)
                     else if starts_underscore k then Dict.get items k
                     else None.
Proof.
  intros m src items aggs Hq Ha Hnd Hne Hfit.
  unfold Newer.Results_init. rewrite Hq. cbn [bind].
  destruct (query_attrs_lookup items [] Hnd Hne Hfit) as [attrs [Hattrs Hget]].
  rewrite Hattrs. cbn [bind]. rewrite Ha. cbn [bind Newer.py_dict].
  rewrite setattr_settable by reflexivity. cbn [bind].
  eexists. split; [reflexivity|]. split; [reflexivity|].
  intros k. cbn [Newer.rs_attrs]. rewrite get_remove, get_set.
  destruct (String.eqb_spec "generator" k) as [<-|_]; [reflexivity|].
  destruct (String.eqb "aggregations" k); [reflexivity|].
  rewrite Hget. cbn [Dict.get]. apply starts_underscore_get.
Qed.

Lemma Results_init_attributes_witness :
  exists rs,
    Newer.Results_init
      (VDict [("_query", VDict [("_total_count", VInt 5); ("took", VInt 3)])])
      (Newer.FromList [])
    = Return rs
    /\ Newer.rs_generator rs = Newer.FromList []
    /\ forall k, Dict.get (Newer.rs_attrs rs) k
                 = if String.eqb "aggregations" k then Some (VDict [])
                   else if starts_underscore k
                        then Dict.get [("_total_count", VInt 5); ("took", VInt 3)] k
                        else None.
Proof.
  assert (H1 : NoDup (Dict.keys [("_total_count", VInt 5); ("took", VInt 3)])).
  { repeat constructor; simpl; intuition discriminate. }
  assert (H2 : ~ In "" (Dict.keys [("_total_count", VInt 5); ("took", VInt 3)])).
  { simpl. intuition discriminate. }
  assert (H3 : forall k,
            In k (Dict.keys [("_total_count", VInt 5); ("took", VInt 3)]) ->
            starts_underscore k = true -> liftable k = true).
  { simpl. intros k [<-|[<-|[]]] H; [reflexivity | discriminate]. }
  exact (Results_init_attributes
           [("_query", VDict [("_total_count", VInt 5); ("took", VInt 3)])]
           (Newer.FromList [])
           [("_total_count", VInt 5); ("took", VInt 3)] []
           eq_refl eq_refl H1 H2 H3).
Defined.

(** A key [__dict__] in [_query] replaces the attributes set before it, and
    can bring a [total_count]. *)
Example Results_init_replaced_dict :
  exists rs,
    Newer.Results_init
      (VDict [("_query", VDict [("_took", VInt 3);
                                ("__dict__", VDict [("total_count", VInt 7)])])])
      (Newer.FromList [])
    = Return rs
    /\ Newer.rs_attrs rs = [("total_count", VInt 7); ("aggregations", VDict [])]
    /\ Newer.Results_len rs = Return 7.
Proof. eexists. repeat split; reflexivity. Qed.

(** [Results(meta, generator)] raises [AttributeError] when [meta] is not a
    dictionary, or when its [_query] is not one. *)
Theorem Results_init_wrong_shape :
  forall src,
    (forall meta, (forall d, meta <> VDict d) ->
       Newer.Results_init meta src = Raise AttributeError)
    /\ (forall m q, Dict.get m "_query" = Some q -> (forall d, q <> VDict d) ->
       Newer.Results_init (VDict m) src = Raise AttributeError).
Proof.
  intros src. split.
  - intros meta Hm. destruct meta; try reflexivity. exfalso. exact (Hm d eq_refl).
  - intros m q Hq Hnd. unfold Newer.Results_init, Newer.meta_get. rewrite Hq.
    cbn [bind]. destruct q; try reflexivity. exfalso. exact (Hnd d eq_refl).
Qed.

Lemma Results_init_wrong_shape_witness :
  (forall d, VStr "plain text" <> VDict d)
  /\ Newer.Results_init (VStr "plain text") (Newer.FromList [])
     = Raise AttributeError.
Proof.
  assert (H : forall d, VStr "plain text" <> VDict d) by discriminate.
  split; [exact H|].
  exact (proj1 (Results_init_wrong_shape (Newer.FromList []))
               (VStr "plain text") H).
Defined.

(** ** Response headers as attributes *)

Lemma Result_set_headers_app (hs1 : list (string * string)) :
  forall hs2 r,
    Newer.Result_set_headers (hs1 ++ hs2)%list r
    = (r1 <- Newer.Result_set_headers hs1 r ;;
       Newer.Result_set_headers hs2 r1).
Proof.
  induction hs1 as [|kv hs1 IH]; intros hs2 r; [reflexivity|].
  cbn [app Newer.Result_set_headers].
  destruct (Newer.Result_set_header r kv) as [r'|]; cbn [bind];
    [apply IH | reflexivity].
Qed.

(** What one header does to a [Result], when the assignment succeeds. *)
Lemma Result_set_header_inv (r : Newer.Result) (k v : string)
  (r' : Newer.Result) :
  Newer.Result_set_header r (k, v) = Return r' ->
  r' = {| Newer.r_items := Newer.r_items r;
          Newer.r_attrs :=
            Dict.set (Newer.r_attrs r) (Str.replace_hyphen k) (VStr v) |}.
Proof.
  unfold Newer.Result_set_header. cbn [fst snd].
  destruct (Py.setattr (Newer.r_attrs r) (Str.replace_hyphen k) (VStr v))
    as [attrs|] eqn:Hs; [|discriminate].
  cbn [bind]. intros [= <-]. now rewrite (setattr_str_inv _ _ _ _ Hs).
Qed.

Lemma Result_set_headers_items (hs : list (string * string)) :
  forall r r',
    Newer.Result_set_headers hs r = Return r' ->
    Newer.r_items r' = Newer.r_items r.
Proof.
  induction hs as [|[k v] hs IH]; intros r r'.
  - now intros [= <-].
  - cbn [Newer.Result_set_headers]. intros H.
    destruct (Newer.Result_set_header r (k, v)) as [r1|] eqn:H1; [|discriminate].
    cbn [bind] in H. rewrite (IH r1 r' H).
    now rewrite (Result_set_header_inv _ _ _ _ H1).
Qed.

Lemma Result_set_headers_other (hs : list (string * string)) :
  forall r r' n,
    Newer.Result_set_headers hs r = Return r' ->
    (forall k v, In (k, v) hs -> Str.replace_hyphen k <> n) ->
    Dict.get (Newer.r_attrs r') n = Dict.get (Newer.r_attrs r) n.
Proof.
  induction hs as [|[k v] hs IH]; intros r r' n.
  - intros [= <-] _. reflexivity.
  - cbn [Newer.Result_set_headers]. intros H Hn.
    destruct (Newer.Result_set_header r (k, v)) as [r1|] eqn:H1; [|discriminate].
    cbn [bind] in H.
    rewrite (IH r1 r' n H); [|intros k' v' Hin; apply (Hn k' v'); now right].
    rewrite (Result_set_header_inv _ _ _ _ H1). cbn [Newer.r_attrs].
    apply get_set_other. intros E. exact (Hn k v (or_introl eq_refl) (eq_sym E)).
Qed.

Lemma Result_set_headers_last (hs1 hs2 : list (string * string))
  (k v : string) (r r' : Newer.Result) :
  Newer.Result_set_headers (hs1 ++ (k, v) :: hs2)%list r = Return r' ->
  (forall k' v', In (k', v') hs2 ->
     Str.replace_hyphen k' <> Str.replace_hyphen k) ->
  Dict.get (Newer.r_attrs r') (Str.replace_hyphen k) = Some (VStr v).
Proof.
  rewrite Result_set_headers_app. intros H Hlast.
  destruct (Newer.Result_set_headers hs1 r) as [r1|]; [|discriminate].
  cbn [bind Newer.Result_set_headers] in H.
  destruct (Newer.Result_set_header r1 (k, v)) as [r2|] eqn:H2; [|discriminate].
  cbn [bind] in H.
  rewrite (Result_set_headers_other hs2 r2 r' _ H Hlast).
  rewrite (Result_set_header_inv _ _ _ _ H2). cbn [Newer.r_attrs].
  apply get_set_same.
Qed.

Lemma Result_set_headers_returns (hs : list (string * string)) :
  forall r,
    (forall k v, In (k, v) hs -> settable (Str.replace_hyphen k) = true) ->
    exists r', Newer.Result_set_headers hs r = Return r'.
Proof.
  induction hs as [|[k v] hs IH]; intros r Hs; [eexists; reflexivity|].
  cbn [Newer.Result_set_headers]. unfold Newer.Result_set_header. cbn [fst snd].
  rewrite (setattr_settable _ _ _ (Hs k v (or_introl eq_refl))). cbn [bind].
  apply IH. intros k' v' Hin. apply (Hs k' v'). now right.
Qed.

Lemma Result_set_headers_raises (hs : list (string * string)) :
  forall r k v,
    In (k, v) hs -> settable (Str.replace_hyphen k) = false ->
    exists err, Newer.Result_set_headers hs r = Raise err.
Proof.
  induction hs as [|[k0 v0] hs IH]; intros r k v Hin Hs; [destruct Hin|].
  cbn [Newer.Result_set_headers].
  destruct (Newer.Result_set_header r (k0, v0)) as [r1|] eqn:H1; cbn [bind];
    [|eauto].
  destruct Hin as [Hin|Hin]; [|exact (IH r1 k v Hin Hs)].
  exfalso. injection Hin as -> ->.
  unfold Newer.Result_set_header in H1. cbn [fst snd] in H1.
  destruct (setattr_unsettable (Newer.r_attrs r) _ v Hs) as [err Herr].
  rewrite Herr in H1. discriminate.
Qed.

Lemma replace_hyphen_clean (s : string) :
  Str.contains_char "-" (Str.replace_hyphen s) = false.
Proof.
  induction s as [|a s IH]; simpl; [reflexivity|].
  destruct (Ascii.eqb_spec a "-") as [->|Hne]; simpl; [exact IH|].
  destruct (Ascii.eqb_spec a "-"); [contradiction | exact IH].
Qed.

(** The copy of the response headers onto a [Result].  It succeeds when no
    header name, its hyphens replaced by underscores, is [__class__],
    [__dict__] or [__weakref__], and raises when one is.  When it succeeds,
    every header is an attribute under its replaced name, which holds no
    hyphen: among the headers that share a replaced name the last one gives
    the value.  The attributes no header names, and the items of the
    result, are as they were. *)
Theorem Result_headers_become_attributes :
  forall hs r,
    ((forall k v, In (k, v) hs -> settable (Str.replace_hyphen k) = true) ->
     exists r', Newer.Result_set_headers hs r = Return r')
    /\ (forall k v, In (k, v) hs -> settable (Str.replace_hyphen k) = false ->
          exists err, Newer.Result_set_headers hs r = Raise err)
    /\ (forall r', Newer.Result_set_headers hs r = Return r' ->
          Newer.r_items r' = Newer.r_items r
          /\ (forall hs1 k v hs2,
                hs = (hs1 ++ (k, v) :: hs2)%list ->
                (forall k' v', In (k', v') hs2 ->
                   Str.replace_hyphen k' <> Str.replace_hyphen k) ->
                Dict.get (Newer.r_attrs r') (Str.replace_hyphen k)
                = Some (VStr v))
          /\ (forall n,
                (forall k v, In (k, v) hs -> Str.replace_hyphen k <> n) ->
                Dict.get (Newer.r_attrs r') n = Dict.get (Newer.r_attrs r) n))
    /\ (forall k, Str.contains_char "-" (Str.replace_hyphen k) = false).
Proof.
  intros hs r. split; [|split; [|split]].
  - apply Result_set_headers_returns.
  - apply Result_set_headers_raises.
  - intros r' H. split; [|split].
    + exact (Result_set_headers_items hs r r' H).
    + intros hs1 k v hs2 Hhs Hlast. rewrite Hhs in H.
      exact (Result_set_headers_last hs1 hs2 k v r r' H Hlast).
    + intros n Hn. exact (Result_set_headers_other hs r r' n H Hn).
  - intros k. apply replace_hyphen_clean.
Qed.

Lemma Result_headers_become_attributes_witness :
  exists r',
    Newer.Result_set_headers [("total-count", "3"); ("total_count", "12")]
                             (plain [("title", VStr "Dune")])
    = Return r'
    /\ Dict.get (Newer.r_attrs r') "total_count" = Some (VStr "12").
Proof.
  eexists. split; [reflexivity|].
  exact (proj1 (proj2 (proj1 (proj2 (proj2 (Result_headers_become_attributes
           [("total-count", "3"); ("total_count", "12")]
           (plain [("title", VStr "Dune")]))))
           _ eq_refl))
           [("total-count", "3")] "total_count" "12" [] eq_refl
           (fun k' v' (H : In (k', v') []) => match H with end)).
Defined.

Lemma Results_set_headers_returns (hs : list (string * string)) :
  forall rs,
    (forall k v, In (k, v) hs -> settable (Str.replace_hyphen k) = true) ->
    exists rs', Newer.Results_set_headers hs rs = Return rs'.
Proof.
  induction hs as [|[k v] hs IH]; intros rs Hs; [eexists; reflexivity|].
  cbn [Newer.Results_set_headers]. unfold Newer.Results_set_header.
  cbn [fst snd].
  destruct (String.eqb (Str.replace_hyphen k) "generator"); cbn [bind].
  - apply IH. intros k' v' Hin. apply (Hs k' v'). now right.
  - rewrite (setattr_settable _ _ _ (Hs k v (or_introl eq_refl))). cbn [bind].
    apply IH. intros k' v' Hin. apply (Hs k' v'). now right.
Qed.

(** A response header whose name becomes [generator] replaces the decoded
    stream of a [Results]: the wrapper then iterates the header's value, and
    no [next] ever returns a result; it raises [ValueError] (or
    [StopIteration] for an empty value) every time.  Any other header leaves
    the stream alone.  The copy of the headers succeeds when none of them
    is named [__class__], [__dict__] or [__weakref__]. *)
Theorem generator_header_replaces_stream :
  forall loads rs,
    (forall hs rs',
        (forall k v, In (k, v) hs -> Str.replace_hyphen k <> "generator") ->
        Newer.Results_set_headers hs rs = Return rs' ->
        Newer.rs_generator rs' = Newer.rs_generator rs)
    /\ (forall hs1 k v hs2 rs',
        Str.replace_hyphen k = "generator" ->
        (forall k' v', In (k', v') hs2 -> Str.replace_hyphen k' <> "generator") ->
        Newer.Results_set_headers (hs1 ++ (k, v) :: hs2)%list rs = Return rs' ->
        Newer.rs_generator rs' = Newer.FromHeader v
        /\ Newer.Results_next loads rs'
           = (Raise (if String.eqb v "" then StopIteration else ValueError), rs'))
    /\ (forall hs,
        (forall k v, In (k, v) hs -> settable (Str.replace_hyphen k) = true) ->
        exists rs', Newer.Results_set_headers hs rs = Return rs').
Proof.
  intros loads rs. split; [|split].
  - intros hs rs' Hn H. exact (Results_set_headers_generator hs rs rs' H Hn).
  - intros hs1 k v hs2 rs' Hk Hrest H.
    assert (Hgen : Newer.rs_generator rs' = Newer.FromHeader v).
    { rewrite Results_set_headers_app in H.
      destruct (Newer.Results_set_headers hs1 rs) as [rs1|]; [|discriminate].
      cbn [bind Newer.Results_set_headers] in H.
      destruct (Newer.Results_set_header rs1 (k, v)) as [rs2|] eqn:H2;
        [|discriminate].
      cbn [bind] in H.
      rewrite (Results_set_headers_generator hs2 rs2 rs' H Hrest).
      destruct (Results_set_header_inv _ _ _ _ H2) as [[_ ->]|[E _]];
        [reflexivity | contradiction]. }
    split; [exact Hgen|].
    unfold Newer.Results_next. rewrite Hgen.
    destruct v as [|a v]; reflexivity.
  - intros hs. apply Results_set_headers_returns.
Qed.

Lemma generator_header_replaces_stream_witness :
  Str.replace_hyphen "generator" = "generator"
  /\ exists rs rs',
       searched [chunk_meta; chunk_a] = Return (Newer.RetResults rs)
       /\ Newer.Results_set_headers [("generator", "xapiand")] rs = Return rs'
       /\ Newer.Results_next Json.loads rs' = (Raise ValueError, rs').
Proof.
  split; [reflexivity|].
  eexists. eexists. split; [reflexivity|]. split; [reflexivity|].
  exact (proj2 (proj1 (proj2 (generator_header_replaces_stream Json.loads _))
                  [] "generator" "xapiand" [] _ eq_refl
                  (fun k' v' (H : In (k', v') []) => match H with end)
                  eq_refl)).
Defined.

(** ** The streamed decoder, batch by batch *)

Section Batches.

Variable loads : string -> option pyval.

Lemma next_fuel_S (fuel : nat) (g : Newer.generator) :
  Newer.next_fuel loads (S fuel) g
  = if Newer.g_done g then Some (Stop, g)
    else match Newer.g_cache g with
         | [] =>
             match Newer.g_cache (Newer.feed g) with
             | [] => Some (Stop, Newer.finished (Newer.feed g))
             | _ :: _ => Newer.next_fuel loads fuel (Newer.feed g)
             end
         | line :: rest =>
             match Newer.decode_line loads (Newer.g_is_json g) line with
             | Newer.Skip => Newer.next_fuel loads fuel (Newer.with_cache g rest)
             | Newer.Emit v => Some (Yield v, Newer.with_cache g rest)
             | Newer.Fail => Some (Throw JSONDecodeError, Newer.finished g)
             end
         end.
Proof. reflexivity. Qed.

Lemma next_fuel_step (fuel : nat) :
  forall g r,
    Newer.next_fuel loads fuel g = Some r ->
    Newer.next_fuel loads (S fuel) g = Some r.
Proof.
  induction fuel as [|fuel IH]; intros g r; [discriminate|].
  intros H. rewrite next_fuel_S in H. rewrite next_fuel_S.
  destruct (Newer.g_done g); [exact H|].
  destruct (Newer.g_cache g) as [|line rest].
  - destruct (Newer.g_cache (Newer.feed g)); [exact H|]. apply IH. exact H.
  - destruct (Newer.decode_line loads (Newer.g_is_json g) line);
      [apply IH; exact H | exact H | exact H].
Qed.

Lemma next_fuel_le (fuel fuel' : nat) (g : Newer.generator)
  (r : step * Newer.generator) :
  (fuel <= fuel')%nat ->
  Newer.next_fuel loads fuel g = Some r ->
  Newer.next_fuel loads fuel' g = Some r.
Proof.
  intros Hle H. induction Hle as [|m Hle IH]; [exact H|].
  apply next_fuel_step. exact IH.
Qed.

(** Any fuel above the work left gives the result of [next]. *)
Lemma next_fuel_any (fuel : nat) (g : Newer.generator) :
  (Newer.fuel_for g <= fuel)%nat ->
  Newer.next_fuel loads fuel g = Some (Newer.next loads g).
Proof.
  intros Hle. exact (next_fuel_le _ _ g _ Hle (next_total loads g)).
Qed.

(** [next] follows the loops of the generator. *)
Lemma next_unfold (g : Newer.generator) :
  Newer.next loads g
  = if Newer.g_done g then (Stop, g)
    else match Newer.g_cache g with
         | [] =>
             match Newer.g_cache (Newer.feed g) with
             | [] => (Stop, Newer.finished (Newer.feed g))
             | _ :: _ => Newer.next loads (Newer.feed g)
             end
         | line :: rest =>
             match Newer.decode_line loads (Newer.g_is_json g) line with
             | Newer.Skip => Newer.next loads (Newer.with_cache g rest)
             | Newer.Emit v => (Yield v, Newer.with_cache g rest)
             | Newer.Fail => (Throw JSONDecodeError, Newer.finished g)
             end
         end.
Proof.
  pose (F := (Newer.fuel_for g + Newer.fuel_for (Newer.feed g)
              + match Newer.g_cache g with
                | [] => 0
                | _ :: rest => Newer.fuel_for (Newer.with_cache g rest)
                end)%nat).
  assert (H : Newer.next_fuel loads (S F) g = Some (Newer.next loads g)).
  { apply next_fuel_any. unfold F. lia. }
  rewrite next_fuel_S in H.
  destruct (Newer.g_done g); [congruence|].
  destruct (Newer.g_cache g) as [|line rest] eqn:Hc.
  - destruct (Newer.g_cache (Newer.feed g)) eqn:Hf; [congruence|].
    rewrite (next_fuel_any F (Newer.feed g)) in H; [congruence | unfold F; lia].
  - destruct (Newer.decode_line loads (Newer.g_is_json g) line); try congruence.
    rewrite (next_fuel_any F (Newer.with_cache g rest)) in H;
      [congruence | unfold F; lia].
Qed.

Lemma run_next_eq (n : nat) (g g' : Newer.generator) :
  Newer.next loads g = Newer.next loads g' -> run loads n g = run loads n g'.
Proof. intros H. destruct n; [reflexivity|]. cbn [run]. now rewrite H. Qed.

(** A generator whose lines are used up yields what is left in its cache. *)
Lemma run_cache (cache : list string) :
  forall g n,
    Newer.g_done g = false -> Newer.g_cache g = cache -> Newer.g_lines g = [] ->
    (length cache < n)%nat ->
    run loads n g = Some (decode_all loads (Newer.g_is_json g) cache).
Proof.
  induction cache as [|line rest IH]; intros g n Hd Hc Hl Hn.
  - destruct n; [lia|]. cbn [run]. rewrite next_unfold, Hd, Hc.
    unfold Newer.feed at 1. cbn [Newer.g_cache]. rewrite Hl.
    rewrite firstn_nil. reflexivity.
  - assert (Hrest : forall m, (length rest < m)%nat ->
              run loads m (Newer.with_cache g rest)
              = Some (decode_all loads (Newer.g_is_json g) rest)).
    { intros m Hm. apply (IH (Newer.with_cache g rest) m); auto. }
    destruct n; [lia|]. cbn [run decode_all]. rewrite next_unfold, Hd, Hc.
    destruct (Newer.decode_line loads (Newer.g_is_json g) line) eqn:Hline.
    + change (match Newer.next loads (Newer.with_cache g rest) with
              | (Yield v, g') =>
                  match run loads n g' with
                  | Some (l, err) => Some (v :: l, err)
                  | None => None
                  end
              | (Stop, _) => Some ([], None)
              | (Throw err, _) => Some ([], Some err)
              end)
        with (run loads (S n) (Newer.with_cache g rest)).
      apply Hrest. simpl in Hn. lia.
    + rewrite (Hrest n); [|simpl in Hn; lia].
      destruct (decode_all loads (Newer.g_is_json g) rest); reflexivity.
    + reflexivity.
Qed.

End Batches.

Lemma decode_all_raw (loads : string -> option pyval) (lines : list string) :
  decode_all loads false lines = (map VStr lines, None).
Proof.
  induction lines as [|l lines IH]; simpl; [reflexivity|]. now rewrite IH.
Qed.

(** For a stream of at most 100 chunks (one batch of the generator), a
    consumer gets the loop body applied to the non-empty chunks, in order:
    the empty chunks are dropped, a bracket-only chunk of a JSON stream is
    skipped, and the first chunk the JSON decoder refuses ends the stream
    with its error.  Of a stream that is not JSON the consumer gets exactly
    the non-empty chunks. *)
Theorem stream_of_one_batch :
  forall loads is_json lines n,
    (length lines <= 100)%nat -> (length lines < n)%nat ->
    run loads n (Newer.start is_json lines)
    = Some (decode_all loads is_json (filter Newer.nonempty lines))
    /\ (is_json = false ->
        run loads n (Newer.start is_json lines)
        = Some (map VStr (filter Newer.nonempty lines), None)).
Proof.
  intros loads is_json lines n Hlen Hn.
  assert (H : run loads n (Newer.start is_json lines)
              = Some (decode_all loads is_json (filter Newer.nonempty lines))).
  { pose (g1 := Newer.feed (Newer.start is_json lines)).
    assert (Hc : Newer.g_cache g1 = filter Newer.nonempty lines).
    { unfold g1, Newer.feed, Newer.start. cbn [Newer.g_cache Newer.g_size Newer.g_lines].
      now rewrite (firstn_all2 lines Hlen). }
    assert (Hl : Newer.g_lines g1 = []).
    { unfold g1, Newer.feed, Newer.start. cbn [Newer.g_size Newer.g_lines].
      now apply skipn_all2. }
    assert (Hlt : (length (filter Newer.nonempty lines) < n)%nat).
    { pose proof (filter_length_le Newer.nonempty lines). lia. }
    destruct (filter Newer.nonempty lines) as [|l c] eqn:Hf.
    - destruct n; [lia|]. cbn [run]. rewrite next_unfold.
      cbn [Newer.start Newer.g_done Newer.g_cache]. fold g1. rewrite Hc.
      reflexivity.
    - rewrite (run_next_eq loads n (Newer.start is_json lines) g1).
      + rewrite <- Hf in *.
        apply (run_cache loads (filter Newer.nonempty lines) g1 n);
          [reflexivity | exact Hc | exact Hl | exact Hlt].
      + rewrite (next_unfold loads (Newer.start is_json lines)).
        cbn [Newer.start Newer.g_done Newer.g_cache]. fold g1. rewrite Hc.
        reflexivity. }
  split; [exact H|]. intros ->. rewrite H. now rewrite decode_all_raw.
Qed.

Lemma stream_of_one_batch_witness :
  (length [chunk_a; ""; chunk_close; chunk_open] <= 100)%nat
  /\ (length [chunk_a; ""; chunk_close; chunk_open] < 5)%nat
  /\ run Json.loads 5 (Newer.start true [chunk_a; ""; chunk_close; chunk_open])
     = Some ([VDict [("a", VInt 1)]; VDict [("b", VDict [("c", VList [])])]], None).
Proof.
  assert (H1 : (length [chunk_a; ""; chunk_close; chunk_open] <= 100)%nat)
    by (simpl; lia).
  assert (H2 : (length [chunk_a; ""; chunk_close; chunk_open] < 5)%nat)
    by (simpl; lia).
  split; [exact H1|]. split; [exact H2|].
  exact (proj1 (stream_of_one_batch Json.loads true
                  [chunk_a; ""; chunk_close; chunk_open] 5 H1 H2)).
Defined.

Lemma filter_blank (blanks : list string) :
  Forall (fun l => l = "") blanks -> filter Newer.nonempty blanks = [].
Proof.
  induction 1 as [|l blanks Hl _ IH]; [reflexivity|].
  subst l. simpl. exact IH.
Qed.

(** A batch of 100 empty chunks ends the stream: whatever follows it is
    never decoded, and the consumer gets nothing. *)
Theorem blank_batch_ends_stream :
  forall loads is_json blanks rest n,
    length blanks = 100%nat -> Forall (fun l => l = "") blanks -> (0 < n)%nat ->
    run loads n (Newer.start is_json (blanks ++ rest)%list) = Some ([], None)
    /\ fst (Newer.next loads (Newer.start is_json (blanks ++ rest)%list)) = Stop.
Proof.
  intros loads is_json blanks rest n Hlen Hblank Hn.
  assert (Hnext : fst (Newer.next loads (Newer.start is_json (blanks ++ rest)%list))
                  = Stop).
  { rewrite next_unfold. cbn [Newer.start Newer.g_done Newer.g_cache].
    unfold Newer.feed at 1. cbn [Newer.g_cache].
    change (Newer.g_size (Newer.start is_json (blanks ++ rest)%list)) with 100%nat.
    change (Newer.g_lines (Newer.start is_json (blanks ++ rest)%list))
      with (blanks ++ rest)%list.
    rewrite firstn_app, Hlen, Nat.sub_diag, firstn_O, app_nil_r.
    rewrite <- Hlen, firstn_all, (filter_blank blanks Hblank). reflexivity. }
  split; [|exact Hnext].
  destruct n; [lia|]. cbn [run].
  destruct (Newer.next loads (Newer.start is_json (blanks ++ rest)%list))
    as [st g']. simpl in Hnext. subst st. reflexivity.
Qed.

Lemma blank_batch_ends_stream_witness :
  length (repeat "" 100) = 100%nat
  /\ Forall (fun l => l = "") (repeat "" 100)
  /\ run Json.loads 3 (Newer.start true (repeat "" 100 ++ [chunk_meta; chunk_a])%list)
     = Some ([], None).
Proof.
  assert (H1 : length (repeat "" 100) = 100%nat) by apply repeat_length.
  assert (H2 : Forall (fun l => l = "") (repeat "" 100)).
  { apply Forall_forall. intros x Hx. exact (repeat_spec _ _ _ Hx). }
  assert (H3 : (0 < 3)%nat) by lia.
  split; [exact H1|]. split; [exact H2|].
  exact (proj1 (blank_batch_ends_stream Json.loads true (repeat "" 100)
                  [chunk_meta; chunk_a] 3 H1 H2 H3)).
Defined.

Lemma next_fuel_raw (loads : string -> option pyval) (fuel : nat) :
  forall g st g',
    Newer.g_is_json g = false ->
    Newer.next_fuel loads fuel g = Some (st, g') ->
    match st with
    | Yield v => exists l, v = VStr l
    | Stop => True
    | Throw _ => False
    end.
Proof.
  induction fuel as [|fuel IH]; intros g st g' Hj; [discriminate|].
  rewrite next_fuel_S.
  destruct (Newer.g_done g); [intros [= <- <-]; exact I|].
  destruct (Newer.g_cache g) as [|line rest].
  - destruct (Newer.g_cache (Newer.feed g)); [intros [= <- <-]; exact I|].
    apply IH. exact Hj.
  - unfold Newer.decode_line. rewrite Hj. intros [= <- <-]. eauto.
Qed.

(** A streamed response that is not JSON cannot be wrapped: its first
    chunk is a string, not a metadata record, so the call raises
    [AttributeError], or [StopIteration] when the first batch holds no
    non-empty chunk.  It never returns. *)
Theorem raw_stream_never_returns :
  forall e stream key res,
    Py.truthy stream = true ->
    Newer.is_json res = false ->
    Newer.decode e stream key res = Raise AttributeError
    \/ Newer.decode e stream key res = Raise StopIteration.
Proof.
  intros e stream key res Hs Hj. unfold Newer.decode. rewrite Hs, Hj.
  pose proof (next_total (env_loads e) (Newer.start false (iter_lines res))) as Ht.
  destruct (Newer.next (env_loads e) (Newer.start false (iter_lines res)))
    as [st g'].
  pose proof (next_fuel_raw (env_loads e) _
                (Newer.start false (iter_lines res)) st g' eq_refl Ht) as Hraw.
  destruct st as [v| |err].
  - destruct Hraw as [l ->]. left. reflexivity.
  - right. reflexivity.
  - destruct Hraw.
Qed.

Lemma raw_stream_never_returns_witness :
  Newer.search live_client
    (env_of {| status_code := 200; headers := [("content-type", "text/plain")];
               content := ""; iter_lines := ["first"; "second"] |})
    (IndexOne "books") Newer.no_query_args (VBool false) (VBool false) None Kw.empty
  = Raise AttributeError
  \/ Newer.search live_client
       (env_of {| status_code := 200; headers := [("content-type", "text/plain")];
                  content := ""; iter_lines := ["first"; "second"] |})
       (IndexOne "books") Newer.no_query_args (VBool false) (VBool false) None Kw.empty
     = Raise StopIteration.
Proof.
  exact (raw_stream_never_returns
           (env_of {| status_code := 200; headers := [("content-type", "text/plain")];
                      content := ""; iter_lines := ["first"; "second"] |})
           (VBool true) "results"
           {| status_code := 200; headers := [("content-type", "text/plain")];
              content := ""; iter_lines := ["first"; "second"] |}
           eq_refl eq_refl).
Defined.

(** ** The legacy generator *)

Lemma load_all_raw_lines (loads : string -> option pyval) (n : nat) :
  forall lines,
    (length lines < n)%nat ->
    legacy_run loads false n lines
    = Some (map VStr (filter Newer.nonempty lines), None).
Proof.
  induction n as [|n IH]; intros lines Hn; [lia|].
  induction lines as [|line rest IHl]; [reflexivity|].
  cbn [legacy_run Legacy.next filter]. unfold Newer.nonempty at 1.
  destruct (String.eqb line "") eqn:E; cbn [negb].
  - assert (H : legacy_run loads false (S n) rest
                = Some (map VStr (filter Newer.nonempty rest), None)).
    { apply IHl. simpl in Hn. lia. }
    cbn [legacy_run] in H. exact H.
  - rewrite IH; [reflexivity | simpl in Hn; lia].
Qed.

(** The legacy generator drops the empty lines and hands every other line
    to the JSON decoder as it is (no bracket is skipped, nothing is
    stripped or completed), up to the first line the decoder refuses; of a
    response that is not JSON it yields the non-empty lines themselves. *)
Theorem legacy_stream :
  forall loads lines n,
    (length lines < n)%nat ->
    legacy_run loads true n lines
    = Some (load_all loads (filter Newer.nonempty lines))
    /\ legacy_run loads false n lines
       = Some (map VStr (filter Newer.nonempty lines), None).
Proof.
  intros loads lines n Hn. split; [|now apply load_all_raw_lines].
  revert lines Hn. induction n as [|n IH]; intros lines Hn; [lia|].
  induction lines as [|line rest IHl]; [reflexivity|].
  cbn [legacy_run Legacy.next filter]. unfold Newer.nonempty at 1.
  destruct (String.eqb line "") eqn:E; cbn [negb].
  - assert (H : legacy_run loads true (S n) rest
                = Some (load_all loads (filter Newer.nonempty rest))).
    { apply IHl. simpl in Hn. lia. }
    cbn [legacy_run] in H. exact H.
  - cbn [load_all]. destruct (loads line); [|reflexivity].
    rewrite IH; [|simpl in Hn; lia].
    destruct (load_all loads (filter Newer.nonempty rest)); reflexivity.
Qed.

Lemma legacy_stream_witness :
  (length [chunk_a; ""; chunk_close] < 4)%nat
  /\ legacy_run Json.loads true 4 [chunk_a; ""; chunk_close]
     = Some ([VDict [("a", VInt 1)]], Some JSONDecodeError).
Proof.
  assert (H : (length [chunk_a; ""; chunk_close] < 4)%nat) by (simpl; lia).
  split; [exact H|].
  exact (proj1 (legacy_stream Json.loads [chunk_a; ""; chunk_close] 4 H)).
Defined.

(** ** Failures of the dispatchers *)





(** What the transport raises reaches the caller unchanged, in both
    clients and for every action: nothing is retried, caught or
    translated, and the caller's default for a missing document plays no
    part. *)
Theorem transport_errors_propagate :
  forall e action index k req stream key err,
    env_send e req = Raise err ->
    (forall self,
        Newer.prepare self e action index k = Return (req, stream, key) ->
        Newer._send_request self e action index k = Raise err)
    /\ (forall self,
        Legacy.prepare self e action index k = Return (req, stream, key) ->
        Legacy.send_request self e action index k = Raise err).
Proof.
  intros e action index k req stream key err Hs. split; intros self Hp.
  - unfold Newer._send_request. rewrite Hp. cbn [bind]. rewrite Hs. reflexivity.
  - unfold Legacy.send_request. rewrite Hp. cbn [bind]. rewrite Hs. reflexivity.
Qed.

Lemma transport_errors_propagate_witness :
  Newer.get live_client
    {| env_loads := Json.loads; env_isfile := fun _ => false;
       env_send := fun _ => Raise (TransportError "timeout") |}
    (IndexOne "books") (Some "42") (Some (VStr "fallback")) (VBool false)
    (VBool false) None
  = Raise (TransportError "timeout").
Proof.
  exact (proj1 (transport_errors_propagate
                  {| env_loads := Json.loads; env_isfile := fun _ => false;
                     env_send := fun _ => Raise (TransportError "timeout") |}
                  "get" (IndexOne "books")
                  (Newer.get_kwargs (Some "42") (Some (VStr "fallback"))
                                    (VBool false) (VBool false) None)
                  _ _ _ (TransportError "timeout") eq_refl)
               live_client eq_refl).
Defined.

(** ** The legacy response *)

(** The legacy client needs the [content-type] header: a response with
    status 200 that lacks it raises [KeyError].  The newer client reads
    the header with a default and takes such a response as not JSON. *)
Theorem missing_content_type :
  forall e res,
    Dispatch.header (headers res) "content-type" = None ->
    Newer.is_json res = false
    /\ (status_code res = 200 ->
        forall self action endpoint k req stream key,
          Legacy.prepare self e action endpoint k = Return (req, stream, key) ->
          env_send e req = Return res ->
          Legacy.send_request self e action endpoint k
          = Raise (KeyError "content-type")).
Proof.
  intros e res Hh. split.
  - unfold Newer.is_json. rewrite Hh. reflexivity.
  - intros H200 self action endpoint k req stream key Hp Hs.
    rewrite (legacy_send_request_eq _ _ _ _ _ _ _ _ _ Hp Hs).
    unfold Legacy.after_response. rewrite H200, Hh. reflexivity.
Qed.

Lemma missing_content_type_witness :
  Dispatch.header (headers {| status_code := 200; headers := [("server", "xapiand")];
                              content := "{}"; iter_lines := [] |})
                  "content-type" = None
  /\ Legacy.get legacy_client
       (env_of {| status_code := 200; headers := [("server", "xapiand")];
                  content := "{}"; iter_lines := [] |})
       (IndexOne "books") (Some "42") (VBool false) None
     = Raise (KeyError "content-type").
Proof.
  split; [reflexivity|].
  exact (proj2 (missing_content_type
                  (env_of {| status_code := 200; headers := [("server", "xapiand")];
                             content := "{}"; iter_lines := [] |})
                  {| status_code := 200; headers := [("server", "xapiand")];
                     content := "{}"; iter_lines := [] |} eq_refl)
               eq_refl legacy_client "get" (IndexOne "books")
               (Legacy.read_kwargs (Some "42") (VBool false) None)
               _ _ _ eq_refl eq_refl).
Defined.

(** Whatever the legacy dispatcher returns is keyed by the action's key,
    and its [size] is the [x-matched-count] header of the response when
    there is one and is absent otherwise: the fallback size [0] of a failed
    search is never produced, because a response that is not [200] has
    raised before. *)
Theorem legacy_size_is_the_header :
  forall self e action endpoint k req stream key res r,
    Legacy.prepare self e action endpoint k = Return (req, stream, key) ->
    env_send e req = Return res ->
    Legacy.send_request self e action endpoint k = Return r ->
    status_code res = 200
    /\ Legacy.ret_key r = key
    /\ Legacy.ret_size r
       = option_map VStr (Dispatch.header (headers res) "x-matched-count").
Proof.
  intros self e action endpoint k req stream key res r Hp Hs.
  rewrite (legacy_send_request_eq _ _ _ _ _ _ _ _ _ Hp Hs).
  unfold Legacy.after_response.
  destruct (Z.eqb_spec (status_code res) 200) as [H200|Hne]; [|discriminate].
  cbn [negb].
  destruct (Dispatch.header (headers res) "content-type"); [|discriminate].
  match goal with
  | |- bind ?m _ = _ -> _ => destruct m as [results|]; [|discriminate]
  end.
  cbn [bind].
  match goal with
  | |- bind ?m _ = _ -> _ => destruct m as [results'|]; [|discriminate]
  end.
  cbn [bind]. intros [= <-]. cbn [Legacy.ret_key Legacy.ret_size].
  split; [exact H200|]. split; [reflexivity|].
  destruct (Dispatch.header (headers res) "x-matched-count"); [reflexivity|].
  unfold Legacy.ok. rewrite H200. cbn. rewrite andb_false_r. reflexivity.
Qed.

Lemma legacy_size_is_the_header_witness :
  exists r,
    Legacy.get legacy_client
      (env_of {| status_code := 200;
                 headers := [("Content-Type", "application/json");
                             ("X-Matched-Count", "3")];
                 content := chunk_a; iter_lines := [] |})
      (IndexOne "books") (Some "42") (VBool false) None
    = Return r
    /\ Legacy.ret_size r = Some (VStr "3").
Proof.
  eexists. split; [reflexivity|].
  exact (proj2 (proj2 (legacy_size_is_the_header legacy_client
           (env_of {| status_code := 200;
                      headers := [("Content-Type", "application/json");
                                  ("X-Matched-Count", "3")];
                      content := chunk_a; iter_lines := [] |})
           "get" (IndexOne "books")
           (Legacy.read_kwargs (Some "42") (VBool false) None)
           _ _ _ _ _ eq_refl eq_refl eq_refl))).
Defined.

(** ** The query parameters of the action methods *)


















(** The writes of both clients ([delete], [post], [put], [patch]; [delete],
    [index], [patch]) send exactly two query parameters: [commit], which is
    the caller's value when one is given (an explicit [False] included) and
    the client's flag when the caller passes [None], and [pretty]; whatever
    [params] the caller put in [kwargs] is replaced. *)
Theorem write_parameters :
  forall e index id body commit pretty kwargs,
    (forall self,
        let mapping := Some (write_mapping (Newer.x_commit self) commit pretty) in
        (exists req s key,
            Newer.prepare self e "delete" index
              (Newer.delete_kwargs self id commit pretty kwargs)
            = Return (req, s, key)
            /\ req_verb req = DELETE /\ req_params req = mapping)
        /\ (exists req s key,
            Newer.prepare self e "post" index
              (Newer.post_kwargs self body commit pretty kwargs)
            = Return (req, s, key)
            /\ req_verb req = POST /\ req_params req = mapping)
        /\ (exists req s key,
            Newer.prepare self e "put" index
              (Newer.put_kwargs self body id commit pretty kwargs)
            = Return (req, s, key)
            /\ req_verb req = PUT /\ req_params req = mapping)
        /\ (exists req s key,
            Newer.prepare self e "patch" index
              (Newer.patch_kwargs self id body commit pretty kwargs)
            = Return (req, s, key)
            /\ req_verb req = PATCH /\ req_params req = mapping))
    /\ (forall self,
        let mapping := Some (write_mapping (Legacy.x_commit self) commit pretty) in
        (exists req s key,
            Legacy.prepare self e "index" index
              (Legacy.write_kwargs self id body commit pretty kwargs)
            = Return (req, s, key)
            /\ req_verb req = PUT /\ req_params req = mapping)
        /\ (exists req s key,
            Legacy.prepare self e "patch" index
              (Legacy.write_kwargs self id body commit pretty kwargs)
            = Return (req, s, key)
            /\ req_verb req = PATCH /\ req_params req = mapping)).
Proof.
  intros e index id body commit pretty kwargs. split; intros self mapping.
  - repeat split; do 3 eexists; (split; [reflexivity|]); split; reflexivity.
  - repeat split; do 3 eexists; (split; [reflexivity|]); split; reflexivity.
Qed.

Example explicit_false_commit_wins :
  write_mapping (VBool true) (VBool false) VNone
  = [("commit", VInt 0); ("pretty", VNone)].
Proof. reflexivity. Qed.

(** ** A document fetched by [get] *)




(** ** The length of a wrapper and the response headers *)

(** Unless its [_query] has a key [__dict__], the metadata record never
    sets the length of a [Results]: the wrapper a call returns has length 0
    unless a response header is named [total_count] (or [total-count]). *)
Theorem metadata_never_sets_length :
  forall meta src rs hs rs',
    Newer.Results_init meta src = Return rs ->
    ~ In "__dict__" (Dict.keys (metadata_query meta)) ->
    Newer.Results_set_headers hs rs = Return rs' ->
    (forall k v, In (k, v) hs -> Str.replace_hyphen k <> "total_count") ->
    Newer.Results_len rs' = Return 0.
Proof.
  intros meta src rs hs rs' Hinit Hnd Hset Hhs.
  destruct (Results_init_len meta src rs Hinit Hnd) as [Hnone _].
  unfold Newer.Results_len.
  rewrite (Results_set_headers_other hs rs rs' "total_count" Hset Hhs), Hnone.
  reflexivity.
Qed.

Lemma metadata_never_sets_length_witness :
  exists rs rs',
    Newer.Results_init (VDict [("_query", VDict [("_total_count", VInt 5)])])
                       (Newer.FromList [])
    = Return rs
    /\ Newer.Results_set_headers [("content-type", "application/json")] rs
       = Return rs'
    /\ Newer.Results_len rs' = Return 0.
Proof.
  eexists. eexists. split; [reflexivity|]. split; [reflexivity|].
  apply (metadata_never_sets_length
           (VDict [("_query", VDict [("_total_count", VInt 5)])])
           (Newer.FromList []) _ [("content-type", "application/json")] _
           eq_refl).
  - simpl. intuition discriminate.
  - reflexivity.
  - intros k v [H|[]]. inversion H. discriminate.
Defined.

(** ** What the legacy dispatcher returns *)

(** For a response with status 200 and a [content-type] header the legacy
    dispatcher decodes nothing of a streamed action when it is called: it
    returns the generator over the lines of the response, whatever they
    hold, and a line that is not JSON raises only when the caller reaches
    it. *)
Theorem legacy_search_is_lazy :
  forall self e action endpoint k req stream key res ct,
    Legacy.prepare self e action endpoint k = Return (req, stream, key) ->
    env_send e req = Return res ->
    status_code res = 200 ->
    Dispatch.header (headers res) "content-type" = Some ct ->
    Py.truthy stream = true ->
    key <> "result" ->
    Legacy.send_request self e action endpoint k
    = Return {| Legacy.ret_key := key;
                Legacy.ret_results :=
                  Legacy.Lazy (Str.contains "application/json" ct) (iter_lines res);
                Legacy.ret_size :=
                  option_map VStr
                    (Dispatch.header (headers res) "x-matched-count") |}.
Proof.
  intros self e action endpoint k req stream key res ct Hp Hs H200 Hct Hst Hkey.
  rewrite (legacy_send_request_eq _ _ _ _ _ _ _ _ _ Hp Hs).
  unfold Legacy.after_response. rewrite H200, Hct, Hst. cbn [Z.eqb negb bind].
  simpl (200 =? 200). cbn [negb bind].
  apply String.eqb_neq in Hkey. rewrite Hkey. cbn [bind].
  destruct (Dispatch.header (headers res) "x-matched-count"); [reflexivity|].
  unfold Legacy.ok. rewrite H200. simpl. rewrite andb_false_r. reflexivity.
Qed.

Lemma legacy_search_is_lazy_witness :
  Legacy.search legacy_client
    (env_of (stream_response [chunk_b; "not json"]))
    (IndexOne "books") Newer.no_query_args (VBool false) None Kw.empty
  = Return {| Legacy.ret_key := "results";
              Legacy.ret_results := Legacy.Lazy true [chunk_b; "not json"];
              Legacy.ret_size := None |}.
Proof.
  assert (H : "results" <> "result") by discriminate.
  exact (legacy_search_is_lazy legacy_client
           (env_of (stream_response [chunk_b; "not json"]))
           "search" (IndexOne "books")
           (Legacy.search_kwargs Newer.no_query_args (VBool false) None Kw.empty)
           _ _ _ (stream_response [chunk_b; "not json"]) "application/json"
           eq_refl eq_refl eq_refl eq_refl eq_refl H).
Defined.

(** For a response with status 200 the legacy dispatcher returns, under the
    key [result], the body itself for an action that is not streamed: the
    decoded JSON value, of any kind, when the content type says JSON, and
    the raw content otherwise; a body that is not valid JSON raises the
    decoder's error. *)
Theorem legacy_result_is_the_body :
  forall self e action endpoint k req stream res ct,
    Legacy.prepare self e action endpoint k = Return (req, stream, "result") ->
    env_send e req = Return res ->
    status_code res = 200 ->
    Dispatch.header (headers res) "content-type" = Some ct ->
    Py.truthy stream = false ->
    (Str.contains "application/json" ct = false ->
     exists r, Legacy.send_request self e action endpoint k = Return r
               /\ Legacy.ret_results r = Legacy.Item (VStr (content res)))
    /\ (Str.contains "application/json" ct = true ->
        forall v, env_loads e (content res) = Some v ->
        exists r, Legacy.send_request self e action endpoint k = Return r
                  /\ Legacy.ret_results r = Legacy.Item v)
    /\ (Str.contains "application/json" ct = true ->
        env_loads e (content res) = None ->
        Legacy.send_request self e action endpoint k = Raise JSONDecodeError).
Proof.
  intros self e action endpoint k req stream res ct Hp Hs H200 Hct Hst.
  rewrite (legacy_send_request_eq _ _ _ _ _ _ _ _ _ Hp Hs).
  unfold Legacy.after_response. rewrite H200, Hct, Hst.
  simpl (200 =? 200). cbn [negb].
  split; [|split].
  - intros ->. eexists. split; reflexivity.
  - intros -> v ->. eexists. split; reflexivity.
  - intros -> ->. reflexivity.
Qed.

Lemma legacy_result_is_the_body_witness :
  exists r,
    Legacy.get legacy_client
      (env_of {| status_code := 200;
                 headers := [("content-type", "application/json")];
                 content := "[1, 2]"; iter_lines := [] |})
      (IndexOne "books") (Some "42") (VBool false) None
    = Return r
    /\ Legacy.ret_results r = Legacy.Item (VList [VInt 1; VInt 2]).
Proof.
  exact (proj1 (proj2 (legacy_result_is_the_body legacy_client
           (env_of {| status_code := 200;
                      headers := [("content-type", "application/json")];
                      content := "[1, 2]"; iter_lines := [] |})
           "get" (IndexOne "books")
           (Legacy.read_kwargs (Some "42") (VBool false) None)
           _ _ _ "application/json" eq_refl eq_refl eq_refl eq_refl eq_refl))
         eq_refl (VList [VInt 1; VInt 2]) eq_refl).
Defined.

(** ** The two clients side by side *)




(** ** A wrapper over a plain response *)

(** A [Results] over the one-element list of a plain response (what
    [search] returns when the caller turns streaming off), or over any list
    whose first element [Result] accepts, is not a finite sequence: every
    step of a loop over it starts the list afresh and returns its first
    element again, so the loop never ends. *)
Theorem plain_wrapper_never_ends :
  forall loads rs v rest r,
    Newer.rs_generator rs = Newer.FromList (v :: rest) ->
    Newer.Result_init v = Return r ->
    Newer.Results_next loads rs = (Return r, rs)
    /\ forall n, drain loads n rs = None.
Proof.
  intros loads rs v rest r Hg Hr.
  assert (Hnext : Newer.Results_next loads rs = (Return r, rs)).
  { unfold Newer.Results_next. rewrite Hg, Hr. reflexivity. }
  split; [exact Hnext|].
  induction n as [|n IH]; [reflexivity|].
  cbn [drain]. rewrite Hnext, IH. reflexivity.
Qed.

Lemma plain_wrapper_never_ends_witness :
  exists rs,
    Newer.search live_client
      (env_of {| status_code := 200;
                 headers := [("content-type", "application/json")];
                 content := chunk_a; iter_lines := [] |})
      (IndexOne "books") Newer.no_query_args (VBool false) (VBool false) None
      {| kw_ip := None; kw_port := None; kw_nodename := None; kw_id := None;
         kw_body := None; kw_default := None; kw_params := None;
         kw_stream := Some (VBool false); kw_other := [] |}
    = Return (Newer.RetResults rs)
    /\ Newer.Results_next Json.loads rs = (Return (plain [("a", VInt 1)]), rs)
    /\ drain Json.loads 50 rs = None.
Proof.
  eexists. split; [reflexivity|].
  match goal with
  | |- _ /\ drain _ _ ?rs = None =>
      destruct (plain_wrapper_never_ends Json.loads rs (VDict [("a", VInt 1)]) []
                  (plain [("a", VInt 1)]) eq_refl eq_refl) as [H1 H2]
  end.
  split; [exact H1 | exact (H2 50%nat)].
Defined.
